(** * quantization_pruning.ipynb: a shallow embedding of the notebook

    The notebook trains a small MNIST classifier and compresses it three
    ways (post-training quantization, quantization-aware training,
    pruning), recording model sizes and accuracies in two dictionaries.

    Apart from a little array arithmetic, everything the notebook does is
    a call into TensorFlow, the operating system or the console.  The
    embedding keeps the authored code (the five functions and the cells)
    as monadic programs over a state made of the Python heap holding the
    dictionaries, the state of the outside world, and the log of the calls
    issued so far.  The outside world is an interface ([Runtime]): its
    answers are arbitrary, and every call may raise.  The numpy operations
    the notebook applies itself (division, cast, argmax, comparison, mean)
    are functions on lists of binary64 floats. *)

From Stdlib Require Import ZArith Floats DecimalString Lia.
From Stdlib Require Import Strings.Byte.
From stdpp Require Import base list strings.

Local Open Scope string_scope.
Local Open Scope list_scope.
Local Open Scope Z_scope.
Set Warnings "-inexact-float".

(** ** Python values and dictionaries *)

(** The values that end up in the metric tables, and their keys. *)
Inductive pyval :=
| VNone
| VInt (z : Z)
| VFloat (x : float)
| VStr (s : string).

(** A [dict] keeps its items in insertion order. *)
Definition dict := list (pyval * pyval).

(** [d[k] = v] for a string key: an existing key keeps its position and
    only its value is replaced, a new key goes to the end. *)
Definition key_is (k : string) (k' : pyval) : bool :=
  match k' with
  | VStr s => String.eqb s k
  | _ => false
  end.

Fixpoint dict_set (k : string) (v : pyval) (d : dict) : dict :=
  match d with
  | [] => [(VStr k, v)]
  | (k', v') :: d' =>
      if key_is k k' then (k', v) :: d' else (k', v') :: dict_set k v d'
  end.

Definition dict_keys (d : dict) : list pyval := d.*1.

(** Exceptions: the ones Python and numpy raise for the operations the
    notebook applies itself, and whatever a call into the outside world
    raises. *)
Inductive exn :=
| IndexError
| ValueError
| ComparisonError
| DanglingReference
| External (name : string).

(** ** numpy *)

Definition array3 (T : Type) := list (list (list T)).

Definition float_of_Z (z : Z) : float := PrimFloat.of_uint63 (Uint63.of_Z z).

Definition uint8_to_float (b : byte) : float :=
  float_of_Z (Z.of_N (Byte.to_N b)).

(** [a / d] for a uint8 array and a Python float: a float64 array. *)
Definition true_divide (a : array3 byte) (d : float) : array3 float :=
  map (map (map (fun b => (uint8_to_float b / d)%float))) a.

(** Closed unit interval, on float64. *)
Definition in_unit_interval (x : float) : bool :=
  ((0 <=? x) && (x <=? 1))%float.

(** float32 values are kept as the float64 numbers they denote. *)
Inductive float32 := F32 (x : float).

Definition round_to_float32 (x : float) : float :=
  match Prim2SF x with
  | S754_finite s m e =>
      SF2Prim (binary_normalize 24 128 (cond_Zopp s (Z.pos m)) e s)
  | _ => x
  end.

Definition astype_float32 (a : array3 float) : array3 float32 :=
  map (map (map (fun x => F32 (round_to_float32 x)))) a.

(** [np.expand_dims(image, axis=0)] of a 2-d image. *)
Definition expand_dims0 {T} (image : list (list T)) : array3 T := [image].

(** [np.argmax] of a 1-d float array: the first index of the maximum,
    the first nan when there is one, ValueError on an empty array. *)
Fixpoint argmax_from (mp : float) (max_ind i : Z) (xs : list float) : Z :=
  match xs with
  | [] => max_ind
  | x :: xs' =>
      if (x <=? mp)%float then argmax_from mp max_ind (i + 1) xs'
      else if is_nan x then i
      else argmax_from x i (i + 1) xs'
  end.

Definition argmax (xs : list float) : exn + Z :=
  match xs with
  | [] => inl ValueError
  | x :: xs' => inr (if is_nan x then 0 else argmax_from x 0 1 xs')
  end.

(** [a == b] on 1-d integer arrays, with numpy's broadcasting of a
    length-one operand; shapes that do not broadcast are an error. *)
Definition np_equal (a b : list Z) : exn + list bool :=
  if (length a =? length b)%nat then inr (zip_with Z.eqb a b)
  else match a, b with
       | [x], _ => inr (map (Z.eqb x) b)
       | _, [y] => inr (map (fun x => Z.eqb x y) a)
       | _, _ => inl ComparisonError
       end.

Definition count_true (bs : list bool) : nat := length (filter (fun b => b = true) bs).

(** [.mean()] of a boolean array: the number of True entries divided by
    the number of entries, in float64 (nan for an empty array). *)
Definition np_mean (bs : list bool) : float :=
  (float_of_Z (Z.of_nat (count_true bs)) / float_of_Z (Z.of_nat (length bs)))%float.

(** [np.ceil(x).astype(np.int32)]; what the cast gives outside the int32
    range (and for nan) is the x86 value, the least int32. *)
Definition wrap_int32 (z : Z) : Z := (z + 2 ^ 31) mod 2 ^ 32 - 2 ^ 31.

Definition ceil_int32 (x : float) : Z :=
  match Prim2SF x with
  | S754_zero _ => 0
  | S754_finite s m e =>
      let n := cond_Zopp s (Z.pos m) in
      let c := if 0 <=? e then n * 2 ^ e else - ((- n) / 2 ^ (- e)) in
      if (- 2 ^ 31 <=? c) && (c <? 2 ^ 31) then c else - 2 ^ 31
  | _ => - 2 ^ 31
  end.

(** ** The outside world *)

Definition path := string.
Definition loc := nat.

(** Objects of the libraries are known by a handle. *)
Definition keras_layer := nat.
Definition keras_model := nat.
Definition history := nat.
Definition variable := nat.
Definition schedule := nat.
Definition callback := nat.
Definition converter := nat.
Definition interpreter := nat.
Definition tensor_fn := nat.
Definition file := nat.
Definition zipfile := nat.

Inductive layer_spec :=
| InputLayer (input_shape : list Z)
| Reshape (target_shape : list Z)
| Conv2D (filters : Z) (kernel_size : Z * Z) (activation : string)
| MaxPooling2D (pool_size : Z * Z)
| Flatten
| Dense (units : Z) (activation : string).

Inductive optimize := OptimizeDefault.
Inductive zip_compression := ZIP_STORED | ZIP_DEFLATED.
Inductive shown := ShownHistory (h : history) | ShownVariable (v : variable).

Record tensor_details := { details_index : Z }.

Definition mnist_data : Type :=
  (array3 byte * list Z) * (array3 byte * list Z).

(** One constructor per library call the notebook makes, indexed by the
    type of what the call returns. *)
Inductive Event : Type -> Type :=
| Import (module : string) : Event unit
| MnistLoadData : Event mnist_data
| KerasLayer (spec : layer_spec) : Event keras_layer
| KerasSequential (layers : list keras_layer) : Event keras_model
| KerasSaveWeights (m : keras_model) (p : path) : Event unit
| KerasLoadWeights (m : keras_model) (p : path) : Event unit
| KerasSummary (m : keras_model) : Event unit
| KerasCompile (m : keras_model) (optimizer loss : string)
    (metrics : list string) : Event unit
| KerasFit (m : keras_model) (x : array3 float) (y : list Z) (epochs : Z)
    (shuffle : bool) (validation_split : float)
    (callbacks : list callback) : Event history
| KerasEvaluate (m : keras_model) (x : array3 float) (y : list Z)
    (verbose : option Z) : Event (float * float)
| KerasSave (m : keras_model) (p : path) (include_optimizer : bool) : Event unit
| KerasWeights (m : keras_model) : Event (list variable)
| QuantizeModel (m : keras_model) : Event keras_model
| PolynomialDecay (initial_sparsity final_sparsity : float)
    (begin_step end_step : Z) : Event schedule
| PruneLowMagnitude (m : keras_model) (pruning_schedule : schedule) : Event keras_model
| UpdatePruningStep : Event callback
| StripPruning (m : keras_model) : Event keras_model
| FromKerasModel (m : keras_model) : Event converter
| SetOptimizations (c : converter) (opts : list optimize) : Event unit
| Convert (c : converter) : Event (list byte)
| Interpreter (model_path : path) : Event interpreter
| AllocateTensors (i : interpreter) : Event unit
| GetInputDetails (i : interpreter) : Event (list tensor_details)
| GetOutputDetails (i : interpreter) : Event (list tensor_details)
| SetTensor (i : interpreter) (index : Z) (value : array3 float32) : Event unit
| Invoke (i : interpreter) : Event unit
| TensorFn (i : interpreter) (index : Z) : Event tensor_fn
| CallTensorFn (f : tensor_fn) : Event (list (list float))
| Print (line : string) : Event unit
| Display (v : shown) : Event unit
| Getsize (p : path) : Event Z
| Open (p : path) (mode : string) : Event file
| FileWrite (f : file) (data : list byte) : Event Z
| FileClose (f : file) : Event unit
| Mkstemp (suffix : string) : Event (Z * path)
| ZipFile (p : path) (mode : string) (compression : zip_compression) : Event zipfile
| ZipWrite (z : zipfile) (p : path) : Event unit
| ZipClose (z : zipfile) : Event unit.

(** The interface the notebook runs against: a world that answers every
    call with a value or an exception, and Python's text for a float. *)
Class Runtime := {
  World : Type;
  handle : forall X, Event X -> World -> (exn + X) * World;
  float_repr : float -> string
}.

(** A call together with its answer. *)
Inductive entry :=
| Entry : forall X : Type, Event X -> exn + X -> entry.
Arguments Entry {X} e r.

Definition failure (x : entry) : option exn :=
  match x with
  | Entry _ (inl ex) => Some ex
  | Entry _ (inr _) => None
  end.

Definition succeeded (x : entry) : bool :=
  match failure x with Some _ => false | None => true end.

(** ** The monad of the notebook's code *)

Section Notebook.
Context `{RT : Runtime}.

Record state := State {
  heap : list dict;
  world : World;
  trace : list entry
}.

Inductive outcome (A : Type) :=
| Done (a : A) (s : state)
| Raised (e : exn) (s : state).
Global Arguments Done {A} a s.
Global Arguments Raised {A} e s.

Definition final {A} (o : outcome A) : state :=
  match o with Done _ s => s | Raised _ s => s end.

Definition M (A : Type) := state -> outcome A.

Definition ret {A} (a : A) : M A := fun s => Done a s.

Definition raise {A} (e : exn) : M A := fun s => Raised e s.

Definition bind {A B} (m : M A) (k : A -> M B) : M B :=
  fun s =>
    match m s with
    | Done a s' => k a s'
    | Raised e s' => Raised e s'
    end.

Definition lift {A} (r : exn + A) : M A :=
  match r with inl e => raise e | inr a => ret a end.

(** A call into the outside world: logged, and raised when it fails. *)
Definition call {X} (e : Event X) : M X :=
  fun s =>
    let (r, w) := handle X e (world s) in
    let s' := State (heap s) w (trace s ++ [Entry e r]) in
    match r with
    | inl ex => Raised ex s'
    | inr x => Done x s'
    end.

(** [with enter as r: body]: the exit of the context manager runs however
    the body ends.  The managers of the notebook (a file, a ZipFile) never
    swallow the exception of the body; an exception of the exit itself
    takes the place of the body's. *)
Definition with_ {R A} (enter : M R) (exit : R -> M unit) (body : R -> M A) : M A :=
  fun s =>
    match enter s with
    | Raised e s1 => Raised e s1
    | Done r s1 =>
        match body r s1 with
        | Done a s2 =>
            match exit r s2 with
            | Done _ s3 => Done a s3
            | Raised e' s3 => Raised e' s3
            end
        | Raised e s2 =>
            match exit r s2 with
            | Done _ s3 => Raised e s3
            | Raised e' s3 => Raised e' s3
            end
        end
    end.

(** [for x in xs: body], the variables the body updates threaded as [acc]. *)
Fixpoint for_each {A B} (xs : list A) (body : A -> B -> M B) (acc : B) : M B :=
  match xs with
  | [] => ret acc
  | x :: xs' => bind (body x acc) (for_each xs' body)
  end.

Definition enumerate {A} (xs : list A) : list (Z * A) :=
  zip (map Z.of_nat (seq 0 (length xs))) xs.

(** [xs[i]] *)
Definition getitem {A} (xs : list A) (i : nat) : M A :=
  match xs !! i with
  | Some x => ret x
  | None => raise IndexError
  end.

(** Dictionaries live on the heap. *)
Definition new_dict : M loc :=
  fun s => Done (length (heap s)) (State (heap s ++ [[]]) (world s) (trace s)).

Definition dict_items (d : loc) : M dict :=
  fun s =>
    match heap s !! d with
    | Some items => Done items s
    | None => Raised DanglingReference s
    end.

Definition dict_setitem (d : loc) (k : string) (v : pyval) : M unit :=
  fun s =>
    match heap s !! d with
    | Some items =>
        Done tt (State (<[d := dict_set k v items]> (heap s)) (world s) (trace s))
    | None => Raised DanglingReference s
    end.

(** [format(v, '')], as an f-string applies it. *)
Definition py_str (v : pyval) : string :=
  match v with
  | VNone => "None"
  | VInt z => NilZero.string_of_int (Z.to_int z)
  | VFloat x => float_repr x
  | VStr s => s
  end.

End Notebook.

Declare Scope py_scope.
Delimit Scope py_scope with py.
Notation "x <- m ;; k" := (bind m (fun x => k))
  (at level 100, m at next level, right associativity) : py_scope.
Notation "m ;; k" := (bind m (fun _ => k))
  (at level 100, right associativity) : py_scope.
Local Open Scope py_scope.

(** ** The notebook *)

Section Code.
Context `{RT : Runtime}.

(** *** String constants for model filenames *)

Definition FILE_WEIGHTS : path := "baseline_weights.h5".
Definition FILE_NON_QUANTIZED_H5 : path := "non_quantized.h5".
Definition FILE_NON_QUANTIZED_TFLITE : path := "non_quantized.tflite".
Definition FILE_PT_QUANTIZED : path := "post_training_quantized.tflite".
Definition FILE_QAT_QUANTIZED : path := "quant_aware_quantized.tflite".
Definition FILE_PRUNED_MODEL_H5 : path := "pruned_model.h5".
Definition FILE_PRUNED_QUANTIZED_TFLITE : path := "pruned_quantized.tflite".


(** *** Utilities *)

Definition print_metric (metric_dict : loc) (metric_name : string) : M unit :=
  items <- dict_items metric_dict ;;
  for_each items
    (fun item _ =>
       let '(metric, value) := item in
       call (Print (metric_name +:+ " for " +:+ py_str metric +:+ ": " +:+ py_str value)))
    tt.

Definition get_gzipped_model_size (file : path) : M Z :=
  tmp <- call (Mkstemp ".zip") ;;
  let '(_, zipped_file) := tmp in
  with_ (call (ZipFile zipped_file "w" ZIP_DEFLATED))
        (fun f => call (ZipClose f))
        (fun f => call (ZipWrite f file)) ;;
  call (Getsize zipped_file).

(** *** Build Model *)

Definition model_builder : M keras_model :=
  l0 <- call (KerasLayer (InputLayer [28; 28])) ;;
  l1 <- call (KerasLayer (Reshape [28; 28; 1])) ;;
  l2 <- call (KerasLayer (Conv2D 12 (3, 3) "relu")) ;;
  l3 <- call (KerasLayer (MaxPooling2D (2, 2))) ;;
  l4 <- call (KerasLayer Flatten) ;;
  l5 <- call (KerasLayer (Dense 10 "softmax")) ;;
  model <- call (KerasSequential [l0; l1; l2; l3; l4; l5]) ;;
  ret model.

(** *** Evaluate Model *)

(** The body of the loop: one image in, one predicted digit appended. *)
Definition evaluate_step (interpreter : interpreter) (input_index output_index : Z)
    (test_image : list (list float)) (prediction_digits : list Z) : M (list Z) :=
  let test_image := astype_float32 (expand_dims0 test_image) in
  call (SetTensor interpreter input_index test_image) ;;
  call (Invoke interpreter) ;;
  output <- call (TensorFn interpreter output_index) ;;
  out <- call (CallTensorFn output) ;;
  row <- getitem out 0 ;;
  digit <- lift (argmax row) ;;
  ret (prediction_digits ++ [digit]).

Definition evaluate_tflite_model (filename : path) (x_test : array3 float)
    (y_test : list Z) : M float :=
  interpreter <- call (Interpreter filename) ;;
  call (AllocateTensors interpreter) ;;
  input_details <- call (GetInputDetails interpreter) ;;
  input0 <- getitem input_details 0 ;;
  let input_index := details_index input0 in
  output_details <- call (GetOutputDetails interpreter) ;;
  output0 <- getitem output_details 0 ;;
  let output_index := details_index output0 in
  prediction_digits <-
    for_each (enumerate x_test)
      (fun it prediction_digits =>
         let '(i, test_image) := it in
         evaluate_step interpreter input_index output_index test_image prediction_digits)
      [] ;;
  matches <- lift (np_equal prediction_digits y_test) ;;
  let accuracy := np_mean matches in
  ret accuracy.

(** *** Conversion *)

(** The function has no return statement: it returns None. *)
Definition convert_tflite (model : keras_model) (filename : path)
    (quantize : bool) : M (option (list byte)) :=
  converter <- call (FromKerasModel model) ;;
  (if quantize then call (SetOptimizations converter [OptimizeDefault]) else ret tt) ;;
  tflite_model <- call (Convert converter) ;;
  with_ (call (Open filename "wb"))
        (fun f => call (FileClose f))
        (fun f => call (FileWrite f tflite_model)) ;;
  ret None.

(** *** The cells, in the order of the notebook

    A cell is numbered by its position in the notebook, text cells
    included; cells that only define a function are the definitions
    above.  [globals] are the variables later cells read. *)

Record globals := Globals {
  MODEL_SIZE : loc;
  ACCURACY : loc;
  train_images : array3 float;
  train_labels : list Z;
  test_images : array3 float;
  test_labels : list Z
}.

Definition set_MODEL_SIZE (d : loc) (g : globals) : globals :=
  Globals d (ACCURACY g) (train_images g) (train_labels g) (test_images g)
    (test_labels g).

Definition set_ACCURACY (d : loc) (g : globals) : globals :=
  Globals (MODEL_SIZE g) d (train_images g) (train_labels g) (test_images g)
    (test_labels g).

(** Imports. *)
Definition cell_0 : M unit :=
  call (Import "tensorflow") ;;
  call (Import "numpy") ;;
  call (Import "os") ;;
  call (Import "tempfile") ;;
  call (Import "zipfile").

(** The constants above, and the dictionaries that hold the measurements. *)
Definition cell_2 : M (loc * loc) :=
  model_size <- new_dict ;;
  accuracy <- new_dict ;;
  ret (model_size, accuracy).

(** Load the MNIST dataset and normalize the images. *)
Definition cell_4 (dicts : loc * loc) : M globals :=
  data <- call MnistLoadData ;;
  let '((train_images, train_labels), (test_images, test_labels)) := data in
  let train_images := true_divide train_images 255.0%float in
  let test_images := true_divide test_images 255.0%float in
  ret (Globals dicts.1 dicts.2 train_images train_labels test_images test_labels).

Definition stage_setup : M globals :=
  cell_0 ;;
  dicts <- cell_2 ;;
  cell_4 dicts.

(** Base model training. *)
Definition cell_12 : M keras_model :=
  baseline_model <- model_builder ;;
  call (KerasSaveWeights baseline_model FILE_WEIGHTS) ;;
  call (KerasSummary baseline_model) ;;
  ret baseline_model.

Definition cell_13 (g : globals) (baseline_model : keras_model) : M unit :=
  call (KerasCompile baseline_model "adam" "sparse_categorical_crossentropy" ["accuracy"]) ;;
  call (KerasFit baseline_model (train_images g) (train_labels g) 1 false 0%float []) ;;
  r <- call (KerasEvaluate baseline_model (test_images g) (test_labels g) None) ;;
  dict_setitem (ACCURACY g) "baseline Keras model" (VFloat r.2).

Definition cell_14 (g : globals) (baseline_model : keras_model) : M unit :=
  call (KerasSave baseline_model FILE_NON_QUANTIZED_H5 false) ;;
  size <- call (Getsize FILE_NON_QUANTIZED_H5) ;;
  dict_setitem (MODEL_SIZE g) "baseline h5" (VInt size) ;;
  print_metric (ACCURACY g) "test accuracy" ;;
  print_metric (MODEL_SIZE g) "model size in bytes".

Definition cell_16 (baseline_model : keras_model) : M (option (list byte)) :=
  convert_tflite baseline_model FILE_NON_QUANTIZED_TFLITE false.

Definition cell_17 (g : globals) : M unit :=
  size <- call (Getsize FILE_NON_QUANTIZED_TFLITE) ;;
  dict_setitem (MODEL_SIZE g) "non quantized tflite" (VInt size) ;;
  print_metric (MODEL_SIZE g) "model size in bytes".

Definition cell_18 (g : globals) : M unit :=
  acc <- evaluate_tflite_model FILE_NON_QUANTIZED_TFLITE (test_images g) (test_labels g) ;;
  dict_setitem (ACCURACY g) "non quantized tflite" (VFloat acc) ;;
  print_metric (ACCURACY g) "test accuracy".

Definition stage_baseline (g : globals) : M keras_model :=
  baseline_model <- cell_12 ;;
  cell_13 g baseline_model ;;
  cell_14 g baseline_model ;;
  cell_16 baseline_model ;;
  cell_17 g ;;
  cell_18 g ;;
  ret baseline_model.

(** Post training quantization. *)
Definition cell_20 (g : globals) (baseline_model : keras_model) : M unit :=
  convert_tflite baseline_model FILE_PT_QUANTIZED true ;;
  size <- call (Getsize FILE_PT_QUANTIZED) ;;
  dict_setitem (MODEL_SIZE g) "post training quantized tflite" (VInt size) ;;
  print_metric (MODEL_SIZE g) "model size" ;;
  acc <- evaluate_tflite_model FILE_PT_QUANTIZED (test_images g) (test_labels g) ;;
  dict_setitem (ACCURACY g) "post training quantized tflite" (VFloat acc) ;;
  print_metric (ACCURACY g) "test accuracy".

Definition stage_ptq (g : globals) (baseline_model : keras_model) : M unit :=
  cell_20 g baseline_model.

(** Quantization aware training. *)
Definition cell_23 : M keras_model :=
  call (Import "tensorflow_model_optimization") ;;
  model_to_quantize <- model_builder ;;
  call (KerasLoadWeights model_to_quantize FILE_WEIGHTS) ;;
  q_aware_model <- call (QuantizeModel model_to_quantize) ;;
  call (KerasCompile q_aware_model "adam" "sparse_categorical_crossentropy" ["accuracy"]) ;;
  call (KerasSummary q_aware_model) ;;
  ret q_aware_model.

Definition cell_24 (g : globals) (q_aware_model : keras_model) : M unit :=
  h <- call (KerasFit q_aware_model (train_images g) (train_labels g) 1 false 0%float []) ;;
  call (Display (ShownHistory h)).

Definition cell_25 (g : globals) (q_aware_model : keras_model) : M globals :=
  fresh <- new_dict ;;
  let g := set_ACCURACY fresh g in
  r <- call (KerasEvaluate q_aware_model (test_images g) (test_labels g) (Some 0)) ;;
  dict_setitem (ACCURACY g) "quantization aware non-quantized" (VFloat r.2) ;;
  print_metric (ACCURACY g) "test accuracy" ;;
  convert_tflite q_aware_model FILE_QAT_QUANTIZED true ;;
  acc <- evaluate_tflite_model FILE_QAT_QUANTIZED (test_images g) (test_labels g) ;;
  dict_setitem (ACCURACY g) "quantization aware quantized" (VFloat acc) ;;
  print_metric (ACCURACY g) "test accuracy" ;;
  ret g.

Definition stage_qat (g : globals) : M globals :=
  q_aware_model <- cell_23 ;;
  cell_24 g q_aware_model ;;
  cell_25 g q_aware_model.

(** Pruning. *)
Definition batch_size : Z := 128.
Definition epochs : Z := 2.
Definition validation_split : float := 0.1%float.

Definition end_step (g : globals) : Z :=
  let num_images :=
    (float_of_Z (Z.of_nat (length (train_images g))) * (1 - validation_split))%float in
  wrap_int32 (ceil_int32 (num_images / float_of_Z batch_size)%float * epochs).

Definition cell_27 (g : globals) (baseline_model : keras_model) : M keras_model :=
  pruning_schedule <- call (PolynomialDecay 0.50%float 0.80%float 0 (end_step g)) ;;
  model_for_pruning <- call (PruneLowMagnitude baseline_model pruning_schedule) ;;
  call (KerasCompile model_for_pruning "adam" "sparse_categorical_crossentropy" ["accuracy"]) ;;
  call (KerasSummary model_for_pruning) ;;
  ret model_for_pruning.

(** Preview of one weight variable of a model. *)
Definition preview_weights (model : keras_model) (i : nat) : M unit :=
  weights <- call (KerasWeights model) ;;
  v <- getitem weights i ;;
  call (Display (ShownVariable v)).

Definition cell_29 (g : globals) (model_for_pruning : keras_model) : M unit :=
  cb <- call UpdatePruningStep ;;
  let callbacks := [cb] in
  h <- call (KerasFit model_for_pruning (train_images g) (train_labels g) epochs
               true validation_split callbacks) ;;
  call (Display (ShownHistory h)).

Definition cell_31 (model_for_pruning : keras_model) : M keras_model :=
  model_for_export <- call (StripPruning model_for_pruning) ;;
  call (KerasSummary model_for_export) ;;
  ret model_for_export.

Definition cell_33 (g : globals) (model_for_export : keras_model) : M globals :=
  call (KerasSave model_for_export FILE_PRUNED_MODEL_H5 false) ;;
  fresh <- new_dict ;;
  let g := set_MODEL_SIZE fresh g in
  size <- call (Getsize FILE_NON_QUANTIZED_H5) ;;
  dict_setitem (MODEL_SIZE g) "baseline h5" (VInt size) ;;
  size <- call (Getsize FILE_PRUNED_MODEL_H5) ;;
  dict_setitem (MODEL_SIZE g) "pruned non quantized h5" (VInt size) ;;
  print_metric (MODEL_SIZE g) "model_size in bytes" ;;
  ret g.

Definition cell_34 (g : globals) : M globals :=
  fresh <- new_dict ;;
  let g := set_MODEL_SIZE fresh g in
  size <- get_gzipped_model_size FILE_NON_QUANTIZED_H5 ;;
  dict_setitem (MODEL_SIZE g) "baseline h5" (VInt size) ;;
  size <- get_gzipped_model_size FILE_PRUNED_MODEL_H5 ;;
  dict_setitem (MODEL_SIZE g) "pruned non quantized h5" (VInt size) ;;
  print_metric (MODEL_SIZE g) "gzipped model size in bytes" ;;
  ret g.

Definition cell_35 (g : globals) (model_for_export : keras_model)
    : M (option (list byte)) :=
  pruned_quantized_tflite <-
    convert_tflite model_for_export FILE_PRUNED_QUANTIZED_TFLITE true ;;
  size <- get_gzipped_model_size FILE_PRUNED_QUANTIZED_TFLITE ;;
  dict_setitem (MODEL_SIZE g) "pruned quantized tflite" (VInt size) ;;
  print_metric (MODEL_SIZE g) "gzipped model size in bytes" ;;
  ret pruned_quantized_tflite.

Definition cell_36 (g : globals) (model_for_pruning : keras_model) : M globals :=
  fresh <- new_dict ;;
  let g := set_ACCURACY fresh g in
  r <- call (KerasEvaluate model_for_pruning (test_images g) (test_labels g) None) ;;
  dict_setitem (ACCURACY g) "pruned model h5" (VFloat r.2) ;;
  acc <- evaluate_tflite_model FILE_PRUNED_QUANTIZED_TFLITE (test_images g) (test_labels g) ;;
  dict_setitem (ACCURACY g) "pruned and quantized tflite" (VFloat acc) ;;
  print_metric (ACCURACY g) "accuracy" ;;
  ret g.

Definition stage_pruning (g : globals) (baseline_model : keras_model)
    : M (globals * option (list byte)) :=
  model_for_pruning <- cell_27 g baseline_model ;;
  preview_weights model_for_pruning 1 ;;
  cell_29 g model_for_pruning ;;
  preview_weights model_for_pruning 1 ;;
  model_for_export <- cell_31 model_for_pruning ;;
  preview_weights model_for_export 0 ;;
  g <- cell_33 g model_for_export ;;
  g <- cell_34 g ;;
  pruned_quantized_tflite <- cell_35 g model_for_export ;;
  g <- cell_36 g model_for_pruning ;;
  ret (g, pruned_quantized_tflite).

(** The whole notebook, run from top to bottom.  It ends with the
    globals as the last cell leaves them and the value bound to
    [pruned_quantized_tflite]. *)
Definition workflow : M (globals * option (list byte)) :=
  g <- stage_setup ;;
  baseline_model <- stage_baseline g ;;
  stage_ptq g baseline_model ;;
  g <- stage_qat g ;;
  stage_pruning g baseline_model.

(** A fresh kernel. *)
Definition init (w : World) : state := State [] w [].

End Code.

(** ** A small concrete runtime

    A deterministic stand-in for TensorFlow and the operating system,
    used to run the notebook on concrete inputs: handles are numbered as
    they are created, files have a size, the interpreter tells the two
    classes apart by the first pixel, and call number [n] raises when
    [faults] says so. *)

Module Toy.

Record world := World_ {
  calls : nat;
  next : nat;
  faults : list (nat * exn);
  fs : list (path * Z);
  opened : list (nat * path);
  last_input : float
}.

Definition fresh (w : world) : nat * world :=
  (next w, World_ (calls w) (S (next w)) (faults w) (fs w) (opened w) (last_input w)).

Definition set_fs (fs' : list (path * Z)) (w : world) : world :=
  World_ (calls w) (next w) (faults w) fs' (opened w) (last_input w).

Definition set_opened (o : list (nat * path)) (w : world) : world :=
  World_ (calls w) (next w) (faults w) (fs w) o (last_input w).

Definition set_last_input (x : float) (w : world) : world :=
  World_ (calls w) (next w) (faults w) (fs w) (opened w) x.

Definition tick (w : world) : world :=
  World_ (S (calls w)) (next w) (faults w) (fs w) (opened w) (last_input w).

Fixpoint assoc {A B} (eqb : A -> A -> bool) (k : A) (l : list (A * B)) : option B :=
  match l with
  | [] => None
  | (k', v) :: l' => if eqb k k' then Some v else assoc eqb k l'
  end.

Definition write_file (p : path) (size : Z) (w : world) : world :=
  set_fs ((p, size) :: filter (fun kv => negb (String.eqb kv.1 p)) (fs w)) w.

Definition file_size (p : path) (w : world) : exn + Z :=
  match assoc String.eqb p (fs w) with
  | Some n => inr n
  | None => inl (External "FileNotFoundError")
  end.

Definition train_set : array3 byte * list Z :=
  ([ [ ["000"; "255"]; ["128"; "007"] ];
     [ ["200"; "001"]; ["002"; "003"] ];
     [ ["010"; "020"]; ["030"; "040"] ] ]%byte, [0; 1; 0]).

Definition test_set : array3 byte * list Z :=
  ([ [ ["255"; "000"]; ["000"; "000"] ];
     [ ["000"; "000"]; ["000"; "255"] ];
     [ ["250"; "100"]; ["000"; "000"] ] ]%byte, [1; 0; 0]).

Definition first_pixel (t : array3 float32) : float :=
  match t with
  | ((F32 x :: _) :: _) :: _ => x
  | _ => 0%float
  end.

Definition answer (X : Type) (e : Event X) (w : world) : (exn + X) * world :=
  match e in Event X return (exn + X) * world with
  | Import _ => (inr tt, w)
  | MnistLoadData => (inr (train_set, test_set), w)
  | KerasLayer _ => let (h, w) := fresh w in (inr h, w)
  | KerasSequential _ => let (h, w) := fresh w in (inr h, w)
  | KerasSaveWeights _ p => (inr tt, write_file p 91000 w)
  | KerasLoadWeights _ p =>
      match file_size p w with inl ex => (inl ex, w) | inr _ => (inr tt, w) end
  | KerasSummary _ => (inr tt, w)
  | KerasCompile _ _ _ _ => (inr tt, w)
  | KerasFit _ _ _ _ _ _ _ => let (h, w) := fresh w in (inr h, w)
  | KerasEvaluate _ _ _ _ => (inr (0.25%float, 0.9375%float), w)
  | KerasSave _ p _ => (inr tt, write_file p 98968 w)
  | KerasWeights _ => let (h, w) := fresh w in let (h', w) := fresh w in (inr [h; h'], w)
  | QuantizeModel _ => let (h, w) := fresh w in (inr h, w)
  | PolynomialDecay _ _ _ _ => let (h, w) := fresh w in (inr h, w)
  | PruneLowMagnitude _ _ => let (h, w) := fresh w in (inr h, w)
  | UpdatePruningStep => let (h, w) := fresh w in (inr h, w)
  | StripPruning _ => let (h, w) := fresh w in (inr h, w)
  | FromKerasModel _ => let (h, w) := fresh w in (inr h, w)
  | SetOptimizations _ _ => (inr tt, w)
  | Convert c => (inr (repeat "x"%byte (3 + c)), w)
  | Interpreter p =>
      match file_size p w with
      | inl ex => (inl ex, w)
      | inr _ => let (h, w) := fresh w in (inr h, w)
      end
  | AllocateTensors _ => (inr tt, w)
  | GetInputDetails _ => (inr [Build_tensor_details 0], w)
  | GetOutputDetails _ => (inr [Build_tensor_details 7], w)
  | SetTensor _ _ v => (inr tt, set_last_input (first_pixel v) w)
  | Invoke _ => (inr tt, w)
  | TensorFn _ _ => let (h, w) := fresh w in (inr h, w)
  | CallTensorFn _ => (inr [[(1 - last_input w)%float; last_input w]], w)
  | Print _ => (inr tt, w)
  | Display _ => (inr tt, w)
  | Getsize p => (file_size p w, w)
  | Open p _ =>
      let (h, w) := fresh w in
      (inr h, set_opened ((h, p) :: opened w) (write_file p 0 w))
  | FileWrite f data =>
      match assoc Nat.eqb f (opened w) with
      | Some p => (inr (Z.of_nat (length data)), write_file p (Z.of_nat (length data)) w)
      | None => (inl (External "ValueError"), w)
      end
  | FileClose _ => (inr tt, w)
  | Mkstemp suffix =>
      let (h, w) := fresh w in
      let p := "/tmp/tmp" +:+ NilZero.string_of_uint (Nat.to_uint h) +:+ suffix in
      (inr (Z.of_nat h, p), write_file p 0 w)
  | ZipFile p _ _ =>
      let (h, w) := fresh w in
      (inr h, set_opened ((h, p) :: opened w) (write_file p 0 w))
  | ZipWrite z p =>
      match file_size p w, assoc Nat.eqb z (opened w) with
      | inr n, Some a => (inr tt, write_file a (n / 3 + 100) w)
      | inl ex, _ => (inl ex, w)
      | _, None => (inl (External "ValueError"), w)
      end
  | ZipClose _ => (inr tt, w)
  end.

Definition handle (X : Type) (e : Event X) (w : world) : (exn + X) * world :=
  let w := tick w in
  match assoc Nat.eqb (calls w) (faults w) with
  | Some ex => (inl ex, w)
  | None => answer X e w
  end.

Definition float_repr (x : float) : string :=
  match Prim2SF x with
  | S754_zero s => if s then "-0.0" else "0.0"
  | S754_infinity s => if s then "-inf" else "inf"
  | S754_nan => "nan"
  | S754_finite s m e =>
      (if s then "-" else "") +:+ NilZero.string_of_int (Z.to_int (Z.pos m))
      +:+ "p" +:+ NilZero.string_of_int (Z.to_int e)
  end.

Definition runtime : Runtime := Build_Runtime world handle float_repr.

(** The world before the first cell, with the given faults. *)
Definition world0 (faults : list (nat * exn)) : world :=
  World_ 0 0 faults [] [] 0%float.

End Toy.


(** ** Reading a log *)

(** Modes in which [open] and [ZipFile] create or truncate the file. *)
Definition write_mode (mode : string) : bool :=
  String.eqb mode "w" || String.eqb mode "wb".

(** Paths a call creates or overwrites, and paths it reads: the paths
    the notebook passes to a call or gets from it.  What a library
    writes of its own accord at a path of its own choosing has no path in
    the log (see [writes_unnamed_files]). *)
Definition written_by (x : entry) : list path :=
  match x with
  | Entry e (inr r) =>
      match e in Event X return X -> list path with
      | KerasSaveWeights _ p => fun _ => [p]
      | KerasSave _ p _ => fun _ => [p]
      | Open p mode => fun _ => if write_mode mode then [p] else []
      | Mkstemp _ => fun r => [r.2]
      | ZipFile p mode _ => fun _ => if write_mode mode then [p] else []
      | _ => fun _ => []
      end r
  | Entry _ (inl _) => []
  end.

Definition read_by (x : entry) : list path :=
  match x with
  | Entry e _ =>
      match e with
      | KerasLoadWeights _ p => [p]
      | Interpreter p => [p]
      | Getsize p => [p]
      | ZipWrite _ p => [p]
      | _ => []
      end
  end.

Definition files_written (t : list entry) : list path := t ≫= written_by.


(** Every pixel of every image in the closed unit interval. *)
Definition pixels_in_unit_interval (a : array3 float) : Prop :=
  Forall (Forall (Forall (fun x => in_unit_interval x = true))) a.

Section LogShapes.
Context `{RT : Runtime}.

(** The line [print_metric] prints for one item of the dictionary. *)
Definition metric_line (metric_name : string) (item : pyval * pyval) : string :=
  metric_name +:+ " for " +:+ py_str item.1 +:+ ": " +:+ py_str item.2.

(** The body of its loop. *)
Definition print_body (metric_name : string) (item : pyval * pyval) (_ : unit) : M unit :=
  let '(metric, value) := item in
  call (Print (metric_name +:+ " for " +:+ py_str metric +:+ ": " +:+ py_str value)).

End LogShapes.

(** Calls that set [converter.optimizations]. *)
Definition sets_optimizations (x : entry) : bool :=
  match x with
  | Entry e _ => match e with SetOptimizations _ _ => true | _ => false end
  end.

(** The four calls of one round of the inference loop: the image, with
    a batch dimension and as float32, goes in; the interpreter runs; the
    output tensor is read. *)
Definition inference_round (i : interpreter) (input_index output_index : Z)
    (image : list (list float)) (run : tensor_fn * list (list float)) : list entry :=
  [ Entry (SetTensor i input_index (astype_float32 (expand_dims0 image))) (inr ());
    Entry (Invoke i) (inr ());
    Entry (TensorFn i output_index) (inr run.1);
    Entry (CallTensorFn run.1) (inr run.2) ].

(** The digit predicted from an output tensor: the argmax of its row 0. *)
Definition predicted (out : list (list float)) (digit : Z) : Prop :=
  exists row, out !! 0%nat = Some row /\ argmax row = inr digit.

(** Number of positions at which prediction and label agree. *)
Definition correct (digits labels : list Z) : nat :=
  length (filter (fun p : Z * Z => p.1 = p.2) (zip digits labels)).

(** ** How a failing call shows in the outcome *)


Section Propagation.
Context `{RT : Runtime}.

Definition outcome_exn {A} (o : outcome A) : option exn :=
  match o with Done _ _ => None | Raised e _ => Some e end.

Definition returned {A} (o : outcome A) : option A :=
  match o with Done a _ => Some a | Raised _ _ => None end.

(** The calls of a run all succeeded, or exactly one failed: the last
    one, whose exception is the outcome of the run. *)
Definition failed_last (t : list entry) (r : option exn) : Prop :=
  Forall (fun x => failure x = None) t \/
  exists t0 x ex, t = t0 ++ [x] /\ Forall (fun x => failure x = None) t0 /\
                  failure x = Some ex /\ r = Some ex.


(** A function in which a failing call is the last call made and whose
    exception reaches the caller as it is. *)
Definition fail_fast {A} (m : M A) : Prop :=
  forall s, exists t,
    trace (final (m s)) = trace s ++ t /\ failed_last t (outcome_exn (m s)).


End Propagation.

(** ** Logs of the notebook's functions

    What a function that returned has added to the log, given the
    answers it got. *)

Record built_model := BuiltModel {
  b_l0 : keras_layer; b_l1 : keras_layer; b_l2 : keras_layer;
  b_l3 : keras_layer; b_l4 : keras_layer; b_l5 : keras_layer;
  b_model : keras_model
}.

Record conversion := Conversion {
  cv_converter : converter;
  cv_bytes : list byte;
  cv_file : file;
  cv_count : Z
}.

Record evaluation := Evaluation {
  ev_interpreter : interpreter;
  ev_inputs : list tensor_details;
  ev_outputs : list tensor_details;
  ev_input_index : Z;
  ev_output_index : Z;
  ev_runs : list (tensor_fn * list (list float));
  ev_accuracy : float
}.

Record gzipped := Gzipped {
  gz_fd : Z;
  gz_path : path;
  gz_zip : zipfile;
  gz_size : Z
}.

Section Logs.
Context `{RT : Runtime}.

Definition print_metric_log (metric_name : string) (items : dict) : list entry :=
  map (fun item => Entry (Print (metric_line metric_name item)) (inr ())) items.

Definition model_builder_log (b : built_model) : list entry :=
  [ Entry (KerasLayer (InputLayer [28; 28])) (inr (b_l0 b));
    Entry (KerasLayer (Reshape [28; 28; 1])) (inr (b_l1 b));
    Entry (KerasLayer (Conv2D 12 (3, 3) "relu")) (inr (b_l2 b));
    Entry (KerasLayer (MaxPooling2D (2, 2))) (inr (b_l3 b));
    Entry (KerasLayer Flatten) (inr (b_l4 b));
    Entry (KerasLayer (Dense 10 "softmax")) (inr (b_l5 b));
    Entry (KerasSequential [b_l0 b; b_l1 b; b_l2 b; b_l3 b; b_l4 b; b_l5 b])
      (inr (b_model b)) ].

Definition inference_log (x_test : array3 float) (e : evaluation) : list entry :=
  concat (zip_with
            (inference_round (ev_interpreter e) (ev_input_index e) (ev_output_index e))
            x_test (ev_runs e)).

Definition evaluate_log (filename : path) (x_test : array3 float) (e : evaluation)
    : list entry :=
  [ Entry (Interpreter filename) (inr (ev_interpreter e));
    Entry (AllocateTensors (ev_interpreter e)) (inr ());
    Entry (GetInputDetails (ev_interpreter e)) (inr (ev_inputs e));
    Entry (GetOutputDetails (ev_interpreter e)) (inr (ev_outputs e)) ] ++
  inference_log x_test e.

Definition convert_log (model : keras_model) (filename : path) (quantize : bool)
    (cv : conversion) : list entry :=
  [Entry (FromKerasModel model) (inr (cv_converter cv))] ++
  (if quantize
   then [Entry (SetOptimizations (cv_converter cv) [OptimizeDefault]) (inr ())]
   else []) ++
  [ Entry (Convert (cv_converter cv)) (inr (cv_bytes cv));
    Entry (Open filename "wb") (inr (cv_file cv));
    Entry (FileWrite (cv_file cv) (cv_bytes cv)) (inr (cv_count cv));
    Entry (FileClose (cv_file cv)) (inr ()) ].

Definition gzip_log (file : path) (gz : gzipped) : list entry :=
  [ Entry (Mkstemp ".zip") (inr (gz_fd gz, gz_path gz));
    Entry (ZipFile (gz_path gz) "w" ZIP_DEFLATED) (inr (gz_zip gz));
    Entry (ZipWrite (gz_zip gz) file) (inr ());
    Entry (ZipClose (gz_zip gz)) (inr ());
    Entry (Getsize (gz_path gz)) (inr (gz_size gz)) ].

(** *** Logs of the stages

    The answers a stage gets, the tables it leaves and the calls it
    makes, in the order it makes them. *)

Definition setup_log (data : mnist_data) : list entry :=
  [ Entry (Import "tensorflow") (inr ());
    Entry (Import "numpy") (inr ());
    Entry (Import "os") (inr ());
    Entry (Import "tempfile") (inr ());
    Entry (Import "zipfile") (inr ());
    Entry MnistLoadData (inr data) ].

Definition setup_globals (data : mnist_data) : globals :=
  Globals 0%nat 1%nat (true_divide data.1.1 255.0%float) data.1.2
          (true_divide data.2.1 255.0%float) data.2.2.

Record baseline_answers := BaselineAnswers {
  ba_built : built_model;
  ba_history : history;
  ba_evaluate : float * float;
  ba_size_h5 : Z;
  ba_conversion : conversion;
  ba_size_tflite : Z;
  ba_evaluation : evaluation
}.

Definition baseline_sizes (a : baseline_answers) : dict :=
  [ (VStr "baseline h5", VInt (ba_size_h5 a));
    (VStr "non quantized tflite", VInt (ba_size_tflite a)) ].

Definition baseline_accuracies (a : baseline_answers) : dict :=
  [ (VStr "baseline Keras model", VFloat (ba_evaluate a).2);
    (VStr "non quantized tflite", VFloat (ev_accuracy (ba_evaluation a))) ].

Definition baseline_log (g : globals) (a : baseline_answers) : list entry :=
  let model := b_model (ba_built a) in
  model_builder_log (ba_built a) ++
  [ Entry (KerasSaveWeights model FILE_WEIGHTS) (inr ());
    Entry (KerasSummary model) (inr ());
    Entry (KerasCompile model "adam" "sparse_categorical_crossentropy" ["accuracy"])
      (inr ());
    Entry (KerasFit model (train_images g) (train_labels g) 1 false 0%float [])
      (inr (ba_history a));
    Entry (KerasEvaluate model (test_images g) (test_labels g) None)
      (inr (ba_evaluate a));
    Entry (KerasSave model FILE_NON_QUANTIZED_H5 false) (inr ());
    Entry (Getsize FILE_NON_QUANTIZED_H5) (inr (ba_size_h5 a)) ] ++
  print_metric_log "test accuracy"
    [(VStr "baseline Keras model", VFloat (ba_evaluate a).2)] ++
  print_metric_log "model size in bytes"
    [(VStr "baseline h5", VInt (ba_size_h5 a))] ++
  convert_log model FILE_NON_QUANTIZED_TFLITE false (ba_conversion a) ++
  [ Entry (Getsize FILE_NON_QUANTIZED_TFLITE) (inr (ba_size_tflite a)) ] ++
  print_metric_log "model size in bytes" (baseline_sizes a) ++
  evaluate_log FILE_NON_QUANTIZED_TFLITE (test_images g) (ba_evaluation a) ++
  print_metric_log "test accuracy" (baseline_accuracies a).

Record ptq_answers := PtqAnswers {
  pa_conversion : conversion;
  pa_size : Z;
  pa_evaluation : evaluation
}.

Definition ptq_sizes (a : baseline_answers) (p : ptq_answers) : dict :=
  baseline_sizes a ++ [(VStr "post training quantized tflite", VInt (pa_size p))].

Definition ptq_accuracies (a : baseline_answers) (p : ptq_answers) : dict :=
  baseline_accuracies a ++
  [(VStr "post training quantized tflite", VFloat (ev_accuracy (pa_evaluation p)))].

Definition ptq_log (g : globals) (a : baseline_answers) (p : ptq_answers) : list entry :=
  convert_log (b_model (ba_built a)) FILE_PT_QUANTIZED true (pa_conversion p) ++
  [ Entry (Getsize FILE_PT_QUANTIZED) (inr (pa_size p)) ] ++
  print_metric_log "model size" (ptq_sizes a p) ++
  evaluate_log FILE_PT_QUANTIZED (test_images g) (pa_evaluation p) ++
  print_metric_log "test accuracy" (ptq_accuracies a p).

Record qat_answers := QatAnswers {
  qa_built : built_model;
  qa_model : keras_model;
  qa_history : history;
  qa_evaluate : float * float;
  qa_conversion : conversion;
  qa_evaluation : evaluation
}.

Definition qat_accuracies (q : qat_answers) : dict :=
  [ (VStr "quantization aware non-quantized", VFloat (qa_evaluate q).2);
    (VStr "quantization aware quantized", VFloat (ev_accuracy (qa_evaluation q))) ].

Definition qat_log (g : globals) (q : qat_answers) : list entry :=
  let model_to_quantize := b_model (qa_built q) in
  let q_aware_model := qa_model q in
  [ Entry (Import "tensorflow_model_optimization") (inr ()) ] ++
  model_builder_log (qa_built q) ++
  [ Entry (KerasLoadWeights model_to_quantize FILE_WEIGHTS) (inr ());
    Entry (QuantizeModel model_to_quantize) (inr q_aware_model);
    Entry (KerasCompile q_aware_model "adam" "sparse_categorical_crossentropy"
             ["accuracy"]) (inr ());
    Entry (KerasSummary q_aware_model) (inr ());
    Entry (KerasFit q_aware_model (train_images g) (train_labels g) 1 false 0%float [])
      (inr (qa_history q));
    Entry (Display (ShownHistory (qa_history q))) (inr ());
    Entry (KerasEvaluate q_aware_model (test_images g) (test_labels g) (Some 0))
      (inr (qa_evaluate q)) ] ++
  print_metric_log "test accuracy"
    [(VStr "quantization aware non-quantized", VFloat (qa_evaluate q).2)] ++
  convert_log q_aware_model FILE_QAT_QUANTIZED true (qa_conversion q) ++
  evaluate_log FILE_QAT_QUANTIZED (test_images g) (qa_evaluation q) ++
  print_metric_log "test accuracy" (qat_accuracies q).

Record pruning_answers := PruningAnswers {
  ra_schedule : schedule;
  ra_model : keras_model;
  ra_weights1 : list variable;
  ra_shown1 : variable;
  ra_callback : callback;
  ra_history : history;
  ra_weights2 : list variable;
  ra_shown2 : variable;
  ra_export : keras_model;
  ra_weights3 : list variable;
  ra_shown3 : variable;
  ra_size_baseline : Z;
  ra_size_pruned : Z;
  ra_gzip_baseline : gzipped;
  ra_gzip_pruned : gzipped;
  ra_conversion : conversion;
  ra_gzip_tflite : gzipped;
  ra_evaluate : float * float;
  ra_evaluation : evaluation
}.

Definition pruning_sizes (r : pruning_answers) : dict :=
  [ (VStr "baseline h5", VInt (ra_size_baseline r));
    (VStr "pruned non quantized h5", VInt (ra_size_pruned r)) ].

Definition pruning_gzipped_sizes (r : pruning_answers) : dict :=
  [ (VStr "baseline h5", VInt (gz_size (ra_gzip_baseline r)));
    (VStr "pruned non quantized h5", VInt (gz_size (ra_gzip_pruned r))) ].

Definition pruning_final_sizes (r : pruning_answers) : dict :=
  pruning_gzipped_sizes r ++
  [(VStr "pruned quantized tflite", VInt (gz_size (ra_gzip_tflite r)))].

Definition pruning_accuracies (r : pruning_answers) : dict :=
  [ (VStr "pruned model h5", VFloat (ra_evaluate r).2);
    (VStr "pruned and quantized tflite", VFloat (ev_accuracy (ra_evaluation r))) ].

Definition pruning_log (g : globals) (baseline_model : keras_model)
    (r : pruning_answers) : list entry :=
  let model_for_pruning := ra_model r in
  let model_for_export := ra_export r in
  [ Entry (PolynomialDecay 0.50%float 0.80%float 0 (end_step g)) (inr (ra_schedule r));
    Entry (PruneLowMagnitude baseline_model (ra_schedule r)) (inr model_for_pruning);
    Entry (KerasCompile model_for_pruning "adam" "sparse_categorical_crossentropy"
             ["accuracy"]) (inr ());
    Entry (KerasSummary model_for_pruning) (inr ());
    Entry (KerasWeights model_for_pruning) (inr (ra_weights1 r));
    Entry (Display (ShownVariable (ra_shown1 r))) (inr ());
    Entry UpdatePruningStep (inr (ra_callback r));
    Entry (KerasFit model_for_pruning (train_images g) (train_labels g) epochs true
             validation_split [ra_callback r]) (inr (ra_history r));
    Entry (Display (ShownHistory (ra_history r))) (inr ());
    Entry (KerasWeights model_for_pruning) (inr (ra_weights2 r));
    Entry (Display (ShownVariable (ra_shown2 r))) (inr ());
    Entry (StripPruning model_for_pruning) (inr model_for_export);
    Entry (KerasSummary model_for_export) (inr ());
    Entry (KerasWeights model_for_export) (inr (ra_weights3 r));
    Entry (Display (ShownVariable (ra_shown3 r))) (inr ());
    Entry (KerasSave model_for_export FILE_PRUNED_MODEL_H5 false) (inr ());
    Entry (Getsize FILE_NON_QUANTIZED_H5) (inr (ra_size_baseline r));
    Entry (Getsize FILE_PRUNED_MODEL_H5) (inr (ra_size_pruned r)) ] ++
  print_metric_log "model_size in bytes" (pruning_sizes r) ++
  gzip_log FILE_NON_QUANTIZED_H5 (ra_gzip_baseline r) ++
  gzip_log FILE_PRUNED_MODEL_H5 (ra_gzip_pruned r) ++
  print_metric_log "gzipped model size in bytes" (pruning_gzipped_sizes r) ++
  convert_log model_for_export FILE_PRUNED_QUANTIZED_TFLITE true (ra_conversion r) ++
  gzip_log FILE_PRUNED_QUANTIZED_TFLITE (ra_gzip_tflite r) ++
  print_metric_log "gzipped model size in bytes" (pruning_final_sizes r) ++
  [ Entry (KerasEvaluate model_for_pruning (test_images g) (test_labels g) None)
      (inr (ra_evaluate r)) ] ++
  evaluate_log FILE_PRUNED_QUANTIZED_TFLITE (test_images g) (ra_evaluation r) ++
  print_metric_log "accuracy" (pruning_accuracies r).

(** The log of a whole run, and the heap it ends with: every
    dictionary the notebook ever created, in the order of creation. *)
Definition workflow_log (data : mnist_data) (a : baseline_answers) (p : ptq_answers)
    (q : qat_answers) (r : pruning_answers) : list entry :=
  let g := setup_globals data in
  setup_log data ++ baseline_log g a ++ ptq_log g a p ++ qat_log g q ++
  pruning_log g (b_model (ba_built a)) r.

Definition workflow_heap (a : baseline_answers) (p : ptq_answers)
    (q : qat_answers) (r : pruning_answers) : list dict :=
  [ ptq_sizes a p; ptq_accuracies a p; qat_accuracies q;
    pruning_sizes r; pruning_final_sizes r; pruning_accuracies r ].

End Logs.

(** ** Artifacts *)

(** Paths handed out by mkstemp. *)
Definition temporary_by (x : entry) : list path :=
  match x with
  | Entry e (inr r) =>
      match e in Event X return X -> list path with
      | Mkstemp _ => fun r => [r.2]
      | _ => fun _ => []
      end r
  | Entry _ (inl _) => []
  end.

Definition temporary_files (t : list entry) : list path := t ≫= temporary_by.



(** ** Order of the calls *)

Definition is_load_data (x : entry) : bool :=
  match x with
  | Entry e _ => match e with MnistLoadData => true | _ => false end
  end.

Definition is_fit (x : entry) : bool :=
  match x with
  | Entry e _ => match e with KerasFit _ _ _ _ _ _ _ => true | _ => false end
  end.

Definition is_conversion (x : entry) : bool :=
  match x with
  | Entry e _ =>
      match e with FromKerasModel _ | Convert _ => true | _ => false end
  end.

(** Training of the model [m], measuring its accuracy in memory, and
    converting or saving it. *)
Definition fits (m : keras_model) (x : entry) : bool :=
  match x with
  | Entry e _ =>
      match e with KerasFit m' _ _ _ _ _ _ => Nat.eqb m' m | _ => false end
  end.

Definition evaluates (m : keras_model) (x : entry) : bool :=
  match x with
  | Entry e _ =>
      match e with KerasEvaluate m' _ _ _ => Nat.eqb m' m | _ => false end
  end.

Definition exports (m : keras_model) (x : entry) : bool :=
  match x with
  | Entry e _ =>
      match e with
      | FromKerasModel m' | KerasSave m' _ _ | KerasSaveWeights m' _ => Nat.eqb m' m
      | _ => false
      end
  end.

(** Making a converter for the model [m]; stripping the pruning wrappers
    off the model [m]; and what makes [m] a trained model: training it,
    or stripping a model, which gives [m]. *)
Definition converts (m : keras_model) (x : entry) : bool :=
  match x with
  | Entry e _ =>
      match e with FromKerasModel m' => Nat.eqb m' m | _ => false end
  end.

Definition strips (m : keras_model) (x : entry) : bool :=
  match x with
  | Entry e _ =>
      match e with StripPruning m' => Nat.eqb m' m | _ => false end
  end.

Definition readies (m : keras_model) (x : entry) : bool :=
  match x with
  | Entry e r =>
      match e in Event X return exn + X -> bool with
      | KerasFit m' _ _ _ _ _ _ => fun _ => Nat.eqb m' m
      | StripPruning _ =>
          fun r => match r with inr m' => Nat.eqb m' m | inl _ => false end
      | _ => fun _ => false
      end r
  end.

(** Every call that satisfies [Q] comes after some call that satisfies [P]. *)
Definition preceded_by (P Q : entry -> bool) (t : list entry) : Prop :=
  forall t1 x t2, t = t1 ++ x :: t2 -> Q x = true ->
    exists y, y ∈ t1 /\ P y = true.

(** Every file a call reads was written by an earlier call. *)
Definition written_before_read (t : list entry) : Prop :=
  forall t1 x t2 p, t = t1 ++ x :: t2 -> p ∈ read_by x -> p ∈ files_written t1.

(** Every model is converted or saved before its accuracy is measured. *)
Definition exported_before_evaluated (t : list entry) : Prop :=
  forall m, preceded_by (exports m) (evaluates m) t.

(** The technique a call belongs to, for the calls that tell: those of
    the model-optimization toolkit, and those that save, open or load a
    file of a technique. *)
Inductive technique :=
| PostTrainingQuantization
| QuantizationAwareTraining
| WeightPruning.

Definition technique_of_path (p : path) : option technique :=
  if String.eqb p FILE_PT_QUANTIZED then Some PostTrainingQuantization
  else if String.eqb p FILE_QAT_QUANTIZED then Some QuantizationAwareTraining
  else if String.eqb p FILE_PRUNED_MODEL_H5 || String.eqb p FILE_PRUNED_QUANTIZED_TFLITE
       then Some WeightPruning
       else None.

Definition technique_of (x : entry) : option technique :=
  match x with
  | Entry e _ =>
      match e with
      | Open p _ | Interpreter p | KerasSave _ p _ => technique_of_path p
      | QuantizeModel _ => Some QuantizationAwareTraining
      | PolynomialDecay _ _ _ _ | PruneLowMagnitude _ _ | UpdatePruningStep
      | StripPruning _ => Some WeightPruning
      | _ => None
      end
  end.

(** Monitors that decide the two orders along a log. *)
Fixpoint guarded (P Q : entry -> bool) (seen : bool) (t : list entry) : bool :=
  match t with
  | [] => true
  | x :: t' => (negb (Q x) || seen) && guarded P Q (seen || P x) t'
  end.

Fixpoint reads_follow (written : list path) (t : list entry) : Prop :=
  match t with
  | [] => True
  | x :: t' =>
      (forall p, p ∈ read_by x -> p ∈ written) /\
      reads_follow (written ++ written_by x) t'
  end.

(** Predicates that no call of the inference loop satisfies. *)
Definition quiet (P : entry -> bool) : Prop :=
  forall i a b image run x, x ∈ inference_round i a b image run -> P x = false.

(** ** The metric tables *)

Section Tables.
Context `{RT : Runtime}.

(** The dictionary a variable refers to. *)
Definition table (s : state) (d : loc) : dict := default [] (heap s !! d).

(** What was added to the log between two states. *)
Definition log_since (s s' : state) : list entry := drop (length (trace s)) (trace s').





End Tables.

(** The first call of the log returned (for convert_tflite: the
    converter was created). *)
Definition first_call_returned (t : list entry) : bool :=
  match t with
  | x :: _ => succeeded x
  | [] => false
  end.

(** ** The claims that do not hold as stated, as propositions *)

Section Claims.
Context `{RT : Runtime}.


(** The order of the calls of a run, with every model converted or saved
    before its size or accuracy is measured: files before they are read,
    models in memory before they are evaluated. *)
Definition calls_in_claimed_order (t : list entry) : Prop :=
  preceded_by is_load_data is_fit t /\
  preceded_by is_fit is_conversion t /\
  written_before_read t /\
  exported_before_evaluated t.

End Claims.

(** Runs on the small runtime. *)
Definition toy_init (faults : list (nat * exn)) : @state Toy.runtime :=
  @init Toy.runtime (Toy.world0 faults).

(** The log of a complete run of the notebook there. *)
Definition toy_log : list entry :=
  trace (final (@workflow Toy.runtime (toy_init []))).

Definition toy_test_images : array3 float := true_divide Toy.test_set.1 255.0%float.
Definition toy_test_labels : list Z := Toy.test_set.2.


(** ** What the utilities do however they end *)

(** What a call leaves open: the file behind [open], the archive behind
    [ZipFile], and the file descriptor [mkstemp] returns beside the
    path (the file is created and opened by mkstemp itself). *)
Inductive resource :=
| OpenFile (f : file)
| OpenArchive (z : zipfile)
| Descriptor (fd : Z).

Definition opened_by (x : entry) : list resource :=
  match x with
  | Entry e (inr r) =>
      match e in Event X return X -> list resource with
      | Open _ _ => fun f => [OpenFile f]
      | ZipFile _ _ _ => fun z => [OpenArchive z]
      | Mkstemp _ => fun r => [Descriptor r.1]
      | _ => fun _ => []
      end r
  | Entry _ (inl _) => []
  end.

(** What a call closes (whether or not the close succeeds).  No call of
    the notebook closes a descriptor: it has no [os.close]. *)
Definition closed_by (x : entry) : list resource :=
  match x with
  | Entry e _ =>
      match e with
      | FileClose f => [OpenFile f]
      | ZipClose z => [OpenArchive z]
      | _ => []
      end
  end.

(** Opened by a [with] statement, which closes it. *)
Definition managed (r : resource) : bool :=
  match r with
  | OpenFile _ | OpenArchive _ => true
  | Descriptor _ => false
  end.

(** The files a log asks to open, with the mode. *)
Definition open_asked (x : entry) : list (path * string) :=
  match x with
  | Entry e _ => match e with Open p mode => [(p, mode)] | _ => [] end
  end.

Definition is_open (x : entry) : bool :=
  match x with
  | Entry e _ => match e with Open _ _ => true | _ => false end
  end.

(** [converter.convert()] has returned the model. *)
Definition converted (x : entry) : bool :=
  match x with
  | Entry e (inr _) => match e with Convert _ => true | _ => false end
  | Entry _ (inl _) => false
  end.

Definition converted_bytes (x : entry) : option (list byte) :=
  match x with
  | Entry e (inr r) =>
      match e in Event X return X -> option (list byte) with
      | Convert _ => fun bytes => Some bytes
      | _ => fun _ => None
      end r
  | Entry _ (inl _) => None
  end.

(** The data a call writes to a file. *)
Definition file_write (x : entry) : option (file * list byte) :=
  match x with
  | Entry e _ => match e with FileWrite f data => Some (f, data) | _ => None end
  end.

Definition is_getsize (x : entry) : bool :=
  match x with
  | Entry e _ => match e with Getsize _ => true | _ => false end
  end.

(** The archive was closed, and the close returned. *)
Definition zip_closed (x : entry) : bool :=
  match x with
  | Entry e (inr _) => match e with ZipClose _ => true | _ => false end
  | Entry _ (inl _) => false
  end.

(** The file a call adds to an archive, and the path of the archive a
    call creates. *)
Definition zipped (x : entry) : option path :=
  match x with
  | Entry e _ => match e with ZipWrite _ p => Some p | _ => None end
  end.

Definition archive_of (x : entry) : option path :=
  match x with
  | Entry e _ => match e with ZipFile p _ _ => Some p | _ => None end
  end.

Section Safety.
Context `{RT : Runtime}.

(** The metric dictionaries are as they were, however the run ends. *)
Definition keeps_heap {A} (m : M A) : Prop :=
  forall s, heap (final (m s)) = heap s.

(** However the run ends, it has closed everything it opened, once each
    and in the order of opening, and nothing else. *)
Definition closes_what_it_opens {A} (m : M A) : Prop :=
  forall s, exists t,
    trace (final (m s)) = trace s ++ t /\ t ≫= closed_by = t ≫= opened_by.

(** However the run ends, it has closed every file and archive it opened,
    once each and in the order of opening, and nothing else: the
    descriptors it got from mkstemp, and only they, are left open. *)
Definition closes_what_it_manages {A} (m : M A) : Prop :=
  forall s, exists t,
    trace (final (m s)) = trace s ++ t /\
    t ≫= closed_by = List.filter managed (t ≫= opened_by).

(** No dictionary is ever dropped and no key is ever removed or moved:
    the heap [h'] has every dictionary of [h], with at least its keys, in
    their positions. *)
Definition extends (h h' : list dict) : Prop :=
  forall d items, h !! d = Some items ->
    exists items', h' !! d = Some items' /\ dict_keys items `prefix_of` dict_keys items'.

Definition only_grows {A} (m : M A) : Prop :=
  forall s, extends (heap s) (heap (final (m s))).


End Safety.

(** ** Failures of evaluate_tflite_model *)

(** Number of predicted digits equal to the label [y]. *)
Definition agreeing (y : Z) (digits : list Z) : nat :=
  length (filter (fun d => d = y) digits).

(** Why a round of inference, or the set-up before the loop, raised: a
    call into the interpreter raised, or an answer of the interpreter
    lacks the element the code takes from it. *)
Inductive inference_failure : exn -> list entry -> Prop :=
| call_raised ex t0 X (e : Event X) :
    Forall (fun x => failure x = None) t0 ->
    inference_failure ex (t0 ++ [Entry e (inl ex)])
| no_input_tensor t0 i :
    Forall (fun x => failure x = None) t0 ->
    inference_failure IndexError (t0 ++ [Entry (GetInputDetails i) (inr [])])
| no_output_tensor t0 i :
    Forall (fun x => failure x = None) t0 ->
    inference_failure IndexError (t0 ++ [Entry (GetOutputDetails i) (inr [])])
| empty_output t0 fn :
    Forall (fun x => failure x = None) t0 ->
    inference_failure IndexError (t0 ++ [Entry (CallTensorFn fn) (inr [])])
| empty_row t0 fn rows :
    Forall (fun x => failure x = None) t0 ->
    inference_failure ValueError (t0 ++ [Entry (CallTensorFn fn) (inr ([] :: rows))]).

(** The comparison with the labels raised, after every image was run. *)
Definition label_count_failure (filename : path) (x_test : array3 float)
    (y_test : list Z) (ex : exn) (t : list entry) : Prop :=
  ex = ComparisonError /\
  length x_test <> length y_test /\ length x_test <> 1%nat /\ length y_test <> 1%nat /\
  exists e, length (ev_runs e) = length x_test /\ t = evaluate_log filename x_test e.

(** ** What a complete run has done, read off its log *)

(** The dataset a call has loaded. *)
Definition loaded_by (x : entry) : list mnist_data :=
  match x with
  | Entry e (inr r) =>
      match e in Event X return X -> list mnist_data with
      | MnistLoadData => fun data => [data]
      | _ => fun _ => []
      end r
  | Entry _ (inl _) => []
  end.

(** The arguments of a call of [fit]. *)
Record training := Training {
  tr_model : keras_model;
  tr_x : array3 float;
  tr_y : list Z;
  tr_epochs : Z;
  tr_shuffle : bool;
  tr_validation_split : float;
  tr_callbacks : list callback
}.

Definition training_of (x : entry) : list training :=
  match x with
  | Entry e _ =>
      match e with
      | KerasFit m x y epochs shuffle split callbacks =>
          [Training m x y epochs shuffle split callbacks]
      | _ => []
      end
  end.

(** Where a model comes from: built from layers, or made from another
    model by the optimization toolkit. *)
Inductive origin :=
| Built (layers : list keras_layer)
| Quantized (m : keras_model)
| Pruned (m : keras_model) (s : schedule)
| Stripped (m : keras_model).

Definition model_made (x : entry) : list (origin * keras_model) :=
  match x with
  | Entry e (inr r) =>
      match e in Event X return X -> list (origin * keras_model) with
      | KerasSequential layers => fun m => [(Built layers, m)]
      | QuantizeModel m0 => fun m => [(Quantized m0, m)]
      | PruneLowMagnitude m0 s => fun m => [(Pruned m0 s, m)]
      | StripPruning m0 => fun m => [(Stripped m0, m)]
      | _ => fun _ => []
      end r
  | Entry _ (inl _) => []
  end.

(** The layers a log asks for, and the layers it got. *)
Definition layer_of (x : entry) : list layer_spec :=
  match x with
  | Entry e _ => match e with KerasLayer spec => [spec] | _ => [] end
  end.

Definition layer_made (x : entry) : list keras_layer :=
  match x with
  | Entry e (inr r) =>
      match e in Event X return X -> list keras_layer with
      | KerasLayer _ => fun l => [l]
      | _ => fun _ => []
      end r
  | Entry _ (inl _) => []
  end.

(** The layers of model_builder, input to output. *)
Definition architecture : list layer_spec :=
  [ InputLayer [28; 28]; Reshape [28; 28; 1]; Conv2D 12 (3, 3) "relu";
    MaxPooling2D (2, 2); Flatten; Dense 10 "softmax" ].

(** A Keras model evaluated in memory: the model, the data, and the
    accuracy [evaluate] returned with the loss. *)
Definition measured_by (x : entry) : list (keras_model * array3 float * list Z * float) :=
  match x with
  | Entry e (inr r) =>
      match e in Event X return X -> list (keras_model * array3 float * list Z * float) with
      | KerasEvaluate m x y _ => fun r => [(m, x, y, r.2)]
      | _ => fun _ => []
      end r
  | Entry _ (inl _) => []
  end.

(** The model file an interpreter is made from, and the tensor a call
    sets as the input of an interpreter. *)
Definition interpreted (x : entry) : list path :=
  match x with
  | Entry e _ => match e with Interpreter p => [p] | _ => [] end
  end.

Definition fed (x : entry) : list (array3 float32) :=
  match x with
  | Entry e _ => match e with SetTensor _ _ v => [v] | _ => [] end
  end.

(** One test image as the interpreter gets it. *)
Definition input_tensor (image : list (list float)) : array3 float32 :=
  astype_float32 (expand_dims0 image).

Definition float32_in_unit_interval (v : float32) : Prop :=
  match v with F32 x => in_unit_interval x = true end.

(** The sizes the notebook has asked for. *)
Definition sized_by (x : entry) : list (path * Z) :=
  match x with
  | Entry e (inr r) =>
      match e in Event X return X -> list (path * Z) with
      | Getsize p => fun size => [(p, size)]
      | _ => fun _ => []
      end r
  | Entry _ (inl _) => []
  end.

(** What a cell shows as its value. *)
Definition displayed_by (x : entry) : list shown :=
  match x with
  | Entry e _ => match e with Display v => [v] | _ => [] end
  end.

(** The weight variables a model was asked for. *)
Definition weights_by (x : entry) : list (keras_model * list variable) :=
  match x with
  | Entry e (inr r) =>
      match e in Event X return X -> list (keras_model * list variable) with
      | KerasWeights m => fun ws => [(m, ws)]
      | _ => fun _ => []
      end r
  | Entry _ (inl _) => []
  end.

(** The histories [fit] has returned. *)
Definition history_by (x : entry) : list history :=
  match x with
  | Entry e (inr r) =>
      match e in Event X return X -> list history with
      | KerasFit _ _ _ _ _ _ _ => fun h => [h]
      | _ => fun _ => []
      end r
  | Entry _ (inl _) => []
  end.

(** The TF Lite files a log exports: for each file opened, the model
    whose converter was made last and whether optimizations were set on
    a converter since. *)
Fixpoint exported (current : option keras_model) (quantized : bool) (t : list entry)
    : list (option keras_model * path * bool) :=
  match t with
  | [] => []
  | Entry e _ :: t' =>
      match e with
      | FromKerasModel m => exported (Some m) false t'
      | SetOptimizations _ _ => exported current true t'
      | Open p _ => (current, p, quantized) :: exported current quantized t'
      | _ => exported current quantized t'
      end
  end.

(** Files saved by Keras, with the model saved. *)
Definition saved_by (x : entry) : list (keras_model * path) :=
  match x with
  | Entry e _ =>
      match e with
      | KerasSave m p _ => [(m, p)]
      | KerasSaveWeights m p => [(m, p)]
      | _ => []
      end
  end.



Section Fitting.
Context `{RT : Runtime}.



(** The accuracy of an evaluation is measured: every test image was
    run, and the accuracy is the mean of the comparison with the labels
    of the digits predicted from the outputs read, one per image. *)
Definition measures (x_test : array3 float) (y_test : list Z) (e : evaluation) : Prop :=
  length (ev_runs e) = length x_test /\
  exists digits matches,
    Forall2 (fun run digit => predicted run.2 digit) (ev_runs e) digits /\
    np_equal digits y_test = inr matches /\
    ev_accuracy e = np_mean matches.

(** The answers of a complete run fit the code: every evaluation ran
    every test image and compared the digits with the test labels, and
    the previewed weight variables exist. *)
Definition fitting (data : mnist_data) (a : baseline_answers) (p : ptq_answers)
    (q : qat_answers) (r : pruning_answers) : Prop :=
  let x := test_images (setup_globals data) in
  let y := test_labels (setup_globals data) in
  measures x y (ba_evaluation a) /\
  measures x y (pa_evaluation p) /\
  measures x y (qa_evaluation q) /\
  measures x y (ra_evaluation r) /\
  ra_weights1 r !! 1%nat = Some (ra_shown1 r) /\
  ra_weights2 r !! 1%nat = Some (ra_shown2 r) /\
  ra_weights3 r !! 0%nat = Some (ra_shown3 r).

End Fitting.

Section Tracking.
Context `{RT : Runtime}.

(** In every run of [m], from a point where the files [W] have been
    written, every file a call reads has been written before; and a run
    that returns has written the files [F]. *)
Definition tracks (W : list path) {A} (F : list path) (m : M A) : Prop :=
  forall s, exists t,
    trace (final (m s)) = trace s ++ t /\
    reads_follow W t /\
    forall a s', m s = Done a s' -> forall p, p ∈ F -> p ∈ files_written t.

End Tracking.

(** ** Measurements, read off a log *)



Section Measured.
Context `{RT : Runtime}.



End Measured.

(** ** The cells and the dictionaries *)

Section Cells.
Context `{RT : Runtime}.






End Cells.

(** ** Checking a numeric property on a range *)

(** [p] holds for every number below [n]. *)
Definition all_below (n : N) (p : N -> bool) : bool :=
  (N.iter n (fun st : N * bool => (N.succ st.1, st.2 && p st.1)) (0%N, true)).2.

(** [ceil_int32] with shifts for the powers of two. *)
Definition ceil_int32_by_shifts (x : float) : Z :=
  match Prim2SF x with
  | S754_zero _ => 0
  | S754_finite s m e =>
      let n := cond_Zopp s (Z.pos m) in
      let c := if 0 <=? e then Z.shiftl n e else - (Z.shiftr (- n) (- e)) in
      if (- 2147483648 <=? c) && (c <? 2147483648) then c else - 2147483648
  | _ => - 2147483648
  end.

(** A pixel after [/ 255.0], and after the cast to float32 that follows
    in evaluate_tflite_model. *)
Definition normalized (b : byte) : float := (uint8_to_float b / 255.0)%float.
Definition normalized32 (b : byte) : float := round_to_float32 (normalized b).
(** ** Basic facts about the monad *)

Section Facts.
Context `{RT : Runtime}.

Lemma bind_Done {A B} (m : M A) (k : A -> M B) s b s' :
  bind m k s = Done b s' ->
  exists a s1, m s = Done a s1 /\ k a s1 = Done b s'.
Proof.
  unfold bind. destruct (m s) as [a s1|e s1]; [eauto | discriminate].
Qed.

Lemma ret_Done {A} (a b : A) s s' : ret a s = Done b s' -> b = a /\ s' = s.
Proof. unfold ret. intros H; injection H; auto. Qed.

Lemma call_Done {X} (e : Event X) s x s' :
  call e s = Done x s' ->
  exists w, handle X e (world s) = (inr x, w) /\
            s' = State (heap s) w (trace s ++ [Entry e (inr x)]).
Proof.
  unfold call. destruct (handle X e (world s)) as [[ex|y] w]; [discriminate|].
  intros H; injection H as -> <-. eauto.
Qed.

Lemma call_Raised {X} (e : Event X) s ex s' :
  call e s = Raised ex s' ->
  exists w, handle X e (world s) = (inl ex, w) /\
            s' = State (heap s) w (trace s ++ [Entry e (inl ex)]).
Proof.
  unfold call. destruct (handle X e (world s)) as [[ex'|y] w]; [|discriminate].
  intros H; injection H as -> <-. eauto.
Qed.

Lemma getitem_Done {A} (xs : list A) i x s s' :
  getitem xs i s = Done x s' -> xs !! i = Some x /\ s' = s.
Proof.
  unfold getitem. destruct (xs !! i); [|discriminate].
  intros H; apply ret_Done in H as [-> ->]; auto.
Qed.

Lemma lift_Done {A} (r : exn + A) a s s' :
  lift r s = Done a s' -> r = inr a /\ s' = s.
Proof.
  destruct r; [discriminate|]. intros H; apply ret_Done in H as [-> ->]; auto.
Qed.

Lemma new_dict_Done d s s' :
  new_dict s = Done d s' ->
  d = length (heap s) /\ s' = State (heap s ++ [[]]) (world s) (trace s).
Proof. unfold new_dict. intros H; injection H as <- <-; auto. Qed.

Lemma dict_items_Done d items s s' :
  dict_items d s = Done items s' -> heap s !! d = Some items /\ s' = s.
Proof.
  unfold dict_items. destruct (heap s !! d); [|discriminate].
  intros H; injection H as <- <-; auto.
Qed.

Lemma dict_setitem_Done d k v u s s' :
  dict_setitem d k v s = Done u s' ->
  exists items, heap s !! d = Some items /\
    s' = State (<[d := dict_set k v items]> (heap s)) (world s) (trace s).
Proof.
  unfold dict_setitem. destruct (heap s !! d) as [items|]; [|discriminate].
  intros H; injection H as <-; eauto.
Qed.

Lemma with_Done {R A} (enter : M R) (exit : R -> M unit) (body : R -> M A) s a s' :
  with_ enter exit body s = Done a s' ->
  exists r s1 s2 u, enter s = Done r s1 /\ body r s1 = Done a s2 /\
                    exit r s2 = Done u s'.
Proof.
  unfold with_. destruct (enter s) as [r s1|]; [|discriminate].
  destruct (body r s1) as [a' s2|e s2] eqn:Hb.
  - destruct (exit r s2) as [u s3|] eqn:He; [|discriminate].
    intros H; injection H as <- <-. eauto 10.
  - destruct (exit r s2); discriminate.
Qed.

End Facts.

(** ** Normalization *)

Lemma normalized_pixel_in_unit_interval (b : byte) :
  in_unit_interval (uint8_to_float b / 255.0)%float = true.
Proof. destruct b; vm_compute; reflexivity. Qed.

Lemma true_divide_255_in_unit_interval (a : array3 byte) :
  pixels_in_unit_interval (true_divide a 255.0%float).
Proof.
  unfold pixels_in_unit_interval, true_divide.
  apply Forall_fmap, Forall_true; intros image; simpl.
  apply Forall_fmap, Forall_true; intros row; simpl.
  apply Forall_fmap, Forall_true; intros b; simpl.
  apply normalized_pixel_in_unit_interval.
Qed.

Section Normalization.
Context `{RT : Runtime}.

(** C4: whatever uint8 images the loader returns, after the cell that
    divides them by 255.0 every pixel of every train image and of every
    test image is a float64 in the closed interval [0, 1]. *)
Theorem normalized_images_in_unit_interval dicts s g s' :
  cell_4 dicts s = Done g s' ->
  pixels_in_unit_interval (train_images g) /\
  pixels_in_unit_interval (test_images g).
Proof.
  unfold cell_4. intros H.
  apply bind_Done in H as ([[tri trl] [tei tel]] & s1 & _ & H).
  apply ret_Done in H as [-> _]. simpl.
  split; apply true_divide_255_in_unit_interval.
Qed.

End Normalization.

(** ** print_metric *)

Section PrintMetric.
Context `{RT : Runtime}.

Lemma call_heap {X} (e : Event X) s : heap (final (call e s)) = heap s.
Proof.
  unfold call. destruct (handle X e (world s)) as [[ex|x] w]; reflexivity.
Qed.

Lemma print_body_eq name item u :
  print_body name item u = call (Print (metric_line name item)).
Proof. destruct item; reflexivity. Qed.

Lemma print_loop_heap name items s :
  heap (final (for_each items (print_body name) tt s)) = heap s.
Proof.
  revert s; induction items as [|item items IH]; intros s; [reflexivity|].
  simpl. unfold bind. rewrite print_body_eq.
  pose proof (call_heap (Print (metric_line name item)) s) as Hc.
  destruct (call (Print (metric_line name item)) s) as [[] s1|ex s1]; simpl in *.
  - rewrite IH. exact Hc.
  - exact Hc.
Qed.

Lemma print_loop_Done name items s u s' :
  for_each items (print_body name) tt s = Done u s' ->
  trace s' = trace s ++ map (fun item => Entry (Print (metric_line name item)) (inr ())) items.
Proof.
  revert s; induction items as [|item items IH]; intros s H; simpl in *.
  - apply ret_Done in H as [_ ->]. by rewrite app_nil_r.
  - apply bind_Done in H as ([] & s1 & H1 & H).
    rewrite print_body_eq in H1. apply call_Done in H1 as (w & _ & ->).
    apply IH in H. rewrite H. simpl. by rewrite <- app_assoc.
Qed.

Lemma print_loop_Raised name items s ex s' :
  for_each items (print_body name) tt s = Raised ex s' ->
  exists n item, items !! n = Some item /\
    trace s' = trace s
      ++ map (fun item => Entry (Print (metric_line name item)) (inr ())) (take n items)
      ++ [Entry (Print (metric_line name item)) (inl ex)].
Proof.
  revert s; induction items as [|item items IH]; intros s H; simpl in *; [discriminate|].
  unfold bind in H. rewrite print_body_eq in H.
  destruct (call (Print (metric_line name item)) s) as [[] s1|ex1 s1] eqn:Hc.
  - apply call_Done in Hc as (w & _ & ->).
    apply IH in H as (n & item' & Hn & Ht).
    exists (S n), item'. split; [done|]. rewrite Ht. simpl. by rewrite <- app_assoc.
  - injection H as -> ->. apply call_Raised in Hc as (w & _ & ->).
    exists 0%nat, item. split; [done|]. reflexivity.
Qed.

Lemma print_metric_unfold d name s (items : dict) :
  heap s !! d = Some items ->
  print_metric d name s = for_each items (print_body name) tt s.
Proof.
  intros Hd. unfold print_metric, bind, dict_items. rewrite Hd. reflexivity.
Qed.

(** C10: for a dictionary with the items [items] (in insertion order)
    and any metric name, print_metric leaves the whole heap, hence the
    dictionary, as it was, however the run ends; when it returns it has
    printed exactly one line per item, in the order of the items, each
    reading [<metric_name> for <key>: <value>]; and it can only fail by a
    print that raises, after the lines of the items before it. *)
Theorem print_metric_prints_items_and_keeps_dict s d (items : dict) metric_name :
  heap s !! d = Some items ->
  heap (final (print_metric d metric_name s)) = heap s /\
  (forall u s', print_metric d metric_name s = Done u s' ->
     trace s' = trace s ++
       map (fun item =>
              Entry (Print (metric_name +:+ " for " +:+ py_str item.1 +:+ ": "
                            +:+ py_str item.2)) (inr ()))
           items) /\
  (forall ex s', print_metric d metric_name s = Raised ex s' ->
     exists n item, items !! n = Some item /\
       trace s' = trace s ++
         map (fun item =>
                Entry (Print (metric_name +:+ " for " +:+ py_str item.1 +:+ ": "
                              +:+ py_str item.2)) (inr ()))
             (take n items)
         ++ [Entry (Print (metric_name +:+ " for " +:+ py_str item.1 +:+ ": "
                           +:+ py_str item.2)) (inl ex)]).
Proof.
  intros Hd. rewrite (print_metric_unfold _ _ _ _ Hd). split; [|split].
  - apply print_loop_heap.
  - intros u s'. apply print_loop_Done.
  - intros ex s'. apply print_loop_Raised.
Qed.

End PrintMetric.

(** ** get_gzipped_model_size and convert_tflite *)

Section Files.
Context `{RT : Runtime}.

Lemma get_gzipped_model_size_Done file s size s' :
  get_gzipped_model_size file s = Done size s' ->
  exists fd zipped_file z w,
    s' = State (heap s) w
           (trace s ++
            [ Entry (Mkstemp ".zip") (inr (fd, zipped_file));
              Entry (ZipFile zipped_file "w" ZIP_DEFLATED) (inr z);
              Entry (ZipWrite z file) (inr ());
              Entry (ZipClose z) (inr ());
              Entry (Getsize zipped_file) (inr size) ]).
Proof.
  unfold get_gzipped_model_size. intros H.
  apply bind_Done in H as ([fd zipped_file] & s1 & H1 & H).
  apply call_Done in H1 as (w1 & _ & ->).
  apply bind_Done in H as (u & s2 & H2 & H).
  apply with_Done in H2 as (z & s3 & s4 & u' & Hz & Hw & Hc).
  apply call_Done in Hz as (w2 & _ & ->).
  apply call_Done in Hw as (w3 & _ & ->). destruct u.
  apply call_Done in Hc as (w4 & _ & ->). destruct u'.
  apply call_Done in H as (w5 & _ & ->).
  exists fd, zipped_file, z, w5. simpl. by rewrite <- !app_assoc.
Qed.

(** C9: a call of get_gzipped_model_size that returns has made exactly
    five calls: mkstemp('.zip') for a new temporary file, ZipFile on that
    path in mode 'w' with ZIP_DEFLATED, one write adding the input file
    (the only member), the close of the archive, and getsize of the
    archive, whose answer is the result.  So the only path written is the
    archive: the input file is read, not written, whenever the temporary
    path differs from it; and nothing is done to the archive after its
    size is taken, and the file descriptor of mkstemp is not used. *)
Theorem get_gzipped_model_size_zips_one_file file s size s' :
  get_gzipped_model_size file s = Done size s' ->
  exists fd zipped_file z new,
    new = [ Entry (Mkstemp ".zip") (inr (fd, zipped_file));
            Entry (ZipFile zipped_file "w" ZIP_DEFLATED) (inr z);
            Entry (ZipWrite z file) (inr ());
            Entry (ZipClose z) (inr ());
            Entry (Getsize zipped_file) (inr size) ] /\
    trace s' = trace s ++ new /\
    heap s' = heap s /\
    files_written new = [zipped_file; zipped_file] /\
    new ≫= read_by = [file; zipped_file] /\
    (zipped_file <> file -> file ∉ files_written new).
Proof.
  intros H. apply get_gzipped_model_size_Done in H as (fd & zf & z & w & ->).
  exists fd, zf, z. eexists. split; [reflexivity|]. simpl.
  repeat split; try reflexivity.
  intros Hne Hin. unfold files_written in Hin. simpl in Hin.
  apply elem_of_cons in Hin as [->|Hin]; [done|].
  apply elem_of_cons in Hin as [->|Hin]; [done|].
  by apply elem_of_nil in Hin.
Qed.

Lemma convert_tflite_Done model filename quantize s r s' :
  convert_tflite model filename quantize s = Done r s' ->
  r = None /\
  exists c tflite_model f n w,
    s' = State (heap s) w
           (trace s ++
            [Entry (FromKerasModel model) (inr c)] ++
            (if quantize then [Entry (SetOptimizations c [OptimizeDefault]) (inr ())]
             else []) ++
            [ Entry (Convert c) (inr tflite_model);
              Entry (Open filename "wb") (inr f);
              Entry (FileWrite f tflite_model) (inr n);
              Entry (FileClose f) (inr ()) ]).
Proof.
  unfold convert_tflite. intros H.
  apply bind_Done in H as (c & s1 & H1 & H).
  apply call_Done in H1 as (w1 & _ & ->).
  apply bind_Done in H as ([] & s2 & H2 & H).
  apply bind_Done in H as (bytes & s3 & H3 & H).
  apply call_Done in H3 as (w3 & _ & ->).
  apply bind_Done in H as (n & s4 & H4 & H).
  apply with_Done in H4 as (f & s5 & s6 & [] & Ho & Hw & Hc).
  apply call_Done in Ho as (w5 & _ & ->).
  apply call_Done in Hw as (w6 & _ & ->).
  apply call_Done in Hc as (w7 & _ & ->).
  apply ret_Done in H as [-> ->]. split; [reflexivity|].
  exists c, bytes, f, n, w7.
  destruct quantize.
  - apply call_Done in H2 as (w2 & _ & ->). simpl. by rewrite <- !app_assoc.
  - apply ret_Done in H2 as [_ ->]. simpl. by rewrite <- !app_assoc.
Qed.

End Files.

(** ** evaluate_tflite_model *)

Section Evaluate.
Context `{RT : Runtime}.

Lemma evaluate_step_Done i input_index output_index image acc preds s s' :
  evaluate_step i input_index output_index image acc s = Done preds s' ->
  exists run digit,
    predicted run.2 digit /\ preds = acc ++ [digit] /\
    exists w, s' = State (heap s) w
           (trace s ++ inference_round i input_index output_index image run).
Proof.
  unfold evaluate_step. intros H.
  apply bind_Done in H as ([] & s1 & H1 & H). apply call_Done in H1 as (w1 & _ & ->).
  apply bind_Done in H as ([] & s2 & H2 & H). apply call_Done in H2 as (w2 & _ & ->).
  apply bind_Done in H as (fn & s3 & H3 & H). apply call_Done in H3 as (w3 & _ & ->).
  apply bind_Done in H as (out & s4 & H4 & H). apply call_Done in H4 as (w4 & _ & ->).
  apply bind_Done in H as (row & s5 & H5 & H). apply getitem_Done in H5 as [Hrow ->].
  apply bind_Done in H as (digit & s6 & H6 & H). apply lift_Done in H6 as [Harg ->].
  apply ret_Done in H as [-> ->].
  exists (fn, out), digit. split; [by exists row|]. split; [reflexivity|].
  exists w4. simpl. by rewrite <- !app_assoc.
Qed.

Lemma inference_loop_Done i input_index output_index (idx : list Z) x_test acc preds s s' :
  length idx = length x_test ->
  for_each (zip idx x_test)
    (fun it prediction_digits =>
       let '(_, test_image) := it in
       evaluate_step i input_index output_index test_image prediction_digits)
    acc s = Done preds s' ->
  exists runs digits,
    length runs = length x_test /\
    Forall2 (fun run digit => predicted run.2 digit) runs digits /\
    preds = acc ++ digits /\
    exists w, s' = State (heap s) w
           (trace s ++
            concat (zip_with (inference_round i input_index output_index) x_test runs)).
Proof.
  revert idx acc s. induction x_test as [|image x_test IH]; intros idx acc s Hlen H.
  - destruct idx; [|discriminate]. simpl in H. apply ret_Done in H as [-> ->].
    exists [], []. simpl. rewrite !app_nil_r. repeat split; [constructor|].
    exists (world s). by destruct s.
  - destruct idx as [|k idx]; [discriminate|]. injection Hlen as Hlen. simpl in H.
    apply bind_Done in H as (acc1 & s1 & H1 & H).
    apply evaluate_step_Done in H1 as (run & digit & Hp & -> & w1 & ->).
    apply (IH _ _ _ Hlen) in H as (runs & digits & Hl & HF & -> & w & ->).
    exists (run :: runs), (digit :: digits). simpl.
    split; [by rewrite Hl|]. split; [by constructor|].
    split; [by rewrite <- app_assoc|]. exists w. by rewrite <- !app_assoc.
Qed.

(** The digit [argmax] returns is a position of the array. *)
Lemma argmax_from_range mp max_ind i xs :
  0 <= max_ind < i ->
  0 <= argmax_from mp max_ind i xs < i + Z.of_nat (length xs).
Proof.
  revert mp max_ind i. induction xs as [|x xs IH]; intros mp max_ind i Hi.
  - simpl. lia.
  - cbn [argmax_from length]. rewrite Nat2Z.inj_succ.
    destruct (x <=? mp)%float.
    + specialize (IH mp max_ind (i + 1)). lia.
    + destruct (is_nan x); [lia|]. specialize (IH x i (i + 1)). lia.
Qed.

Lemma argmax_range xs digit :
  argmax xs = inr digit -> 0 <= digit < Z.of_nat (length xs).
Proof.
  destruct xs as [|x xs]; [discriminate|]. cbn [argmax length].
  intros [= <-]. rewrite Nat2Z.inj_succ.
  destruct (is_nan x); [lia|].
  pose proof (argmax_from_range x 0 1 xs). lia.
Qed.

Lemma count_true_eqb (a b : list Z) :
  count_true (zip_with Z.eqb a b) = correct a b.
Proof.
  unfold count_true, correct. revert b.
  induction a as [|x a IH]; intros [|y b]; simpl; try reflexivity.
  rewrite !filter_cons. simpl.
  destruct (Z.eqb_spec x y) as [->|Hne].
  - rewrite decide_True by done. rewrite decide_True by done. simpl. by rewrite IH.
  - rewrite decide_False by (by destruct (x =? y)). rewrite decide_False by done.
    apply IH.
Qed.

(** C1: a call of evaluate_tflite_model on a test set (as many labels
    as images) that returns has loaded the model file into one
    interpreter and then fed the images one at a time, in the order of
    the dataset: each round sets the input tensor to that single image
    with a batch dimension of 1 and cast to float32, invokes the
    interpreter and reads the output tensor.  The digit predicted for an
    image is the argmax of row 0 of the output read in its round, and the
    result is the number of images whose predicted digit equals the label
    divided by the number of images (a float64 division).  The heap is
    untouched. *)
Theorem evaluate_tflite_model_accuracy filename x_test y_test s accuracy s' :
  evaluate_tflite_model filename x_test y_test s = Done accuracy s' ->
  length x_test = length y_test ->
  exists i input0 inputs output0 outputs
         (runs : list (tensor_fn * list (list float))) (digits : list Z),
    trace s' = trace s ++
      [ Entry (Interpreter filename) (inr i);
        Entry (AllocateTensors i) (inr ());
        Entry (GetInputDetails i) (inr (input0 :: inputs));
        Entry (GetOutputDetails i) (inr (output0 :: outputs)) ] ++
      concat (zip_with
        (fun image run =>
           [ Entry (SetTensor i (details_index input0)
                      (astype_float32 (expand_dims0 image))) (inr ());
             Entry (Invoke i) (inr ());
             Entry (TensorFn i (details_index output0)) (inr run.1);
             Entry (CallTensorFn run.1) (inr run.2) ])
        x_test runs) /\
    length runs = length x_test /\
    Forall2 (fun run digit =>
               exists row, run.2 !! 0%nat = Some row /\ argmax row = inr digit)
            runs digits /\
    accuracy = (float_of_Z (Z.of_nat (correct digits y_test))
                / float_of_Z (Z.of_nat (length x_test)))%float /\
    heap s' = heap s.
Proof.
  unfold evaluate_tflite_model. intros H Hlen.
  apply bind_Done in H as (i & s1 & H1 & H). apply call_Done in H1 as (w1 & _ & ->).
  apply bind_Done in H as ([] & s2 & H2 & H). apply call_Done in H2 as (w2 & _ & ->).
  apply bind_Done in H as (ins & s3 & H3 & H). apply call_Done in H3 as (w3 & _ & ->).
  apply bind_Done in H as (input0 & s4 & H4 & H). apply getitem_Done in H4 as [Hin ->].
  apply bind_Done in H as (outs & s5 & H5 & H). apply call_Done in H5 as (w5 & _ & ->).
  apply bind_Done in H as (output0 & s6 & H6 & H). apply getitem_Done in H6 as [Hout ->].
  apply bind_Done in H as (preds & s7 & H7 & H).
  unfold enumerate in H7.
  apply inference_loop_Done in H7 as (runs & digits & Hl & HF & -> & w7 & ->);
    [|by rewrite length_map, length_seq].
  apply bind_Done in H as (matches & s8 & H8 & H). apply lift_Done in H8 as [Heq ->].
  apply ret_Done in H as [-> ->].
  destruct ins as [|in0 ins]; [discriminate|]. injection Hin as ->.
  destruct outs as [|out0 outs]; [discriminate|]. injection Hout as ->.
  exists i, input0, ins, output0, outs, runs, digits. simpl.
  assert (Hd : length digits = length y_test).
  { apply Forall2_length in HF. congruence. }
  unfold np_equal in Heq. simpl in Heq.
  rewrite Hd, Nat.eqb_refl in Heq. injection Heq as <-.
  split; [by rewrite <- !app_assoc|]. split; [done|]. split; [done|].
  split; [|done]. unfold np_mean.
  rewrite count_true_eqb, length_zip_with, Hd, Nat.min_id, Hlen. reflexivity.
Qed.

End Evaluate.

(** ** Exceptions *)

Section Exceptions.
Context `{RT : Runtime}.
























(** What [fail_fast] says call by call: whichever call of the run
    failed, it was the last call of the run and the run raised its
    exception. *)
Lemma fail_fast_last_call {A} (m : M A) s t x ex :
  fail_fast m ->
  trace (final (m s)) = trace s ++ t -> x ∈ t -> failure x = Some ex ->
  outcome_exn (m s) = Some ex /\ exists t0, t = t0 ++ [x].
Proof.
  intros Hm Ht Hx Hex. destruct (Hm s) as (t' & Ht' & Hf).
  rewrite Ht in Ht'. apply app_inv_head in Ht' as <-.
  destruct Hf as [Hok|(t0 & y & ey & -> & Hok & Hy & Hr)].
  - rewrite Forall_forall in Hok. rewrite (Hok _ Hx) in Hex. discriminate.
  - apply elem_of_app in Hx as [Hx|Hx].
    + rewrite Forall_forall in Hok. rewrite (Hok _ Hx) in Hex. discriminate.
    + apply list_elem_of_singleton in Hx as ->.
      rewrite Hy in Hex. injection Hex as <-. split; [exact Hr | by exists t0].
Qed.


End Exceptions.

(** ** Running the cells *)

Section Runs.
Context `{RT : Runtime}.

Lemma print_metric_run d name s u s' :
  print_metric d name s = Done u s' ->
  exists (items : dict) w,
    heap s !! d = Some items /\
    s' = State (heap s) w (trace s ++ print_metric_log name items).
Proof.
  intros H. unfold print_metric in H.
  apply bind_Done in H as (items & s1 & H1 & H).
  apply dict_items_Done in H1 as [Hd ->].
  pose proof (print_loop_heap name items s) as Hh.
  change (for_each items (print_body name) () s = Done u s') in H.
  rewrite H in Hh. simpl in Hh.
  apply print_loop_Done in H.
  exists items, (world s'). split; [done|]. destruct s'; simpl in *.
  unfold print_metric_log. by rewrite Hh, H.
Qed.

Lemma model_builder_run model s s' :
  model_builder s = Done model s' ->
  exists b w,
    model = b_model b /\
    s' = State (heap s) w (trace s ++ model_builder_log b).
Proof.
  unfold model_builder. intros H.
  apply bind_Done in H as (l0 & s0 & H0 & H). apply call_Done in H0 as (w0 & _ & ->).
  apply bind_Done in H as (l1 & s1 & H1 & H). apply call_Done in H1 as (w1 & _ & ->).
  apply bind_Done in H as (l2 & s2 & H2 & H). apply call_Done in H2 as (w2 & _ & ->).
  apply bind_Done in H as (l3 & s3 & H3 & H). apply call_Done in H3 as (w3 & _ & ->).
  apply bind_Done in H as (l4 & s4 & H4 & H). apply call_Done in H4 as (w4 & _ & ->).
  apply bind_Done in H as (l5 & s5 & H5 & H). apply call_Done in H5 as (w5 & _ & ->).
  apply bind_Done in H as (m & s6 & H6 & H). apply call_Done in H6 as (w6 & _ & ->).
  apply ret_Done in H as [-> ->].
  exists (BuiltModel l0 l1 l2 l3 l4 l5 m), w6. split; [reflexivity|].
  simpl. by rewrite <- !app_assoc.
Qed.

Lemma evaluate_run filename x_test y_test s accuracy s' :
  evaluate_tflite_model filename x_test y_test s = Done accuracy s' ->
  exists e w,
    accuracy = ev_accuracy e /\
    measures x_test y_test e /\
    s' = State (heap s) w (trace s ++ evaluate_log filename x_test e).
Proof.
  unfold evaluate_tflite_model. intros H.
  apply bind_Done in H as (i & s1 & H1 & H). apply call_Done in H1 as (w1 & _ & ->).
  apply bind_Done in H as ([] & s2 & H2 & H). apply call_Done in H2 as (w2 & _ & ->).
  apply bind_Done in H as (ins & s3 & H3 & H). apply call_Done in H3 as (w3 & _ & ->).
  apply bind_Done in H as (input0 & s4 & H4 & H). apply getitem_Done in H4 as [Hin ->].
  apply bind_Done in H as (outs & s5 & H5 & H). apply call_Done in H5 as (w5 & _ & ->).
  apply bind_Done in H as (output0 & s6 & H6 & H). apply getitem_Done in H6 as [Hout ->].
  apply bind_Done in H as (preds & s7 & H7 & H).
  unfold enumerate in H7.
  apply inference_loop_Done in H7 as (runs & digits & Hl & HF & -> & w7 & ->);
    [|by rewrite length_map, length_seq].
  apply bind_Done in H as (matches & s8 & H8 & H). apply lift_Done in H8 as [Heq ->].
  apply ret_Done in H as [-> ->].
  exists (Evaluation i ins outs (details_index input0) (details_index output0) runs
            (np_mean matches)), w7.
  split; [reflexivity|]. split; [split; [done | by exists digits, matches]|].
  unfold evaluate_log, inference_log. simpl. by rewrite <- !app_assoc.
Qed.

Lemma convert_run model filename quantize s r s' :
  convert_tflite model filename quantize s = Done r s' ->
  exists cv w,
    r = None /\
    s' = State (heap s) w (trace s ++ convert_log model filename quantize cv).
Proof.
  intros H. apply convert_tflite_Done in H as (-> & c & bytes & f & n & w & ->).
  by exists (Conversion c bytes f n), w.
Qed.

Lemma gzip_run file s size s' :
  get_gzipped_model_size file s = Done size s' ->
  exists gz w,
    size = gz_size gz /\
    s' = State (heap s) w (trace s ++ gzip_log file gz).
Proof.
  intros H. apply get_gzipped_model_size_Done in H as (fd & zf & z & w & ->).
  by exists (Gzipped fd zf z size), w.
Qed.

End Runs.

(** Symbolic execution of a run that returned, one statement at a time:
    the hypothesis [H : m s = Done a s'] is replaced by the state it
    leads to, with fresh names for the answers of the calls. *)
Ltac exec_atom H :=
  lazymatch type of H with
  | ret _ _ = Done _ _ => apply ret_Done in H as [? ?]; subst
  | call _ _ = Done _ _ => apply call_Done in H as (? & _ & ?); subst
  | getitem _ _ _ = Done _ _ => apply getitem_Done in H as [? ?]; subst
  | lift _ _ = Done _ _ => apply lift_Done in H as [? ?]; subst
  | new_dict _ = Done _ _ => apply new_dict_Done in H as [? ?]; subst
  | dict_setitem _ _ _ _ = Done _ _ =>
      let Hd := fresh "Hd" in
      apply dict_setitem_Done in H as (? & Hd & ?);
      cbn in Hd; injection Hd as <-; subst
  | print_metric _ _ _ = Done _ _ =>
      let Hd := fresh "Hd" in
      apply print_metric_run in H as (? & ? & Hd & ?);
      cbn in Hd; injection Hd as <-; subst
  | model_builder _ = Done _ _ =>
      apply model_builder_run in H as (? & ? & ? & ?); subst
  | evaluate_tflite_model _ _ _ _ = Done _ _ =>
      apply evaluate_run in H as (? & ? & ? & ? & ?); subst
  | convert_tflite _ _ _ _ = Done _ _ =>
      apply convert_run in H as (? & ? & ? & ?); subst
  | get_gzipped_model_size _ _ = Done _ _ =>
      apply gzip_run in H as (? & ? & ? & ?); subst
  end.

Ltac head_of t :=
  lazymatch t with
  | ?f _ => head_of f
  | _ => t
  end.

Ltac exec H :=
  cbn [heap world trace MODEL_SIZE ACCURACY train_images train_labels test_images
       test_labels set_MODEL_SIZE set_ACCURACY fst snd length app] in H;
  lazymatch type of H with
  | bind _ _ _ = Done _ _ =>
      let H1 := fresh "H" in
      apply bind_Done in H as (? & ? & H1 & H);
      exec H1; exec H
  | (match ?x with pair _ _ => _ end) _ = Done _ _ =>
      destruct x as [? ?]; exec H
  | ?m _ = Done _ _ =>
      first [ exec_atom H
            | let h := head_of m in unfold h in H; exec H ]
  | _ => idtac
  end.

Ltac finish_run :=
  repeat match goal with x : () |- _ => destruct x end;
  cbn [heap world trace];
  rewrite <- ?app_assoc; cbn [app];
  repeat split; try reflexivity.

Section Stages.
Context `{RT : Runtime}.

Lemma stage_setup_run w g s' :
  stage_setup (init w) = Done g s' ->
  exists data w',
    g = setup_globals data /\
    s' = State [[]; []] w' (setup_log data).
Proof.
  intros H. unfold stage_setup, init in H. exec H.
  eexists (_, _, (_, _)), _. finish_run.
Qed.

Lemma stage_baseline_run data w t baseline_model s' :
  stage_baseline (setup_globals data) (State [[]; []] w t) = Done baseline_model s' ->
  exists a w',
    baseline_model = b_model (ba_built a) /\
    s' = State [baseline_sizes a; baseline_accuracies a] w'
           (t ++ baseline_log (setup_globals data) a).
Proof.
  intros H. unfold stage_baseline, setup_globals in H. exec H.
  eexists (BaselineAnswers _ _ _ _ _ _ _), _. unfold baseline_log. finish_run.
Qed.

Lemma stage_ptq_run data a w t u s' :
  stage_ptq (setup_globals data) (b_model (ba_built a))
    (State [baseline_sizes a; baseline_accuracies a] w t) = Done u s' ->
  exists p w',
    s' = State [ptq_sizes a p; ptq_accuracies a p] w'
           (t ++ ptq_log (setup_globals data) a p).
Proof.
  intros H. unfold stage_ptq, setup_globals in H. exec H.
  eexists (PtqAnswers _ _ _), _. unfold ptq_log. finish_run.
Qed.

Lemma stage_qat_run data (sizes accs : dict) w t g s' :
  stage_qat (setup_globals data) (State [sizes; accs] w t) = Done g s' ->
  exists q w',
    g = set_ACCURACY 2%nat (setup_globals data) /\
    s' = State [sizes; accs; qat_accuracies q] w'
           (t ++ qat_log (setup_globals data) q).
Proof.
  intros H. unfold stage_qat, setup_globals in H. exec H.
  eexists (QatAnswers _ _ _ _ _ _), _. unfold qat_log. finish_run.
Qed.

Lemma stage_pruning_run data baseline_model (sizes accs accs' : dict) w t res s' :
  stage_pruning (set_ACCURACY 2%nat (setup_globals data)) baseline_model
    (State [sizes; accs; accs'] w t) = Done res s' ->
  exists r w',
    res = (set_ACCURACY 5%nat (set_MODEL_SIZE 4%nat (setup_globals data)), None) /\
    ra_weights1 r !! 1%nat = Some (ra_shown1 r) /\
    ra_weights2 r !! 1%nat = Some (ra_shown2 r) /\
    ra_weights3 r !! 0%nat = Some (ra_shown3 r) /\
    s' = State [sizes; accs; accs'; pruning_sizes r; pruning_final_sizes r;
                pruning_accuracies r] w'
           (t ++ pruning_log (setup_globals data) baseline_model r).
Proof.
  intros H. unfold stage_pruning, setup_globals in H. exec H.
  eexists (PruningAnswers _ _ _ _ _ _ _ _ _ _ _ _ _ _ _ _ _ _ _), _.
  unfold pruning_log. finish_run; eassumption.
Qed.

Lemma workflow_run w res s' :
  workflow (init w) = Done res s' ->
  exists data a p q r w',
    res = (set_ACCURACY 5%nat (set_MODEL_SIZE 4%nat (setup_globals data)), None) /\
    s' = State (workflow_heap a p q r) w'
           (workflow_log data a p q r).
Proof.
  unfold workflow. intros H.
  apply bind_Done in H as (g0 & s0 & H0 & H).
  apply stage_setup_run in H0 as (data & w0 & -> & ->).
  apply bind_Done in H as (bm & s1 & H1 & H).
  apply stage_baseline_run in H1 as (a & w1 & -> & ->).
  apply bind_Done in H as (u & s2 & H2 & H).
  apply stage_ptq_run in H2 as (p & w2 & ->).
  apply bind_Done in H as (g3 & s3 & H3 & H).
  apply stage_qat_run in H3 as (q & w3 & -> & ->).
  apply stage_pruning_run in H as (r & w' & -> & _ & _ & _ & ->).
  exists data, a, p, q, r, w'. split; [reflexivity|].
  unfold workflow_log. by rewrite <- !app_assoc.
Qed.

End Stages.

(** ** Artifacts *)

Section Artifacts.
Context `{RT : Runtime}.


Lemma temporary_files_app t1 t2 :
  temporary_files (t1 ++ t2) = temporary_files t1 ++ temporary_files t2.
Proof. apply bind_app. Qed.


Lemma temporary_files_print name items :
  temporary_files (print_metric_log name items) = [].
Proof. induction items as [|item items IH]; [reflexivity | exact IH]. Qed.


Lemma temporary_files_inference x_test e : temporary_files (inference_log x_test e) = [].
Proof.
  unfold inference_log. generalize (ev_runs e) as runs.
  induction x_test as [|image x_test IH]; intros [|run runs]; try reflexivity.
  cbn [zip_with concat]. rewrite temporary_files_app. apply IH.
Qed.


Lemma temporary_files_evaluate filename x_test e :
  temporary_files (evaluate_log filename x_test e) = [].
Proof.
  unfold evaluate_log. rewrite temporary_files_app. apply temporary_files_inference.
Qed.


Lemma temporary_files_convert model filename quantize cv :
  temporary_files (convert_log model filename quantize cv) = [].
Proof. destruct quantize; reflexivity. Qed.


Lemma temporary_files_workflow data a p q r :
  temporary_files (workflow_log data a p q r) =
  [ gz_path (ra_gzip_baseline r); gz_path (ra_gzip_pruned r);
    gz_path (ra_gzip_tflite r) ].
Proof.
  unfold workflow_log, baseline_log, ptq_log, qat_log, pruning_log.
  rewrite !temporary_files_app, !temporary_files_print, !temporary_files_evaluate,
    !temporary_files_convert.
  reflexivity.
Qed.








End Artifacts.

(** ** Order of the calls *)

Section Order.
Context `{RT : Runtime}.

Lemma guarded_sound_gen P Q seen t :
  guarded P Q seen t = true ->
  forall t1 x t2, t = t1 ++ x :: t2 -> Q x = true ->
    seen = true \/ exists y, y ∈ t1 /\ P y = true.
Proof.
  revert seen. induction t as [|z t IH]; intros seen Hg t1 x t2 Heq HQ.
  - by destruct t1.
  - simpl in Hg. apply andb_true_iff in Hg as [Hz Hg].
    destruct t1 as [|z' t1]; simpl in Heq; injection Heq as -> ->.
    + rewrite HQ in Hz. simpl in Hz. by left.
    + destruct (IH _ Hg _ _ _ eq_refl HQ) as [Hs|(y & Hy & HP)].
      * apply orb_true_iff in Hs as [Hs|Hs]; [by left|].
        right. exists z'. split; [left | done].
      * right. exists y. split; [by right | done].
Qed.

Lemma guarded_sound P Q t : guarded P Q false t = true -> preceded_by P Q t.
Proof.
  intros Hg t1 x t2 Heq HQ.
  destruct (guarded_sound_gen _ _ _ _ Hg _ _ _ Heq HQ) as [?|?]; [discriminate | done].
Qed.

Lemma guarded_seen P Q t : guarded P Q true t = true.
Proof. induction t as [|x t IH]; [reflexivity|]. simpl. by rewrite orb_true_r. Qed.

Lemma guarded_inference P Q seen x_test e rest :
  quiet P -> quiet Q ->
  guarded P Q seen (inference_log x_test e ++ rest) = guarded P Q seen rest.
Proof.
  intros HP HQ. unfold inference_log. generalize (ev_runs e) as runs.
  induction x_test as [|image x_test IH]; intros [|run runs]; try reflexivity.
  cbn [zip_with concat]. rewrite <- app_assoc.
  set (i := ev_interpreter e). set (a := ev_input_index e). set (b := ev_output_index e).
  assert (Hstep : forall seg tail,
    (forall x, x ∈ seg -> P x = false /\ Q x = false) ->
    guarded P Q seen (seg ++ tail) = guarded P Q seen tail).
  { clear. intros seg tail. revert seen. induction seg as [|x seg IHs]; intros seen H.
    - reflexivity.
    - simpl. destruct (H x) as [-> ->]; [left|]. simpl. rewrite orb_false_r.
      apply IHs. intros y Hy. apply H. by right. }
  rewrite Hstep; [apply IH|].
  intros x Hx. split; [eapply HP | eapply HQ]; exact Hx.
Qed.

Ltac quiet_tac :=
  let x := fresh "x" in
  let H := fresh "H" in
  intros ? ? ? ? ? x H; unfold inference_round in H;
  repeat (apply elem_of_cons in H as [->|H]; [reflexivity|]);
  by apply elem_of_nil in H.

Lemma quiet_is_load_data : quiet is_load_data. Proof. quiet_tac. Qed.
Lemma quiet_is_fit : quiet is_fit. Proof. quiet_tac. Qed.
Lemma quiet_is_conversion : quiet is_conversion. Proof. quiet_tac. Qed.
Lemma quiet_fits m : quiet (fits m). Proof. quiet_tac. Qed.
Lemma quiet_evaluates m : quiet (evaluates m). Proof. quiet_tac. Qed.
Lemma quiet_converts m : quiet (converts m). Proof. quiet_tac. Qed.
Lemma quiet_strips m : quiet (strips m). Proof. quiet_tac. Qed.
Lemma quiet_readies m : quiet (readies m). Proof. quiet_tac. Qed.

Ltac unfold_logs :=
  cbv beta zeta delta [workflow_log setup_log baseline_log ptq_log qat_log pruning_log
    model_builder_log convert_log gzip_log evaluate_log print_metric_log
    baseline_sizes baseline_accuracies ptq_sizes ptq_accuracies qat_accuracies
    pruning_sizes pruning_gzipped_sizes pruning_final_sizes pruning_accuracies];
  rewrite <- ?app_assoc.

Ltac walk_guarded :=
  repeat (progress
    (cbn [app map guarded is_load_data is_fit is_conversion fits evaluates
          converts strips readies negb orb andb];
     rewrite ?orb_false_r, ?Nat.eqb_refl;
     rewrite ?guarded_inference
       by first [ apply quiet_is_load_data | apply quiet_is_fit
                | apply quiet_is_conversion | apply quiet_fits
                | apply quiet_evaluates | apply quiet_converts
                | apply quiet_strips | apply quiet_readies ]));
  repeat match goal with
         | |- context [Nat.eqb ?a ?b] => destruct (Nat.eqb a b)
         end;
  try reflexivity.

Lemma loaded_before_fit data a p q r :
  preceded_by is_load_data is_fit (workflow_log data a p q r).
Proof. apply guarded_sound. unfold_logs. walk_guarded. Qed.

Lemma baseline_fit_before_conversion data a p q r :
  preceded_by (fits (b_model (ba_built a))) is_conversion (workflow_log data a p q r).
Proof. apply guarded_sound. unfold_logs. walk_guarded. Qed.

Lemma trained_before_converted data a p q r m :
  preceded_by (readies m) (converts m) (workflow_log data a p q r).
Proof. apply guarded_sound. unfold_logs. walk_guarded. Qed.

Lemma fit_before_strip data a p q r m :
  preceded_by (fits m) (strips m) (workflow_log data a p q r).
Proof. apply guarded_sound. unfold_logs. walk_guarded. Qed.

Lemma fit_before_evaluate data a p q r m :
  preceded_by (fits m) (evaluates m) (workflow_log data a p q r).
Proof. apply guarded_sound. unfold_logs. walk_guarded. Qed.

Lemma reads_follow_sound_gen written t :
  reads_follow written t ->
  forall t1 x t2 p, t = t1 ++ x :: t2 -> p ∈ read_by x ->
    p ∈ written ++ files_written t1.
Proof.
  revert written. induction t as [|z t IH]; intros written Hr t1 x t2 p Heq Hp.
  - by destruct t1.
  - destruct Hr as [Hz Hr].
    destruct t1 as [|z' t1]; simpl in Heq; injection Heq as -> ->.
    + rewrite app_nil_r. by apply Hz.
    + specialize (IH _ Hr _ _ _ _ eq_refl Hp).
      change (files_written (z' :: t1)) with (written_by z' ++ files_written t1).
      by rewrite app_assoc.
Qed.

Lemma reads_follow_sound t : reads_follow [] t -> written_before_read t.
Proof. intros Hr t1 x t2 p Heq Hp. apply (reads_follow_sound_gen _ _ Hr _ _ _ _ Heq Hp). Qed.

Lemma reads_follow_inference written x_test e rest :
  reads_follow written (inference_log x_test e ++ rest) <-> reads_follow written rest.
Proof.
  unfold inference_log. generalize (ev_runs e) as runs.
  induction x_test as [|image x_test IH]; intros [|run runs]; try reflexivity.
  cbn [zip_with concat]. rewrite <- app_assoc. unfold inference_round at 1.
  cbn [app reads_follow read_by written_by]. rewrite !app_nil_r.
  rewrite IH. split; [intros (_ & _ & _ & _ & H); exact H|].
  intros H. repeat split; try exact H; intros p Hp; by apply elem_of_nil in Hp.
Qed.

Lemma files_written_before_read data a p q r :
  written_before_read (workflow_log data a p q r).
Proof.
  apply reads_follow_sound. unfold_logs.
  repeat (progress (cbn [app map reads_follow read_by written_by snd];
                    rewrite ?reads_follow_inference)).
  repeat split; intros x Hx; apply list_elem_of_In in Hx; simpl in Hx;
    try contradiction;
    destruct Hx as [<-|[]]; apply list_elem_of_In; simpl; tauto.
Qed.

Lemma omap_technique_inference x_test e :
  omap technique_of (inference_log x_test e) = [].
Proof.
  unfold inference_log. generalize (ev_runs e) as runs.
  induction x_test as [|image x_test IH]; intros [|run runs]; try reflexivity.
  cbn [zip_with concat]. rewrite omap_app. rewrite IH. reflexivity.
Qed.

Lemma techniques_in_sequence data a p q r :
  omap technique_of (workflow_log data a p q r) =
  replicate 2 PostTrainingQuantization ++ replicate 3 QuantizationAwareTraining ++
  replicate 7 WeightPruning.
Proof.
  cbv beta zeta delta [workflow_log baseline_log ptq_log qat_log pruning_log
    evaluate_log].
  rewrite !omap_app, !omap_technique_inference. reflexivity.
Qed.

(** C6 (amended): the calls of a completed run come in one sequence,
    stage after stage: the log is the log of the set-up, followed by the
    whole log of the baseline stage, then that of post-training
    quantization, then that of quantization-aware training, then that of
    pruning, every call of the run in exactly one of the five and none
    of one stage among those of another.  The dataset is loaded before
    any model is trained; the baseline model is trained before any
    conversion; every model of which a converter is made was trained
    before, or was made before by stripping a model that was trained
    before; every file is written (saved or converted) before a call
    reads it to take its size, to zip it or to load it into an
    interpreter; the accuracy of a Keras model kept in memory is measured
    after that model was trained; and the calls that belong to
    post-training quantization all come before those of
    quantization-aware training, which all come before those of
    pruning. *)
Theorem calls_in_fixed_order w res s' :
  workflow (init w) = Done res s' ->
  exists data a p q r,
    trace s' =
      setup_log data ++
      baseline_log (setup_globals data) a ++
      ptq_log (setup_globals data) a p ++
      qat_log (setup_globals data) q ++
      pruning_log (setup_globals data) (b_model (ba_built a)) r /\
    preceded_by is_load_data is_fit (trace s') /\
    preceded_by (fits (b_model (ba_built a))) is_conversion (trace s') /\
    (forall m, preceded_by (readies m) (converts m) (trace s')) /\
    (forall m, preceded_by (fits m) (strips m) (trace s')) /\
    written_before_read (trace s') /\
    (forall m, preceded_by (fits m) (evaluates m) (trace s')) /\
    omap technique_of (trace s') =
      replicate 2 PostTrainingQuantization ++
      replicate 3 QuantizationAwareTraining ++
      replicate 7 WeightPruning.
Proof.
  intros H. apply workflow_run in H as (data & a & p & q & r & w' & _ & ->).
  exists data, a, p, q, r. cbn [trace]. split; [reflexivity|].
  split; [apply loaded_before_fit|].
  split; [apply baseline_fit_before_conversion|].
  split; [intros m; apply trained_before_converted|].
  split; [intros m; apply fit_before_strip|].
  split; [apply files_written_before_read|].
  split; [intros m; apply fit_before_evaluate|].
  apply techniques_in_sequence.
Qed.

End Order.

(** ** The metric tables *)

Section TablesFacts.
Context `{RT : Runtime}.

Lemma log_since_app h w t h' w' t' :
  log_since (State h w t) (State h' w' (t ++ t')) = t'.
Proof. unfold log_since. cbn [trace]. by rewrite drop_app_length. Qed.






End TablesFacts.

(** ** convert_tflite *)

Section Convert.
Context `{RT : Runtime}.

Lemma convert_tflite_optimizations model filename quantize s :
  exists new,
    trace (final (convert_tflite model filename quantize s)) = trace s ++ new /\
    existsb sets_optimizations new = first_call_returned new && quantize.
Proof.
  unfold convert_tflite, bind, with_, call, ret.
  destruct (handle _ (FromKerasModel model) (world s)) as [[ex|c] w1]; cbn [heap world trace].
  { eexists. split; [reflexivity|]. reflexivity. }
  destruct quantize; cbn [heap world trace].
  - destruct (handle _ (SetOptimizations c [OptimizeDefault]) w1) as [[ex|[]] w2];
      cbn [heap world trace].
    { eexists. split; [by rewrite <- !app_assoc|]. reflexivity. }
    destruct (handle _ (Convert c) w2) as [[ex|bytes] w3]; cbn [heap world trace].
    { eexists. split; [by rewrite <- !app_assoc|]. reflexivity. }
    destruct (handle _ (Open filename "wb") w3) as [[ex|f] w4]; cbn [heap world trace].
    { eexists. split; [by rewrite <- !app_assoc|]. reflexivity. }
    destruct (handle _ (FileWrite f bytes) w4) as [[ex|n] w5]; cbn [heap world trace];
      destruct (handle _ (FileClose f) w5) as [[ex'|[]] w6]; cbn [heap world trace final];
      (eexists; split; [by rewrite <- !app_assoc|]; reflexivity).
  - destruct (handle _ (Convert c) w1) as [[ex|bytes] w3]; cbn [heap world trace].
    { eexists. split; [by rewrite <- !app_assoc|]. reflexivity. }
    destruct (handle _ (Open filename "wb") w3) as [[ex|f] w4]; cbn [heap world trace].
    { eexists. split; [by rewrite <- !app_assoc|]. reflexivity. }
    destruct (handle _ (FileWrite f bytes) w4) as [[ex|n] w5]; cbn [heap world trace];
      destruct (handle _ (FileClose f) w5) as [[ex'|[]] w6]; cbn [heap world trace final];
      (eexists; split; [by rewrite <- !app_assoc|]; reflexivity).
Qed.

Lemma stage_pruning_binds_None g baseline_model s res s' :
  stage_pruning g baseline_model s = Done res s' -> res.2 = None.
Proof.
  unfold stage_pruning. intros H.
  do 10 (apply bind_Done in H as (? & ? & ? & H)).
  apply ret_Done in H as [-> _]. cbn [snd].
  match goal with
  | Hc : cell_35 _ _ _ = Done ?r _ |- ?r = None =>
      unfold cell_35 in Hc;
      apply bind_Done in Hc as (r0 & ? & Hconv & Hc);
      apply convert_tflite_Done in Hconv as [-> _];
      do 3 (apply bind_Done in Hc as (? & ? & _ & Hc));
      by apply ret_Done in Hc as [-> _]
  end.
Qed.

(** C8: whenever convert_tflite returns, it returns None: the
    converted model is written to the file of the given name (the bytes
    the converter returned are the bytes written) and is not part of the
    result.  In every run, also one that raises, the call that sets
    converter.optimizations is made exactly when the converter was
    created and the quantize flag is True.  And the variable
    pruned_quantized_tflite, assigned the result of convert_tflite in the
    pruning stage, is bound to None at the end of a run of the notebook. *)
Theorem convert_tflite_returns_None :
  (forall model filename quantize s r s',
     convert_tflite model filename quantize s = Done r s' ->
     r = None /\ heap s' = heap s /\
     exists c tflite_model f n new,
       trace s' = trace s ++ new /\
       new = [Entry (FromKerasModel model) (inr c)] ++
             (if quantize
              then [Entry (SetOptimizations c [OptimizeDefault]) (inr ())]
              else []) ++
             [ Entry (Convert c) (inr tflite_model);
               Entry (Open filename "wb") (inr f);
               Entry (FileWrite f tflite_model) (inr n);
               Entry (FileClose f) (inr ()) ] /\
       existsb sets_optimizations new = quantize) /\
  (forall model filename quantize s,
     exists new,
       trace (final (convert_tflite model filename quantize s)) = trace s ++ new /\
       existsb sets_optimizations new = first_call_returned new && quantize) /\
  (forall w res s', workflow (init w) = Done res s' -> res.2 = None).
Proof.
  split; [|split].
  - intros model filename quantize s r s' H.
    apply convert_tflite_Done in H as (-> & c & bytes & f & n & w & ->).
    split; [reflexivity|]. split; [reflexivity|].
    exists c, bytes, f, n. eexists. split; [reflexivity|]. split; [reflexivity|].
    by destruct quantize.
  - apply convert_tflite_optimizations.
  - intros w res s' H. unfold workflow in H.
    do 4 (apply bind_Done in H as (? & ? & _ & H)).
    by apply stage_pruning_binds_None in H.
Qed.

End Convert.

(** ** The notebook on the small runtime *)

(** A run is known by what it returns and the state it ends in. *)
Lemma Done_intro `{RT : Runtime} {A} (o : outcome A) a h w t :
  returned o = Some a -> heap (final o) = h -> world (final o) = w ->
  trace (final o) = t -> o = Done a (State h w t).
Proof.
  destruct o as [a' [h' w' t']|]; [|discriminate]. simpl.
  intros [= ->] -> -> ->. reflexivity.
Qed.

(** Evaluates a run on the small runtime and records the state it ends in. *)
Ltac compute_run m H :=
  let r := eval vm_compute in (returned m) in
  let h := eval vm_compute in (heap (final m)) in
  let w := eval vm_compute in (world (final m)) in
  let t := eval vm_compute in (trace (final m)) in
  lazymatch r with
  | Some ?a =>
      assert (H : m = Done a (@State Toy.runtime h w t))
        by (apply Done_intro; vm_compute; reflexivity)
  end.

(** Witness of C4: the toy dataset, normalized. *)
Lemma normalized_images_in_unit_interval_witness :
  exists g s',
    @cell_4 Toy.runtime (0%nat, 1%nat) (toy_init []) = Done g s' /\
    pixels_in_unit_interval (train_images g) /\
    pixels_in_unit_interval (test_images g).
Proof.
  compute_run (@cell_4 Toy.runtime (0%nat, 1%nat) (toy_init [])) H.
  eexists _, _. split; [exact H|].
  exact (normalized_images_in_unit_interval (RT := Toy.runtime) _ _ _ _ H).
Defined.

(** Witness of C10: a dictionary of two entries, printed. *)
Lemma print_metric_prints_items_and_keeps_dict_witness :
  let items := [(VStr "baseline h5", VInt 98968); (VStr "tflite", VFloat 0.5%float)] in
  let s := @State Toy.runtime [items] (Toy.world0 []) [] in
  heap s !! 0%nat = Some items /\
  heap (final (@print_metric Toy.runtime 0%nat "size" s)) = heap s /\
  exists s', @print_metric Toy.runtime 0%nat "size" s = Done () s' /\
    trace s' = [ Entry (Print "size for baseline h5: 98968") (inr ());
                 Entry (Print "size for tflite: 4503599627370496p-53") (inr ()) ].
Proof.
  intros items s.
  destruct (print_metric_prints_items_and_keeps_dict (RT := Toy.runtime)
              s 0%nat items "size" eq_refl) as (Hheap & Hdone & _).
  split; [reflexivity|]. split; [exact Hheap|].
  compute_run (@print_metric Toy.runtime 0%nat "size" s) H.
  eexists. split; [exact H|]. rewrite (Hdone _ _ H). vm_compute. reflexivity.
Defined.

(** Witness of C9: zipping a file that exists. *)
Lemma get_gzipped_model_size_zips_one_file_witness :
  let s := @init Toy.runtime (Toy.write_file "model.h5" 98968 (Toy.world0 [])) in
  exists size s' zipped_file,
    @get_gzipped_model_size Toy.runtime "model.h5" s = Done size s' /\
    files_written (trace s') = [zipped_file; zipped_file] /\
    zipped_file <> "model.h5".
Proof.
  intros s.
  compute_run (@get_gzipped_model_size Toy.runtime "model.h5" s) H.
  destruct (get_gzipped_model_size_zips_one_file (RT := Toy.runtime) _ _ _ _ H)
    as (fd & zipped_file & z & new & Hnew & Htrace & _ & Hw & _ & _).
  eexists _, _, zipped_file. split; [exact H|].
  rewrite Htrace. split; [exact Hw|].
  rewrite Hnew in Htrace. vm_compute in Htrace.
  apply (f_equal temporary_files) in Htrace. vm_compute in Htrace.
  injection Htrace as <-. discriminate.
Defined.

(** Witness of C1: three test images through the toy interpreter. *)
Lemma evaluate_tflite_model_accuracy_witness :
  let s := @init Toy.runtime (Toy.write_file "model.tflite" 11 (Toy.world0 [])) in
  exists accuracy s' digits,
    @evaluate_tflite_model Toy.runtime "model.tflite" toy_test_images toy_test_labels s
      = Done accuracy s' /\
    length toy_test_images = length toy_test_labels /\
    length digits = 3%nat /\
    accuracy = (float_of_Z (Z.of_nat (correct digits toy_test_labels)) / 3)%float.
Proof.
  intros s.
  compute_run (@evaluate_tflite_model Toy.runtime "model.tflite" toy_test_images
                 toy_test_labels s) H.
  destruct (evaluate_tflite_model_accuracy (RT := Toy.runtime) _ _ _ _ _ _ H eq_refl)
    as (i & in0 & ins & out0 & outs & runs & digits & _ & Hl & HF & Hacc & _).
  eexists _, _, digits. split; [exact H|]. split; [reflexivity|].
  split; [by rewrite <- (Forall2_length _ _ _ HF), Hl|]. exact Hacc.
Defined.


(** Replaces a closed term by its value. *)
Ltac compute_value t E :=
  let v := eval vm_compute in t in
  assert (E : t = v) by (vm_compute; reflexivity).


(** Witness of C6, on the same run. *)
Lemma calls_in_fixed_order_witness :
  exists res (s' : @state Toy.runtime) data a p q r,
    workflow (toy_init []) = Done res s' /\
    trace s' =
      setup_log data ++
      baseline_log (RT := Toy.runtime) (setup_globals data) a ++
      ptq_log (RT := Toy.runtime) (setup_globals data) a p ++
      qat_log (RT := Toy.runtime) (setup_globals data) q ++
      pruning_log (RT := Toy.runtime) (setup_globals data) (b_model (ba_built a)) r /\
    preceded_by is_load_data is_fit (trace s') /\
    preceded_by (fits (b_model (ba_built a))) is_conversion (trace s') /\
    written_before_read (trace s').
Proof.
  compute_run (@workflow Toy.runtime (toy_init [])) H.
  destruct (calls_in_fixed_order (RT := Toy.runtime) _ _ _ H)
    as (data & a & p & q & r & Ht & H1 & H2 & _ & _ & H3 & _).
  eexists _, _, data, a, p, q, r. split; [exact H|].
  split; [exact Ht|]. split; [exact H1|]. split; [exact H2 | exact H3].
Defined.

(** C6 as stated fails on that run: the quantization-aware model (handle
    27) is evaluated by call number 91 of the log, before it is converted
    (call number 93), and it is never saved. *)
Lemma order_counterexample : ~ calls_in_claimed_order toy_log.
Proof.
  intros (_ & _ & _ & Hexp). specialize (Hexp 27%nat).
  assert (Hsplit : toy_log = take 91 toy_log ++ drop 91 toy_log)
    by (symmetry; apply take_drop).
  compute_value (drop 91 toy_log) Ed. rewrite Ed in Hsplit. clear Ed.
  compute_value (forallb (fun y => negb (exports 27%nat y)) (take 91 toy_log)) En.
  destruct (Hexp _ _ _ Hsplit eq_refl) as (y & Hy & HP).
  rewrite forallb_forall in En. apply list_elem_of_In in Hy.
  apply En in Hy. rewrite HP in Hy. discriminate.
Qed.



(** Witness of C8: a quantizing conversion on the small runtime. *)
Lemma convert_tflite_returns_None_witness :
  exists r s',
    @convert_tflite Toy.runtime 6%nat "model.tflite" true (toy_init []) = Done r s' /\
    r = None /\
    existsb sets_optimizations (trace s') = true.
Proof.
  compute_run (@convert_tflite Toy.runtime 6%nat "model.tflite" true (toy_init [])) H.
  destruct (convert_tflite_returns_None (RT := Toy.runtime)) as (Hret & _ & _).
  destruct (Hret _ _ _ _ _ _ H) as (Hnone & _ & _).
  eexists _, _. split; [exact H|]. split; [exact Hnone|]. vm_compute. reflexivity.
Defined.

(** ** The utilities, however they end *)

Section SafetyFacts.
Context `{RT : Runtime}.

Lemma bind_Raised {A B} (m : M A) (k : A -> M B) s ex s' :
  bind m k s = Raised ex s' ->
  m s = Raised ex s' \/ exists a s1, m s = Done a s1 /\ k a s1 = Raised ex s'.
Proof.
  unfold bind. destruct (m s) as [a s1|e s1]; [right; eauto | intros [= -> ->]; by left].
Qed.

Lemma keeps_heap_ret {A} (a : A) : keeps_heap (ret a).
Proof. intros s. reflexivity. Qed.

Lemma keeps_heap_lift {A} (r : exn + A) : keeps_heap (lift r).
Proof. intros s. by destruct r. Qed.

Lemma keeps_heap_getitem {A} (xs : list A) i : keeps_heap (getitem xs i).
Proof. intros s. unfold getitem. by destruct (xs !! i). Qed.

Lemma keeps_heap_call {X} (e : Event X) : keeps_heap (call e).
Proof. intros s. apply call_heap. Qed.

Lemma keeps_heap_bind {A B} (m : M A) (k : A -> M B) :
  keeps_heap m -> (forall a, keeps_heap (k a)) -> keeps_heap (bind m k).
Proof.
  intros Hm Hk s. specialize (Hm s). unfold bind.
  destruct (m s) as [a s1|ex s1]; simpl in *; [|done]. by rewrite Hk.
Qed.

Lemma keeps_heap_for_each {A B} (xs : list A) (body : A -> B -> M B) acc :
  (forall x acc, keeps_heap (body x acc)) -> keeps_heap (for_each xs body acc).
Proof.
  intros Hb. revert acc. induction xs as [|x xs IH]; intros acc; simpl.
  - apply keeps_heap_ret.
  - apply keeps_heap_bind; [apply Hb | apply IH].
Qed.

Lemma keeps_heap_with {R A} (enter : M R) (exit : R -> M unit) (body : R -> M A) :
  keeps_heap enter -> (forall r, keeps_heap (exit r)) -> (forall r, keeps_heap (body r)) ->
  keeps_heap (with_ enter exit body).
Proof.
  intros He Hx Hb s. specialize (He s). unfold with_.
  destruct (enter s) as [r s1|ex s1]; simpl in *; [|done].
  specialize (Hb r s1). destruct (body r s1) as [a s2|ex s2]; simpl in *;
    specialize (Hx r s2); destruct (exit r s2) as [u s3|ex' s3]; simpl in *; congruence.
Qed.

Ltac keeps_heap_tac :=
  repeat first
    [ apply keeps_heap_ret | apply keeps_heap_call | apply keeps_heap_getitem
    | apply keeps_heap_lift
    | apply keeps_heap_with; [| intros ? | intros ?]
    | apply keeps_heap_for_each; intros [? ?] ?
    | apply keeps_heap_bind; [|intros ?]
    | match goal with |- keeps_heap (let '(_, _) := ?p in _) => destruct p end
    | match goal with |- keeps_heap (if ?b then _ else _) => destruct b end ].

Lemma keeps_heap_model_builder : keeps_heap model_builder.
Proof. unfold model_builder. keeps_heap_tac. Qed.

Lemma keeps_heap_evaluate_tflite_model filename x_test y_test :
  keeps_heap (evaluate_tflite_model filename x_test y_test).
Proof. unfold evaluate_tflite_model, evaluate_step. keeps_heap_tac. Qed.

Lemma keeps_heap_convert_tflite model filename quantize :
  keeps_heap (convert_tflite model filename quantize).
Proof. unfold convert_tflite. keeps_heap_tac. Qed.

Lemma keeps_heap_get_gzipped_model_size file :
  keeps_heap (get_gzipped_model_size file).
Proof. unfold get_gzipped_model_size. keeps_heap_tac. Qed.

Lemma keeps_heap_dict_items d : keeps_heap (dict_items d).
Proof. intros s. unfold dict_items. by destruct (heap s !! d). Qed.

Lemma keeps_heap_print_metric d name : keeps_heap (print_metric d name).
Proof.
  unfold print_metric. apply keeps_heap_bind; [apply keeps_heap_dict_items|].
  intros items. apply keeps_heap_for_each. intros [k v] []. apply keeps_heap_call.
Qed.

(** X1: The functions that build, convert, measure and evaluate a model
    never touch a dictionary: the heap they leave is the heap they
    found, also when they raise. *)
Theorem utilities_keep_the_dictionaries :
  keeps_heap model_builder /\
  (forall filename x_test y_test,
     keeps_heap (evaluate_tflite_model filename x_test y_test)) /\
  (forall model filename quantize, keeps_heap (convert_tflite model filename quantize)) /\
  (forall file, keeps_heap (get_gzipped_model_size file)).
Proof.
  split; [exact keeps_heap_model_builder|].
  split; [exact keeps_heap_evaluate_tflite_model|].
  split; [exact keeps_heap_convert_tflite|].
  exact keeps_heap_get_gzipped_model_size.
Qed.

(** *** Files, archives and descriptors *)

Lemma bind_nil {A B} (f : A -> list B) : [] ≫= f = [].
Proof. reflexivity. Qed.

Lemma closes_pure {A} (m : M A) :
  (forall s, trace (final (m s)) = trace s) -> closes_what_it_manages m.
Proof. intros H s. exists []. rewrite app_nil_r. split; [apply H | reflexivity]. Qed.

Lemma closes_ret {A} (a : A) : closes_what_it_manages (ret a).
Proof. by apply closes_pure. Qed.

Lemma closes_lift {A} (r : exn + A) : closes_what_it_manages (lift r).
Proof. apply closes_pure. intros s. by destruct r. Qed.

Lemma closes_getitem {A} (xs : list A) i : closes_what_it_manages (getitem xs i).
Proof. apply closes_pure. intros s. unfold getitem. by destruct (xs !! i). Qed.

Lemma closes_new_dict : closes_what_it_manages new_dict.
Proof. by apply closes_pure. Qed.

Lemma closes_dict_items d : closes_what_it_manages (dict_items d).
Proof. apply closes_pure. intros s. unfold dict_items. by destruct (heap s !! d). Qed.

Lemma closes_dict_setitem d k v : closes_what_it_manages (dict_setitem d k v).
Proof. apply closes_pure. intros s. unfold dict_setitem. by destruct (heap s !! d). Qed.

(** A call that closes nothing, and opens nothing but a descriptor. *)
Lemma closes_call {X} (e : Event X) :
  (forall r, closed_by (Entry e r) = [] /\
             List.filter managed (opened_by (Entry e r)) = []) ->
  closes_what_it_manages (call e).
Proof.
  intros He s. unfold call. destruct (handle X e (world s)) as [r w].
  exists [Entry e r]. destruct (He r) as [Hc Ho].
  split; [by destruct r|]. by rewrite !bind_cons, !bind_nil, !app_nil_r, Ho, Hc.
Qed.

Lemma closes_bind {A B} (m : M A) (k : A -> M B) :
  closes_what_it_manages m -> (forall a, closes_what_it_manages (k a)) ->
  closes_what_it_manages (bind m k).
Proof.
  intros Hm Hk s. destruct (Hm s) as (t1 & Ht1 & Hc1). unfold bind.
  destruct (m s) as [a s1|ex s1]; simpl in *; [|by exists t1].
  destruct (Hk a s1) as (t2 & Ht2 & Hc2). exists (t1 ++ t2).
  rewrite Ht2, Ht1, app_assoc. split; [reflexivity|].
  rewrite !bind_app, List.filter_app. by rewrite Hc1, Hc2.
Qed.

Lemma closes_for_each {A B} (xs : list A) (body : A -> B -> M B) acc :
  (forall x acc, closes_what_it_manages (body x acc)) ->
  closes_what_it_manages (for_each xs body acc).
Proof.
  intros Hb. revert acc. induction xs as [|x xs IH]; intros acc; simpl.
  - apply closes_ret.
  - apply closes_bind; [apply Hb | apply IH].
Qed.

(** [with] around one call: what the manager opened is closed, however
    the call and the close end, and is not closed when the opening
    raised. *)
Lemma closes_with {R A} (enter : Event R) (exit : R -> Event unit) (body : R -> Event A) :
  (forall r, closed_by (Entry enter r) = []) ->
  (forall r x, closed_by (Entry (exit r) x) =
                 List.filter managed (opened_by (Entry enter (inr r))) /\
               opened_by (Entry (exit r) x) = []) ->
  (forall r x, opened_by (Entry (body r) x) = [] /\ closed_by (Entry (body r) x) = []) ->
  closes_what_it_manages
    (with_ (call enter) (fun r => call (exit r)) (fun r => call (body r))).
Proof.
  intros He Hx Hb s. unfold with_, call.
  destruct (handle R enter (world s)) as [[ex|r] w1]; cbn [heap world trace].
  { exists [Entry enter (inl ex)]. split; [reflexivity|].
    by rewrite !bind_cons, !bind_nil, He. }
  destruct (handle A (body r) w1) as [[ex|a] w2]; cbn [heap world trace];
    destruct (handle () (exit r) w2) as [[ex'|[]] w3]; cbn [final trace];
    rewrite <- !app_assoc; cbn [app];
    (eexists; split; [reflexivity|]);
    rewrite !bind_cons, !bind_nil, He;
    match goal with
    | |- context [Entry (exit r) ?x] => destruct (Hx r x) as [-> ->]
    end;
    match goal with
    | |- context [Entry (body r) ?x] => destruct (Hb r x) as [-> ->]
    end;
    cbn [app]; by rewrite !app_nil_r.
Qed.

Lemma closes_convert_tflite model filename quantize :
  closes_what_it_manages (convert_tflite model filename quantize).
Proof.
  unfold convert_tflite.
  apply closes_bind; [apply closes_call; by intros [?|?] | intros c].
  apply closes_bind.
  { destruct quantize; [apply closes_call; by intros [?|?] | apply closes_ret]. }
  intros _. apply closes_bind; [apply closes_call; by intros [?|?] | intros bytes].
  apply closes_bind; [|intros; apply closes_ret].
  apply (closes_with (Open filename "wb") FileClose (fun f => FileWrite f bytes)).
  - by intros [?|?].
  - by intros f [?|?].
  - by intros f [?|?].
Qed.

Lemma closes_get_gzipped_model_size file :
  closes_what_it_manages (get_gzipped_model_size file).
Proof.
  unfold get_gzipped_model_size.
  apply closes_bind; [apply closes_call; by intros [?|?] | intros [fd zipped_file]].
  apply closes_bind; [|intros; apply closes_call; by intros [?|?]].
  apply (closes_with (ZipFile zipped_file "w" ZIP_DEFLATED) ZipClose
           (fun z => ZipWrite z file)).
  - by intros [?|?].
  - by intros f [?|?].
  - by intros f [?|?].
Qed.

Ltac closes_tac :=
  repeat first
    [ apply closes_ret | apply closes_getitem | apply closes_lift
    | apply closes_new_dict | apply closes_dict_items | apply closes_dict_setitem
    | apply closes_convert_tflite | apply closes_get_gzipped_model_size
    | apply closes_call; by intros [?|?]
    | apply closes_for_each; intros [? ?] ?
    | apply closes_bind; [|intros ?]
    | match goal with
      | |- closes_what_it_manages (let '(_, _) := ?p in _) => destruct p
      end ].

Lemma closes_print_metric d name : closes_what_it_manages (print_metric d name).
Proof. unfold print_metric. closes_tac. Qed.

Lemma closes_model_builder : closes_what_it_manages model_builder.
Proof. unfold model_builder. closes_tac. Qed.

Lemma closes_evaluate_tflite_model filename x_test y_test :
  closes_what_it_manages (evaluate_tflite_model filename x_test y_test).
Proof. unfold evaluate_tflite_model, evaluate_step. closes_tac. Qed.

Ltac unfold_cells :=
  unfold workflow, stage_setup, stage_baseline, stage_ptq, stage_qat, stage_pruning,
    cell_0, cell_2, cell_4, cell_12, cell_13, cell_14, cell_16, cell_17, cell_18,
    cell_20, cell_23, cell_24, cell_25, cell_27, cell_29, cell_31, cell_33, cell_34,
    cell_35, cell_36, preview_weights.

Lemma closes_workflow : closes_what_it_manages workflow.
Proof.
  unfold_cells.
  repeat first
    [ apply closes_print_metric | apply closes_model_builder
    | apply closes_evaluate_tflite_model | progress closes_tac ].
Qed.

Ltac closes_leaf :=
  cbn [heap world trace final]; rewrite <- ?app_assoc; cbn [app];
  eexists; split; reflexivity.

(** convert_tflite gets no descriptor: all it opens it closes. *)
Lemma convert_tflite_closes_all model filename quantize :
  closes_what_it_opens (convert_tflite model filename quantize).
Proof.
  intros s. unfold convert_tflite, bind, with_, call, ret.
  destruct (handle _ (FromKerasModel model) (world s)) as [[ex|c] w1];
    [closes_leaf|]. cbn [heap world trace].
  destruct quantize; cbn [heap world trace].
  - destruct (handle _ (SetOptimizations c [OptimizeDefault]) w1) as [[ex|[]] w2];
      [closes_leaf|]. cbn [heap world trace].
    destruct (handle _ (Convert c) w2) as [[ex|bytes] w3]; [closes_leaf|].
    cbn [heap world trace].
    destruct (handle _ (Open filename "wb") w3) as [[ex|f] w4]; [closes_leaf|].
    cbn [heap world trace].
    destruct (handle _ (FileWrite f bytes) w4) as [[ex|n] w5]; cbn [heap world trace];
      destruct (handle _ (FileClose f) w5) as [[ex'|[]] w6]; closes_leaf.
  - destruct (handle _ (Convert c) w1) as [[ex|bytes] w3]; [closes_leaf|].
    cbn [heap world trace].
    destruct (handle _ (Open filename "wb") w3) as [[ex|f] w4]; [closes_leaf|].
    cbn [heap world trace].
    destruct (handle _ (FileWrite f bytes) w4) as [[ex|n] w5]; cbn [heap world trace];
      destruct (handle _ (FileClose f) w5) as [[ex'|[]] w6]; closes_leaf.
Qed.

(** *** The first exception ends the run *)





(** *** The dictionaries only grow *)

Lemma extends_refl h : extends h h.
Proof. intros d items Hd. by exists items. Qed.

Lemma extends_trans h1 h2 h3 : extends h1 h2 -> extends h2 h3 -> extends h1 h3.
Proof.
  intros H12 H23 d items Hd.
  destruct (H12 _ _ Hd) as (items2 & Hd2 & Hp2).
  destruct (H23 _ _ Hd2) as (items3 & Hd3 & Hp3).
  exists items3. split; [done|]. by etrans.
Qed.

Lemma dict_set_keys k v (items : dict) :
  dict_keys items `prefix_of` dict_keys (dict_set k v items).
Proof.
  unfold dict_keys. induction items as [|[k' v'] items IH]; simpl.
  - apply prefix_nil.
  - destruct (key_is k k'); simpl; [done|]. by apply prefix_cons.
Qed.

Lemma only_grows_of_keeps_heap {A} (m : M A) : keeps_heap m -> only_grows m.
Proof. intros H s. rewrite H. apply extends_refl. Qed.

Lemma only_grows_new_dict : only_grows new_dict.
Proof.
  intros s d items Hd. exists items. split; [|done].
  simpl. by apply lookup_app_l_Some.
Qed.

Lemma only_grows_dict_setitem d k v : only_grows (dict_setitem d k v).
Proof.
  intros s. unfold dict_setitem.
  destruct (heap s !! d) as [items|] eqn:Hd; simpl; [|apply extends_refl].
  intros d' items' Hd'. destruct (decide (d' = d)) as [->|Hne].
  - assert (E : Some items = Some items') by exact (eq_trans (eq_sym Hd) Hd').
    injection E as <-. exists (dict_set k v items).
    split; [|apply dict_set_keys].
    apply list_lookup_insert_eq. by eapply lookup_lt_Some.
  - exists items'. split; [|done]. by rewrite list_lookup_insert_ne.
Qed.

Lemma only_grows_bind {A B} (m : M A) (k : A -> M B) :
  only_grows m -> (forall a, only_grows (k a)) -> only_grows (bind m k).
Proof.
  intros Hm Hk s. specialize (Hm s). unfold bind.
  destruct (m s) as [a s1|ex s1]; simpl in *; [|done].
  eapply extends_trans; [exact Hm | apply Hk].
Qed.

Ltac keeps_heap_known :=
  first [ apply keeps_heap_print_metric | apply keeps_heap_model_builder
        | apply keeps_heap_evaluate_tflite_model | apply keeps_heap_convert_tflite
        | apply keeps_heap_get_gzipped_model_size | apply keeps_heap_ret
        | apply keeps_heap_call | apply keeps_heap_getitem ].

Ltac only_grows_tac :=
  repeat first
    [ apply only_grows_new_dict | apply only_grows_dict_setitem
    | apply only_grows_of_keeps_heap; keeps_heap_known
    | apply only_grows_bind; [|intros ?]
    | match goal with
      | |- only_grows (let '(_, _) := ?p in _) => destruct p
      end ].

Lemma only_grows_workflow : only_grows workflow.
Proof. unfold_cells. only_grows_tac. Qed.













(** *** Every step of a run *)






End SafetyFacts.

(** ** evaluate_tflite_model at the edges *)

Section EvaluateEdges.
Context `{RT : Runtime}.

Lemma evaluate_returns filename x_test y_test s accuracy s' :
  evaluate_tflite_model filename x_test y_test s = Done accuracy s' ->
  exists e digits matches w,
    length (ev_runs e) = length x_test /\
    Forall2 (fun run digit => predicted run.2 digit) (ev_runs e) digits /\
    np_equal digits y_test = inr matches /\
    accuracy = np_mean matches /\
    s' = State (heap s) w (trace s ++ evaluate_log filename x_test e).
Proof.
  unfold evaluate_tflite_model. intros H.
  apply bind_Done in H as (i & s1 & H1 & H). apply call_Done in H1 as (w1 & _ & ->).
  apply bind_Done in H as ([] & s2 & H2 & H). apply call_Done in H2 as (w2 & _ & ->).
  apply bind_Done in H as (ins & s3 & H3 & H). apply call_Done in H3 as (w3 & _ & ->).
  apply bind_Done in H as (input0 & s4 & H4 & H). apply getitem_Done in H4 as [Hin ->].
  apply bind_Done in H as (outs & s5 & H5 & H). apply call_Done in H5 as (w5 & _ & ->).
  apply bind_Done in H as (output0 & s6 & H6 & H). apply getitem_Done in H6 as [Hout ->].
  apply bind_Done in H as (preds & s7 & H7 & H).
  unfold enumerate in H7.
  apply inference_loop_Done in H7 as (runs & digits & Hl & HF & -> & w7 & ->);
    [|by rewrite length_map, length_seq].
  apply bind_Done in H as (matches & s8 & H8 & H). apply lift_Done in H8 as [Heq ->].
  apply ret_Done in H as [-> ->].
  exists (Evaluation i ins outs (details_index input0) (details_index output0) runs
            (np_mean matches)), digits, matches, w7.
  split; [done|]. split; [done|]. split; [done|]. split; [reflexivity|].
  unfold evaluate_log, inference_log. simpl. by rewrite <- !app_assoc.
Qed.

(** [==] gives an array only for shapes that broadcast. *)
Lemma np_equal_inr a b matches :
  np_equal a b = inr matches ->
  length a = length b \/ length a = 1%nat \/ length b = 1%nat.
Proof.
  unfold np_equal. destruct (length a =? length b)%nat eqn:E.
  - apply Nat.eqb_eq in E. auto.
  - destruct a as [|x [|x' a]]; [|auto|]; destruct b as [|y [|y' b]]; try discriminate; auto.
Qed.

Lemma np_equal_single digits y :
  np_equal digits [y] = inr (map (fun d => Z.eqb d y) digits).
Proof.
  unfold np_equal. destruct digits as [|d [|d' digits]]; reflexivity.
Qed.

Lemma count_true_agreeing digits y :
  count_true (map (fun d => Z.eqb d y) digits) = agreeing y digits.
Proof.
  unfold count_true, agreeing. induction digits as [|d digits IH]; [reflexivity|].
  simpl. rewrite !filter_cons. destruct (Z.eqb_spec d y) as [->|Hne].
  - rewrite decide_True by done. rewrite decide_True by done. simpl. by rewrite IH.
  - rewrite decide_False by done. rewrite decide_False by done. exact IH.
Qed.

(** X5: When the number of labels differs from the number of images, and
    neither is one, evaluate_tflite_model does not return, whatever the
    interpreter answers: the shapes of the predictions and of the labels
    do not broadcast. *)
Theorem evaluate_tflite_model_needs_matching_labels filename x_test y_test s :
  length x_test <> length y_test ->
  length x_test <> 1%nat -> length y_test <> 1%nat ->
  returned (evaluate_tflite_model filename x_test y_test s) = None.
Proof.
  intros Hne Hx Hy.
  destruct (evaluate_tflite_model filename x_test y_test s) as [acc s'|ex s'] eqn:H;
    [|reflexivity].
  apply evaluate_returns in H as (e & digits & matches & w & Hl & HF & Heq & _).
  apply Forall2_length in HF. apply np_equal_inr in Heq.
  exfalso. destruct Heq as [Heq|[Heq|Heq]]; congruence.
Qed.

(** X6: A single label is broadcast against the predictions: with one label
    [y], whatever the number of images, the result is the number of
    images predicted as [y] divided by the number of images. *)
Theorem evaluate_tflite_model_broadcasts_single_label filename x_test y s accuracy s' :
  evaluate_tflite_model filename x_test [y] s = Done accuracy s' ->
  exists e digits,
    trace s' = trace s ++ evaluate_log filename x_test e /\
    Forall2 (fun run digit => predicted run.2 digit) (ev_runs e) digits /\
    length digits = length x_test /\
    accuracy = (float_of_Z (Z.of_nat (agreeing y digits))
                / float_of_Z (Z.of_nat (length x_test)))%float.
Proof.
  intros H. apply evaluate_returns in H as (e & digits & matches & w & Hl & HF & Heq & -> & ->).
  exists e, digits. split; [reflexivity|]. split; [exact HF|].
  assert (Hd : length digits = length x_test).
  { apply Forall2_length in HF. congruence. }
  split; [exact Hd|].
  rewrite np_equal_single in Heq. injection Heq as <-.
  unfold np_mean. by rewrite count_true_agreeing, length_map, Hd.
Qed.

(** X7: On an empty test set evaluate_tflite_model makes its four set-up
    calls and no inference, and what it returns is not a number: the
    mean of an empty array.  It returns only for at most one label. *)
Theorem evaluate_tflite_model_empty_test_set filename y_test s accuracy s' :
  evaluate_tflite_model filename [] y_test s = Done accuracy s' ->
  is_nan accuracy = true /\
  (length y_test <= 1)%nat /\
  exists i inputs outputs,
    trace s' = trace s ++
      [ Entry (Interpreter filename) (inr i);
        Entry (AllocateTensors i) (inr ());
        Entry (GetInputDetails i) (inr inputs);
        Entry (GetOutputDetails i) (inr outputs) ].
Proof.
  intros H. apply evaluate_returns in H as (e & digits & matches & w & Hl & HF & Heq & -> & ->).
  destruct (ev_runs e) as [|run runs] eqn:Hruns; [|discriminate].
  apply Forall2_nil_inv_l in HF as ->.
  assert (matches = [] /\ (length y_test <= 1)%nat) as [-> Hy].
  { destruct y_test as [|y [|y' y_test]]; try discriminate;
      injection Heq as <-; simpl; split; (reflexivity || lia). }
  split; [reflexivity|]. split; [exact Hy|].
  exists (ev_interpreter e), (ev_inputs e), (ev_outputs e).
  unfold evaluate_log, inference_log. rewrite Hruns. reflexivity.
Qed.

(** *** Why it raises *)

Lemma call_outcome {X} (e : Event X) s ex s' :
  call e s = Raised ex s' ->
  heap s' = heap s /\ trace s' = trace s ++ [Entry e (inl ex)].
Proof. intros H. apply call_Raised in H as (w & _ & ->). done. Qed.

Lemma getitem_Raised {A} (xs : list A) i s ex s' :
  getitem xs i s = Raised ex s' -> xs !! i = None /\ ex = IndexError /\ s' = s.
Proof.
  unfold getitem. destruct (xs !! i); [discriminate|]. by intros [= <- <-].
Qed.

Lemma lift_Raised {A} (r : exn + A) s ex s' :
  lift r s = Raised ex s' -> r = inl ex /\ s' = s.
Proof. destruct r; [|discriminate]. by intros [= <- <-]. Qed.

Lemma inference_failure_app t1 ex t :
  Forall (fun x => failure x = None) t1 ->
  inference_failure ex t -> inference_failure ex (t1 ++ t).
Proof.
  intros H1 Hf. destruct Hf as [ex t0 X e H0|t0 i H0|t0 i H0|t0 fn H0|t0 fn rows H0];
    rewrite app_assoc;
    [ apply call_raised | apply no_input_tensor | apply no_output_tensor
    | apply empty_output | apply empty_row ]; by apply Forall_app.
Qed.

Lemma inference_round_succeeded i a b image run :
  Forall (fun x => failure x = None) (inference_round i a b image run).
Proof. by repeat constructor. Qed.

Lemma argmax_inl row ex : argmax row = inl ex -> row = [] /\ ex = ValueError.
Proof. destruct row; [by intros [= <-] | discriminate]. Qed.

Lemma evaluate_step_Raised i a b image acc s ex s' :
  evaluate_step i a b image acc s = Raised ex s' ->
  heap s' = heap s /\ exists t, trace s' = trace s ++ t /\ inference_failure ex t.
Proof.
  unfold evaluate_step. intros H.
  apply bind_Raised in H as [H|([] & s1 & H1 & H)].
  { apply call_outcome in H as [Hh Ht]. split; [done|]. eexists. split; [exact Ht|].
    by apply (call_raised _ []). }
  apply call_Done in H1 as (w1 & _ & ->).
  apply bind_Raised in H as [H|([] & s2 & H2 & H)].
  { apply call_outcome in H as [Hh Ht]. split; [done|]. eexists. split.
    { rewrite Ht. cbn [trace]. by rewrite <- app_assoc. }
    apply (call_raised _ [_]). by repeat constructor. }
  apply call_Done in H2 as (w2 & _ & ->).
  apply bind_Raised in H as [H|(fn & s3 & H3 & H)].
  { apply call_outcome in H as [Hh Ht]. split; [done|]. eexists. split.
    { rewrite Ht. cbn [trace]. by rewrite <- !app_assoc. }
    apply (call_raised _ [_; _]). by repeat constructor. }
  apply call_Done in H3 as (w3 & _ & ->).
  apply bind_Raised in H as [H|(out & s4 & H4 & H)].
  { apply call_outcome in H as [Hh Ht]. split; [done|]. eexists. split.
    { rewrite Ht. cbn [trace]. by rewrite <- !app_assoc. }
    apply (call_raised _ [_; _; _]). by repeat constructor. }
  apply call_Done in H4 as (w4 & _ & ->).
  apply bind_Raised in H as [H|(row & s5 & H5 & H)].
  { apply getitem_Raised in H as (Hout & -> & ->). split; [done|].
    destruct out as [|row out]; [|discriminate]. eexists. split.
    { cbn [trace]. by rewrite <- !app_assoc. }
    apply (empty_output [_; _; _]). by repeat constructor. }
  apply getitem_Done in H5 as [Hout ->].
  apply bind_Raised in H as [H|(digit & s6 & H6 & H)]; [|discriminate].
  apply lift_Raised in H as [Harg ->]. apply argmax_inl in Harg as [-> ->].
  split; [done|]. destruct out as [|row out]; [discriminate|]. injection Hout as ->.
  eexists. split.
  { cbn [trace]. by rewrite <- !app_assoc. }
  apply (empty_row [_; _; _]). by repeat constructor.
Qed.

Lemma inference_loop_Raised i a b (idx : list Z) x_test acc s ex s' :
  for_each (zip idx x_test)
    (fun it prediction_digits =>
       let '(_, test_image) := it in
       evaluate_step i a b test_image prediction_digits)
    acc s = Raised ex s' ->
  heap s' = heap s /\ exists t, trace s' = trace s ++ t /\ inference_failure ex t.
Proof.
  revert idx acc s. induction x_test as [|image x_test IH]; intros idx acc s H.
  - destruct idx; discriminate.
  - destruct idx as [|k idx]; [discriminate|]. simpl in H.
    apply bind_Raised in H as [H|(acc1 & s1 & H1 & H)].
    + by apply evaluate_step_Raised in H.
    + apply evaluate_step_Done in H1 as (run & digit & _ & -> & w1 & ->).
      apply IH in H as (Hh & t & Ht & Hf). split; [done|].
      eexists. split; [rewrite Ht; cbn [trace]; by rewrite <- app_assoc|].
      apply inference_failure_app; [apply inference_round_succeeded | exact Hf].
Qed.

Lemma np_equal_inl a b ex :
  np_equal a b = inl ex ->
  ex = ComparisonError /\ length a <> length b /\ length a <> 1%nat /\ length b <> 1%nat.
Proof.
  unfold np_equal. destruct (length a =? length b)%nat eqn:E; [discriminate|].
  apply Nat.eqb_neq in E.
  destruct a as [|x [|x' a]]; try discriminate;
    destruct b as [|y [|y' b]]; try discriminate; intros [= <-]; simpl in *; auto.
Qed.

(** X8: All the ways evaluate_tflite_model can raise.  The heap is as it
    was, and either a call into the interpreter raised, all the calls
    before it having returned: then it is the last call made and the
    exception is its own; or the last call made returned something the
    code cannot index: no input tensor or no output tensor (IndexError),
    an output without a row 0 (IndexError), a row 0 without an entry
    (ValueError of argmax); or every call returned and every image was
    run, and the comparison with the labels raised because their number
    is neither the number of images nor one. *)
Theorem evaluate_tflite_model_failures filename x_test y_test s ex s' :
  evaluate_tflite_model filename x_test y_test s = Raised ex s' ->
  heap s' = heap s /\
  exists t, trace s' = trace s ++ t /\
    (inference_failure ex t \/ label_count_failure filename x_test y_test ex t).
Proof.
  unfold evaluate_tflite_model. intros H.
  apply bind_Raised in H as [H|(i & s1 & H1 & H)].
  { apply call_outcome in H as [Hh Ht]. split; [done|]. eexists. split; [exact Ht|].
    left. by apply (call_raised _ []). }
  apply call_Done in H1 as (w1 & _ & ->).
  apply bind_Raised in H as [H|([] & s2 & H2 & H)].
  { apply call_outcome in H as [Hh Ht]. split; [done|]. eexists. split.
    { rewrite Ht. cbn [trace]. by rewrite <- app_assoc. }
    left. apply (call_raised _ [_]). by repeat constructor. }
  apply call_Done in H2 as (w2 & _ & ->).
  apply bind_Raised in H as [H|(ins & s3 & H3 & H)].
  { apply call_outcome in H as [Hh Ht]. split; [done|]. eexists. split.
    { rewrite Ht. cbn [trace]. by rewrite <- !app_assoc. }
    left. apply (call_raised _ [_; _]). by repeat constructor. }
  apply call_Done in H3 as (w3 & _ & ->).
  apply bind_Raised in H as [H|(input0 & s4 & H4 & H)].
  { apply getitem_Raised in H as (Hin & -> & ->). split; [done|].
    destruct ins as [|in0 ins]; [|discriminate]. eexists. split.
    { cbn [trace]. by rewrite <- !app_assoc. }
    left. apply (no_input_tensor [_; _]). by repeat constructor. }
  apply getitem_Done in H4 as [Hin ->].
  apply bind_Raised in H as [H|(outs & s5 & H5 & H)].
  { apply call_outcome in H as [Hh Ht]. split; [done|]. eexists. split.
    { rewrite Ht. cbn [trace]. by rewrite <- !app_assoc. }
    left. apply (call_raised _ [_; _; _]). by repeat constructor. }
  apply call_Done in H5 as (w5 & _ & ->).
  apply bind_Raised in H as [H|(output0 & s6 & H6 & H)].
  { apply getitem_Raised in H as (Hout & -> & ->). split; [done|].
    destruct outs as [|out0 outs]; [|discriminate]. eexists. split.
    { cbn [trace]. by rewrite <- !app_assoc. }
    left. apply (no_output_tensor [_; _; _]). by repeat constructor. }
  apply getitem_Done in H6 as [Hout ->].
  apply bind_Raised in H as [H|(preds & s7 & H7 & H)].
  { unfold enumerate in H. apply inference_loop_Raised in H as (Hh & t & Ht & Hf).
    split; [done|]. eexists. split.
    { rewrite Ht. cbn [trace]. by rewrite <- !app_assoc. }
    left. apply (inference_failure_app [_; _; _; _]); [by repeat constructor | exact Hf]. }
  unfold enumerate in H7.
  apply inference_loop_Done in H7 as (runs & digits & Hl & HF & -> & w7 & ->);
    [|by rewrite length_map, length_seq].
  apply bind_Raised in H as [H|(matches & s8 & H8 & H)]; [|discriminate].
  apply lift_Raised in H as [Heq ->]. split; [done|].
  apply np_equal_inl in Heq as (-> & Hne & Hd & Hy).
  apply Forall2_length in HF. simpl in Hne, Hd. rewrite <- HF, Hl in Hne, Hd.
  exists (evaluate_log filename x_test
            (Evaluation i ins outs (details_index input0) (details_index output0) runs 0)).
  split.
  { unfold evaluate_log, inference_log. cbn [trace ev_interpreter ev_input_index
      ev_output_index ev_runs]. by rewrite <- !app_assoc. }
  right. split; [done|]. split; [done|]. split; [done|]. split; [done|].
  eexists. split; [|reflexivity]. exact Hl.
Qed.

End EvaluateEdges.

(** ** convert_tflite and get_gzipped_model_size, step by step *)

Section FilesFacts.
Context `{RT : Runtime}.

Ltac mem_tac :=
  cbn in *; rewrite ?list_elem_of_In in *; cbn in *;
  intuition (subst; simplify_eq; auto).

Ltac convert_leaf :=
  cbn [heap world trace final]; rewrite <- ?app_assoc; cbn [app];
  eexists; split; [reflexivity|];
  split; [apply guarded_sound; reflexivity|];
  split; [intros ? ? ?; mem_tac | intros ? ? ?; mem_tac].

(** X9: In every run of convert_tflite, also one that raises: the output
    file is opened, hence created or truncated by the function, only
    after converter.convert() has returned the model; whatever is
    written is the model the converter returned, into the file just
    opened; and the function asks to open no file but the one of the
    given name, in mode 'wb'.  (What the converter writes on its own
    while it converts is not a call of the function and is not covered
    here.) *)
Theorem convert_tflite_writes_the_converted_model model filename quantize s :
  exists t,
    trace (final (convert_tflite model filename quantize s)) = trace s ++ t /\
    preceded_by converted is_open t /\
    (forall f data, (f, data) ∈ omap file_write t ->
       data ∈ omap converted_bytes t /\ OpenFile f ∈ t ≫= opened_by) /\
    (forall p mode, (p, mode) ∈ t ≫= open_asked -> p = filename /\ mode = "wb").
Proof.
  unfold convert_tflite, bind, with_, call, ret.
  destruct (handle _ (FromKerasModel model) (world s)) as [[ex|c] w1];
    [convert_leaf|]. cbn [heap world trace].
  destruct quantize; cbn [heap world trace].
  - destruct (handle _ (SetOptimizations c [OptimizeDefault]) w1) as [[ex|[]] w2];
      [convert_leaf|]. cbn [heap world trace].
    destruct (handle _ (Convert c) w2) as [[ex|bytes] w3]; [convert_leaf|].
    cbn [heap world trace].
    destruct (handle _ (Open filename "wb") w3) as [[ex|f] w4]; [convert_leaf|].
    cbn [heap world trace].
    destruct (handle _ (FileWrite f bytes) w4) as [[ex|n] w5]; cbn [heap world trace];
      destruct (handle _ (FileClose f) w5) as [[ex'|[]] w6]; convert_leaf.
  - destruct (handle _ (Convert c) w1) as [[ex|bytes] w3]; [convert_leaf|].
    cbn [heap world trace].
    destruct (handle _ (Open filename "wb") w3) as [[ex|f] w4]; [convert_leaf|].
    cbn [heap world trace].
    destruct (handle _ (FileWrite f bytes) w4) as [[ex|n] w5]; cbn [heap world trace];
      destruct (handle _ (FileClose f) w5) as [[ex'|[]] w6]; convert_leaf.
Qed.

Ltac builder_leaf :=
  cbn [heap world trace final]; rewrite <- ?app_assoc; cbn [app];
  eexists; split; [reflexivity|];
  split; [by eexists|];
  intros ? ? ?; mem_tac.

(** X10: In every run of model_builder, also one that raises: the layers
    are asked for in the order of the architecture, input to output,
    none twice and none besides; a model is made only when all six
    layers exist, of exactly the six layers the calls returned, in that
    order; and the function then returns that model. *)
Theorem model_builder_builds_the_architecture s :
  exists t,
    trace (final (model_builder s)) = trace s ++ t /\
    t ≫= layer_of `prefix_of` architecture /\
    forall layers m, (Built layers, m) ∈ t ≫= model_made ->
      t ≫= layer_of = architecture /\
      layers = t ≫= layer_made /\
      returned (model_builder s) = Some m.
Proof.
  unfold model_builder, bind, call, ret.
  destruct (handle _ (KerasLayer (InputLayer [28; 28])) (world s)) as [[ex|l0] w0];
    [builder_leaf|]. cbn [heap world trace].
  destruct (handle _ (KerasLayer (Reshape [28; 28; 1])) w0) as [[ex|l1] w1];
    [builder_leaf|]. cbn [heap world trace].
  destruct (handle _ (KerasLayer (Conv2D 12 (3, 3) "relu")) w1) as [[ex|l2] w2];
    [builder_leaf|]. cbn [heap world trace].
  destruct (handle _ (KerasLayer (MaxPooling2D (2, 2))) w2) as [[ex|l3] w3];
    [builder_leaf|]. cbn [heap world trace].
  destruct (handle _ (KerasLayer Flatten) w3) as [[ex|l4] w4];
    [builder_leaf|]. cbn [heap world trace].
  destruct (handle _ (KerasLayer (Dense 10 "softmax")) w4) as [[ex|l5] w5];
    [builder_leaf|]. cbn [heap world trace].
  destruct (handle _ (KerasSequential [l0; l1; l2; l3; l4; l5]) w5) as [[ex|m] w6];
    builder_leaf.
Qed.

Ltac gzip_leaf :=
  cbn [heap world trace final]; rewrite <- ?app_assoc; cbn [app];
  eexists; split; [reflexivity|];
  split; [apply guarded_sound; reflexivity|];
  split; [intros ? ?; mem_tac | intros ? ?; mem_tac].

(** X11: In every run of get_gzipped_model_size, also one that raises: the
    size is asked for only after the archive has been closed and the
    close has returned, so it is the size of the finished archive; the
    only file ever added to an archive is the input file; and the
    archive is created at the path mkstemp has just returned, never at a
    path of the caller's. *)
Theorem get_gzipped_model_size_measures_the_closed_archive file s :
  exists t,
    trace (final (get_gzipped_model_size file s)) = trace s ++ t /\
    preceded_by zip_closed is_getsize t /\
    (forall p, p ∈ omap zipped t -> p = file) /\
    (forall p, p ∈ omap archive_of t -> p ∈ temporary_files t).
Proof.
  unfold get_gzipped_model_size, bind, with_, call.
  destruct (handle _ (Mkstemp ".zip") (world s)) as [[ex|[fd zipped_file]] w1];
    [gzip_leaf|]. cbn [heap world trace].
  destruct (handle _ (ZipFile zipped_file "w" ZIP_DEFLATED) w1) as [[ex|z] w2];
    [gzip_leaf|]. cbn [heap world trace].
  destruct (handle _ (ZipWrite z file) w2) as [[ex|[]] w3]; cbn [heap world trace];
    (destruct (handle _ (ZipClose z) w3) as [[ex'|[]] w4]; [gzip_leaf|]);
    cbn [heap world trace]; try gzip_leaf.
  destruct (handle _ (Getsize zipped_file) w4) as [[ex'|size] w5]; gzip_leaf.
Qed.

End FilesFacts.

(** ** Complete runs of the notebook, in full *)

Ltac finish_complete :=
  repeat match goal with x : () |- _ => destruct x end;
  cbn [heap world trace];
  rewrite <- ?app_assoc; cbn [app];
  repeat match goal with |- _ /\ _ => split end;
  try reflexivity; eassumption.

Section CompleteRuns.
Context `{RT : Runtime}.

Lemma stage_baseline_complete data w t baseline_model s' :
  stage_baseline (setup_globals data) (State [[]; []] w t) = Done baseline_model s' ->
  exists a w',
    baseline_model = b_model (ba_built a) /\
    measures (test_images (setup_globals data)) (test_labels (setup_globals data))
      (ba_evaluation a) /\
    s' = State [baseline_sizes a; baseline_accuracies a] w'
           (t ++ baseline_log (setup_globals data) a).
Proof.
  intros H. unfold stage_baseline, setup_globals in H. exec H.
  eexists (BaselineAnswers _ _ _ _ _ _ _), _. unfold baseline_log.
  finish_complete.
Qed.

Lemma stage_ptq_complete data a w t u s' :
  stage_ptq (setup_globals data) (b_model (ba_built a))
    (State [baseline_sizes a; baseline_accuracies a] w t) = Done u s' ->
  exists p w',
    measures (test_images (setup_globals data)) (test_labels (setup_globals data))
      (pa_evaluation p) /\
    s' = State [ptq_sizes a p; ptq_accuracies a p] w'
           (t ++ ptq_log (setup_globals data) a p).
Proof.
  intros H. unfold stage_ptq, setup_globals in H. exec H.
  eexists (PtqAnswers _ _ _), _. unfold ptq_log. finish_complete.
Qed.

Lemma stage_qat_complete data (sizes accs : dict) w t g s' :
  stage_qat (setup_globals data) (State [sizes; accs] w t) = Done g s' ->
  exists q w',
    g = set_ACCURACY 2%nat (setup_globals data) /\
    measures (test_images (setup_globals data)) (test_labels (setup_globals data))
      (qa_evaluation q) /\
    s' = State [sizes; accs; qat_accuracies q] w'
           (t ++ qat_log (setup_globals data) q).
Proof.
  intros H. unfold stage_qat, setup_globals in H. exec H.
  eexists (QatAnswers _ _ _ _ _ _), _. unfold qat_log. finish_complete.
Qed.

Lemma stage_pruning_complete data baseline_model (sizes accs accs' : dict) w t res s' :
  stage_pruning (set_ACCURACY 2%nat (setup_globals data)) baseline_model
    (State [sizes; accs; accs'] w t) = Done res s' ->
  exists r w',
    res = (set_ACCURACY 5%nat (set_MODEL_SIZE 4%nat (setup_globals data)), None) /\
    ra_weights1 r !! 1%nat = Some (ra_shown1 r) /\
    ra_weights2 r !! 1%nat = Some (ra_shown2 r) /\
    ra_weights3 r !! 0%nat = Some (ra_shown3 r) /\
    measures (test_images (setup_globals data)) (test_labels (setup_globals data))
      (ra_evaluation r) /\
    s' = State [sizes; accs; accs'; pruning_sizes r; pruning_final_sizes r;
                pruning_accuracies r] w'
           (t ++ pruning_log (setup_globals data) baseline_model r).
Proof.
  intros H. unfold stage_pruning, setup_globals in H. exec H.
  eexists (PruningAnswers _ _ _ _ _ _ _ _ _ _ _ _ _ _ _ _ _ _ _), _.
  unfold pruning_log. finish_complete.
Qed.

Lemma workflow_complete w res s' :
  workflow (init w) = Done res s' ->
  exists data a p q r w',
    fitting data a p q r /\
    res = (set_ACCURACY 5%nat (set_MODEL_SIZE 4%nat (setup_globals data)), None) /\
    s' = State (workflow_heap a p q r) w' (workflow_log data a p q r).
Proof.
  unfold workflow. intros H.
  apply bind_Done in H as (g0 & s0 & H0 & H).
  apply stage_setup_run in H0 as (data & w0 & -> & ->).
  apply bind_Done in H as (bm & s1 & H1 & H).
  apply stage_baseline_complete in H1 as (a & w1 & -> & La & ->).
  apply bind_Done in H as (u & s2 & H2 & H).
  apply stage_ptq_complete in H2 as (p & w2 & Lp & ->).
  apply bind_Done in H as (g3 & s3 & H3 & H).
  apply stage_qat_complete in H3 as (q & w3 & -> & Lq & ->).
  apply stage_pruning_complete in H as (r & w' & -> & P1 & P2 & P3 & Lr & ->).
  exists data, a, p, q, r, w'.
  split; [unfold fitting; cbv zeta; tauto|]. split; [reflexivity|].
  unfold workflow_log. by rewrite <- !app_assoc.
Qed.

End CompleteRuns.

(** ** What a complete run has done *)

Section Readings.
Context `{RT : Runtime}.

Lemma bind_inference_quiet {T} (f : entry -> list T) x_test e :
  (forall i a b image run, inference_round i a b image run ≫= f = []) ->
  inference_log x_test e ≫= f = [].
Proof.
  intros Hq. unfold inference_log. generalize (ev_runs e) as runs.
  induction x_test as [|image x_test IH]; intros [|run runs]; try reflexivity.
  cbn [zip_with concat]. by rewrite bind_app, Hq, IH.
Qed.

Lemma omap_inference_quiet {T} (f : entry -> option T) x_test e :
  (forall i a b image run, omap f (inference_round i a b image run) = []) ->
  omap f (inference_log x_test e) = [].
Proof.
  intros Hq. unfold inference_log. generalize (ev_runs e) as runs.
  induction x_test as [|image x_test IH]; intros [|run runs]; try reflexivity.
  cbn [zip_with concat]. by rewrite omap_app, Hq, IH.
Qed.

Lemma fed_inference x_test e :
  length (ev_runs e) = length x_test ->
  inference_log x_test e ≫= fed = map input_tensor x_test.
Proof.
  unfold inference_log. generalize (ev_runs e) as runs.
  induction x_test as [|image x_test IH]; intros [|run runs] Hl; try discriminate;
    [reflexivity|].
  cbn [zip_with concat map]. rewrite bind_app, IH by (by injection Hl). reflexivity.
Qed.

Ltac open_logs :=
  cbv beta zeta delta [workflow_log setup_log baseline_log ptq_log qat_log pruning_log
    model_builder_log convert_log gzip_log evaluate_log print_metric_log
    baseline_sizes baseline_accuracies ptq_sizes ptq_accuracies qat_accuracies
    pruning_sizes pruning_gzipped_sizes pruning_final_sizes pruning_accuracies];
  rewrite <- ?app_assoc.

Ltac read_log :=
  open_logs; rewrite !bind_app;
  rewrite !bind_inference_quiet by (intros; reflexivity);
  reflexivity.

Lemma model_made_workflow data a p q r :
  workflow_log data a p q r ≫= model_made =
    [ (Built [b_l0 (ba_built a); b_l1 (ba_built a); b_l2 (ba_built a);
              b_l3 (ba_built a); b_l4 (ba_built a); b_l5 (ba_built a)],
       b_model (ba_built a));
      (Built [b_l0 (qa_built q); b_l1 (qa_built q); b_l2 (qa_built q);
              b_l3 (qa_built q); b_l4 (qa_built q); b_l5 (qa_built q)],
       b_model (qa_built q));
      (Quantized (b_model (qa_built q)), qa_model q);
      (Pruned (b_model (ba_built a)) (ra_schedule r), ra_model r);
      (Stripped (ra_model r), ra_export r) ].
Proof. read_log. Qed.

(** X12: A complete run loads the dataset once and makes five models: the
    baseline model and the model to quantize are built from layers, the
    quantization-aware model is made from the latter, the model for
    pruning from the baseline model, the model for export by stripping
    the model for pruning.  Three of them are trained, once each, on the
    whole normalized training set and its labels: the baseline model and
    the quantization-aware model for one epoch without shuffling, the
    model for pruning for two epochs, shuffled, a tenth of the set held
    out for validation, with the pruning-step callback. *)
Theorem models_made_and_trained w res s' :
  workflow (init w) = Done res s' ->
  exists data layers layers' baseline_model model_to_quantize q_aware_model
         pruning_schedule model_for_pruning model_for_export callback,
    trace s' ≫= loaded_by = [data] /\
    trace s' ≫= model_made =
      [ (Built layers, baseline_model);
        (Built layers', model_to_quantize);
        (Quantized model_to_quantize, q_aware_model);
        (Pruned baseline_model pruning_schedule, model_for_pruning);
        (Stripped model_for_pruning, model_for_export) ] /\
    let x := true_divide data.1.1 255.0%float in
    let y := data.1.2 in
    trace s' ≫= training_of =
      [ Training baseline_model x y 1 false 0%float [];
        Training q_aware_model x y 1 false 0%float [];
        Training model_for_pruning x y 2 true 0.1%float [callback] ].
Proof.
  intros H. apply workflow_complete in H as (data & a & p & q & r & w' & _ & _ & ->).
  cbn [trace].
  exists data. eexists _, _, (b_model (ba_built a)), (b_model (qa_built q)), (qa_model q),
    (ra_schedule r), (ra_model r), (ra_export r), (ra_callback r).
  split; [read_log|]. split; [apply model_made_workflow | read_log].
Qed.

(** X13: A complete run evaluates three Keras models in memory, all on the
    whole normalized test set and its labels: the baseline model, the
    quantization-aware model and the model for pruning.  The accuracy
    each evaluation returns is what the tables hold under 'baseline
    Keras model', 'quantization aware non-quantized' and 'pruned model
    h5'.  So the accuracy recorded as that of the pruned model is
    measured on the model that still carries the pruning wrappers, while
    the file pruned_model.h5 holds the model stripped of them; the
    stripped model itself is saved and converted, not evaluated by
    Keras. *)
Theorem keras_models_evaluated w res s' :
  workflow (init w) = Done res s' ->
  exists data baseline_model q_aware_model pruning_schedule model_for_pruning
         model_for_export acc1 acc2 acc3,
    trace s' ≫= loaded_by = [data] /\
    let x := true_divide data.2.1 255.0%float in
    let y := data.2.2 in
    trace s' ≫= measured_by =
      [ (baseline_model, x, y, acc1); (q_aware_model, x, y, acc2);
        (model_for_pruning, x, y, acc3) ] /\
    (Pruned baseline_model pruning_schedule, model_for_pruning) ∈ trace s' ≫= model_made /\
    (Stripped model_for_pruning, model_for_export) ∈ trace s' ≫= model_made /\
    trace s' ≫= saved_by =
      [ (baseline_model, FILE_WEIGHTS); (baseline_model, FILE_NON_QUANTIZED_H5);
        (model_for_export, FILE_PRUNED_MODEL_H5) ] /\
    table s' 1%nat !! 0%nat = Some (VStr "baseline Keras model", VFloat acc1) /\
    table s' 2%nat !! 0%nat = Some (VStr "quantization aware non-quantized", VFloat acc2) /\
    table s' (ACCURACY res.1) !! 0%nat = Some (VStr "pruned model h5", VFloat acc3).
Proof.
  intros H. apply workflow_complete in H as (data & a & p & q & r & w' & _ & -> & ->).
  cbn [trace].
  exists data, (b_model (ba_built a)), (qa_model q), (ra_schedule r), (ra_model r),
    (ra_export r), (ba_evaluate a).2, (qa_evaluate q).2, (ra_evaluate r).2.
  split; [read_log|]. split; [read_log|].
  rewrite model_made_workflow. split; [apply list_elem_of_In; simpl; tauto|].
  split; [apply list_elem_of_In; simpl; tauto|].
  split; [read_log|]. repeat split.
Qed.

Lemma input_pixel_in_unit_interval (b : byte) :
  in_unit_interval (round_to_float32 (uint8_to_float b / 255.0)%float) = true.
Proof. destruct b; vm_compute; reflexivity. Qed.

Lemma input_tensors_in_unit_interval (a : array3 byte) :
  Forall (Forall (Forall (Forall float32_in_unit_interval)))
    (map input_tensor (true_divide a 255.0%float)).
Proof.
  unfold true_divide, input_tensor, astype_float32, expand_dims0.
  apply Forall_fmap, Forall_fmap, Forall_true. intros image. simpl.
  constructor; [|constructor].
  apply Forall_fmap, Forall_fmap, Forall_true. intros row. simpl.
  apply Forall_fmap, Forall_fmap, Forall_true. intros b. simpl.
  apply input_pixel_in_unit_interval.
Qed.

(** X14: A complete run makes four interpreters, from the four TF Lite files
    in the order they were exported, and runs each of them on every test
    image, once, in the order of the dataset: what the interpreters are
    given, one tensor per inference, is the list of the normalized test
    images four times over, each image with a batch dimension of one and
    cast to float32; and every value of every such tensor is in the
    closed interval [0, 1]. *)
Theorem interpreters_run_the_test_set w res s' :
  workflow (init w) = Done res s' ->
  exists data,
    trace s' ≫= loaded_by = [data] /\
    trace s' ≫= interpreted =
      [ FILE_NON_QUANTIZED_TFLITE; FILE_PT_QUANTIZED; FILE_QAT_QUANTIZED;
        FILE_PRUNED_QUANTIZED_TFLITE ] /\
    trace s' ≫= fed =
      concat (replicate 4 (map input_tensor (true_divide data.2.1 255.0%float))) /\
    Forall (Forall (Forall (Forall float32_in_unit_interval))) (trace s' ≫= fed).
Proof.
  intros H. apply workflow_complete in H as (data & a & p & q & r & w' & Hfit & _ & ->).
  destruct Hfit as ((La & _) & (Lp & _) & (Lq & _) & (Lr & _) & _). cbn [trace].
  exists data. split; [read_log|]. split; [read_log|].
  assert (Hfed : workflow_log data a p q r ≫= fed =
    concat (replicate 4 (map input_tensor (true_divide data.2.1 255.0%float)))).
  { open_logs. rewrite !bind_app.
    rewrite !fed_inference by assumption.
    cbn. by rewrite !app_nil_r. }
  split; [exact Hfed|]. rewrite Hfed. cbn [replicate concat].
  rewrite !Forall_app.
  repeat split; first [apply input_tensors_in_unit_interval | constructor].
Qed.

(** X15: Every size the tables hold is the answer of getsize for the file its
    key names, and in the table the run ends with, of the archive made
    of that file.  A complete run takes eight sizes: of the baseline
    Keras file, of the TF Lite file converted from it and of the
    post-training quantized file, recorded in the first table; of the
    baseline and of the pruned Keras files, recorded in a second table;
    and of three temporary archives, made of the baseline Keras file,
    the pruned Keras file and the pruned quantized TF Lite file,
    recorded in the table bound to MODEL_SIZE at the end.  No size of the
    quantization-aware file is ever taken. *)
Theorem sizes_recorded w res s' :
  workflow (init w) = Done res s' ->
  exists z1 z2 z3 z4 z5 zip1 z6 zip2 z7 zip3 z8,
    trace s' ≫= sized_by =
      [ (FILE_NON_QUANTIZED_H5, z1); (FILE_NON_QUANTIZED_TFLITE, z2);
        (FILE_PT_QUANTIZED, z3); (FILE_NON_QUANTIZED_H5, z4);
        (FILE_PRUNED_MODEL_H5, z5); (zip1, z6); (zip2, z7); (zip3, z8) ] /\
    temporary_files (trace s') = [zip1; zip2; zip3] /\
    omap archive_of (trace s') = [zip1; zip2; zip3] /\
    omap zipped (trace s') =
      [FILE_NON_QUANTIZED_H5; FILE_PRUNED_MODEL_H5; FILE_PRUNED_QUANTIZED_TFLITE] /\
    table s' 0%nat =
      [ (VStr "baseline h5", VInt z1); (VStr "non quantized tflite", VInt z2);
        (VStr "post training quantized tflite", VInt z3) ] /\
    table s' 3%nat =
      [ (VStr "baseline h5", VInt z4); (VStr "pruned non quantized h5", VInt z5) ] /\
    table s' (MODEL_SIZE res.1) =
      [ (VStr "baseline h5", VInt z6); (VStr "pruned non quantized h5", VInt z7);
        (VStr "pruned quantized tflite", VInt z8) ].
Proof.
  intros H. apply workflow_complete in H as (data & a & p & q & r & w' & _ & -> & ->).
  cbn [trace].
  exists (ba_size_h5 a), (ba_size_tflite a), (pa_size p), (ra_size_baseline r),
    (ra_size_pruned r), (gz_path (ra_gzip_baseline r)), (gz_size (ra_gzip_baseline r)),
    (gz_path (ra_gzip_pruned r)), (gz_size (ra_gzip_pruned r)),
    (gz_path (ra_gzip_tflite r)), (gz_size (ra_gzip_tflite r)).
  split; [read_log|]. split; [apply temporary_files_workflow|].
  split; [|split; [|by repeat split]].
  - open_logs. rewrite !omap_app. rewrite !omap_inference_quiet by (intros; reflexivity).
    reflexivity.
  - open_logs. rewrite !omap_app. rewrite !omap_inference_quiet by (intros; reflexivity).
    reflexivity.
Qed.

(** X16: What the cells of a complete run show as their values, in order:
    the history of the quantization-aware training; weight variable 1 of
    the model for pruning before it is trained; the history of its
    training; weight variable 1 of the same model after the training;
    and weight variable 0 of the model stripped of the pruning wrappers.
    The history of the baseline training is not shown.  A run can
    complete only when the model for pruning has two weight variables at
    least, and the stripped model one. *)
Theorem values_shown w res s' :
  workflow (init w) = Done res s' ->
  exists h1 h2 h3 model_for_pruning model_for_export ws1 ws2 ws3 v1 v2 v3,
    trace s' ≫= history_by = [h1; h2; h3] /\
    trace s' ≫= weights_by =
      [(model_for_pruning, ws1); (model_for_pruning, ws2); (model_for_export, ws3)] /\
    ws1 !! 1%nat = Some v1 /\ ws2 !! 1%nat = Some v2 /\ ws3 !! 0%nat = Some v3 /\
    trace s' ≫= displayed_by =
      [ ShownHistory h2; ShownVariable v1; ShownHistory h3; ShownVariable v2;
        ShownVariable v3 ] /\
    exists pruning_schedule baseline_model,
      (Pruned baseline_model pruning_schedule, model_for_pruning) ∈ trace s' ≫= model_made /\
      (Stripped model_for_pruning, model_for_export) ∈ trace s' ≫= model_made.
Proof.
  intros H. apply workflow_complete in H as (data & a & p & q & r & w' & Hfit & _ & ->).
  destruct Hfit as (_ & _ & _ & _ & P1 & P2 & P3). cbn [trace].
  exists (ba_history a), (qa_history q), (ra_history r), (ra_model r), (ra_export r),
    (ra_weights1 r), (ra_weights2 r), (ra_weights3 r),
    (ra_shown1 r), (ra_shown2 r), (ra_shown3 r).
  split; [read_log|]. split; [read_log|].
  split; [exact P1|]. split; [exact P2|]. split; [exact P3|].
  split; [read_log|].
  exists (ra_schedule r), (b_model (ba_built a)).
  rewrite model_made_workflow.
  split; apply list_elem_of_In; simpl; tauto.
Qed.

Lemma exported_inference current quantized x_test e rest :
  exported current quantized (inference_log x_test e ++ rest) =
  exported current quantized rest.
Proof.
  unfold inference_log. generalize (ev_runs e) as runs.
  induction x_test as [|image x_test IH]; intros [|run runs]; try reflexivity.
  cbn [zip_with concat]. rewrite <- app_assoc. unfold inference_round at 1.
  cbn [app exported]. apply IH.
Qed.

(** X17: The TF Lite files of a complete run: four files are opened for
    writing, each after a converter was made for a model.  The baseline
    model is converted twice, first without optimizations into
    non_quantized.tflite, then with the default optimizations into
    post_training_quantized.tflite; the quantization-aware model and the
    stripped pruned model are each converted once, with the default
    optimizations.  So the pruned model is exported quantized only. *)
Theorem tflite_files_exported w res s' :
  workflow (init w) = Done res s' ->
  exists baseline_model q_aware_model model_for_export layers m m' m'',
    exported None false (trace s') =
      [ (Some baseline_model, FILE_NON_QUANTIZED_TFLITE, false);
        (Some baseline_model, FILE_PT_QUANTIZED, true);
        (Some q_aware_model, FILE_QAT_QUANTIZED, true);
        (Some model_for_export, FILE_PRUNED_QUANTIZED_TFLITE, true) ] /\
    (Built layers, baseline_model) ∈ trace s' ≫= model_made /\
    (Quantized m, q_aware_model) ∈ trace s' ≫= model_made /\
    (Pruned baseline_model m', m'') ∈ trace s' ≫= model_made /\
    (Stripped m'', model_for_export) ∈ trace s' ≫= model_made.
Proof.
  intros H. apply workflow_complete in H as (data & a & p & q & r & w' & _ & _ & ->).
  cbn [trace].
  exists (b_model (ba_built a)), (qa_model q), (ra_export r).
  rewrite model_made_workflow.
  eexists _, (b_model (qa_built q)), (ra_schedule r), (ra_model r).
  split; [|repeat split; apply list_elem_of_In; simpl; tauto].
  open_logs.
  repeat (progress (cbn [app map exported]; rewrite ?exported_inference)).
  reflexivity.
Qed.

Ltac read_segment :=
  open_logs; repeat (progress (cbn [take drop app]; rewrite <- ?app_assoc));
  repeat first
    [ rewrite bind_cons | rewrite bind_app
    | rewrite bind_inference_quiet by (intros; reflexivity) ];
  cbn.

(** X18: Where the second and the third training start from.  In a complete
    run the weights of the baseline model are saved to
    baseline_weights.h5 before any model has been trained; between that
    call and the call that loads the file nothing writes it (the only
    training in between is that of the baseline model, which goes on
    from the weights in memory); the file is loaded into the model built
    next, which is quantized by the very next call.  So
    quantization-aware training starts from the initial, untrained
    weights of the baseline model; pruning, which comes later, wraps the
    baseline model itself, trained. *)
Theorem trainings_start_from w res s' :
  workflow (init w) = Done res s' ->
  exists t1 t2 t3 baseline_model model_to_quantize q_aware_model
         pruning_schedule model_for_pruning,
    trace s' =
      t1 ++ [Entry (KerasSaveWeights baseline_model FILE_WEIGHTS) (inr ())] ++
      t2 ++ [ Entry (KerasLoadWeights model_to_quantize FILE_WEIGHTS) (inr ());
              Entry (QuantizeModel model_to_quantize) (inr q_aware_model) ] ++
      t3 /\
    t1 ≫= training_of = [] /\
    (FILE_WEIGHTS ∉ files_written t2) /\
    map tr_model (t2 ≫= training_of) = [baseline_model] /\
    map snd (t2 ≫= model_made) = [model_to_quantize] /\
    map tr_model (t3 ≫= training_of) = [q_aware_model; model_for_pruning] /\
    (Pruned baseline_model pruning_schedule, model_for_pruning) ∈ t3 ≫= model_made.
Proof.
  intros H. apply workflow_complete in H as (data & a & p & q & r & w' & _ & _ & ->).
  cbn [trace]. set (g := setup_globals data).
  exists (setup_log data ++ take 7 (baseline_log g a)),
    (drop 8 (baseline_log g a) ++ ptq_log g a p ++ take 8 (qat_log g q)),
    (drop 10 (qat_log g q) ++ pruning_log g (b_model (ba_built a)) r),
    (b_model (ba_built a)), (b_model (qa_built q)), (qa_model q),
    (ra_schedule r), (ra_model r).
  split; [|split; [|split; [|split; [|split; [|split]]]]].
  - open_logs. repeat (progress (cbn [take drop app]; rewrite <- ?app_assoc)).
    reflexivity.
  - read_segment. reflexivity.
  - unfold files_written. read_segment.
    intros Hin. apply list_elem_of_In in Hin. simpl in Hin.
    repeat destruct Hin as [Hin|Hin]; try discriminate Hin. exact Hin.
  - read_segment. reflexivity.
  - read_segment. reflexivity.
  - read_segment. reflexivity.
  - read_segment. apply list_elem_of_In. simpl. tauto.
Qed.

(** *** What is open at the end *)

(** X2: Files and archives are closed, descriptors are not.  However a
    run of convert_tflite ends, the close of the file it has opened has
    been called, once, and nothing else has been closed.  However a run
    of get_gzipped_model_size or of the whole notebook ends, the same
    holds of every file and archive opened, in the order of opening; but
    the file descriptor that mkstemp returns open beside the path is
    dropped and never closed: a call of get_gzipped_model_size that
    returns has opened a descriptor and an archive and closed the
    archive only, and a complete run of the notebook ends with three
    descriptors open, its four files and three archives closed. *)
Theorem files_closed_descriptors_left_open :
  (forall model filename quantize,
     closes_what_it_opens (convert_tflite model filename quantize)) /\
  (forall file, closes_what_it_manages (get_gzipped_model_size file)) /\
  closes_what_it_manages workflow /\
  (forall file s size s', get_gzipped_model_size file s = Done size s' ->
     exists fd z,
       log_since s s' ≫= opened_by = [Descriptor fd; OpenArchive z] /\
       log_since s s' ≫= closed_by = [OpenArchive z]) /\
  (forall w res s', workflow (init w) = Done res s' ->
     exists f1 f2 f3 fd1 z1 fd2 z2 f4 fd3 z3,
       trace s' ≫= opened_by =
         [ OpenFile f1; OpenFile f2; OpenFile f3; Descriptor fd1; OpenArchive z1;
           Descriptor fd2; OpenArchive z2; OpenFile f4; Descriptor fd3; OpenArchive z3 ] /\
       trace s' ≫= closed_by =
         [ OpenFile f1; OpenFile f2; OpenFile f3; OpenArchive z1; OpenArchive z2;
           OpenFile f4; OpenArchive z3 ]).
Proof.
  split; [exact convert_tflite_closes_all|].
  split; [exact closes_get_gzipped_model_size|].
  split; [exact closes_workflow|]. split.
  - intros file [h w t] size s' H.
    apply get_gzipped_model_size_Done in H as (fd & zf & z & w' & ->).
    cbn [heap trace]. rewrite log_since_app. by exists fd, z.
  - intros w res s' H.
    apply workflow_run in H as (data & a & p & q & r & w' & _ & ->). cbn [trace].
    exists (cv_file (ba_conversion a)), (cv_file (pa_conversion p)),
      (cv_file (qa_conversion q)),
      (gz_fd (ra_gzip_baseline r)), (gz_zip (ra_gzip_baseline r)),
      (gz_fd (ra_gzip_pruned r)), (gz_zip (ra_gzip_pruned r)),
      (cv_file (ra_conversion r)),
      (gz_fd (ra_gzip_tflite r)), (gz_zip (ra_gzip_tflite r)).
    split; read_log.
Qed.

(** *** The tables, stage by stage *)







End Readings.

(** ** Arithmetic of the notebook *)

Lemma all_below_iter n p :
  let st := N.iter n (fun st : N * bool => (N.succ st.1, st.2 && p st.1)) (0%N, true) in
  st.1 = n /\ (st.2 = true -> forall k, (k < n)%N -> p k = true).
Proof.
  induction n as [|n IH] using N.peano_ind; simpl.
  - split; [reflexivity|]. intros _ k Hk. lia.
  - rewrite N.iter_succ. destruct IH as [IH1 IH2].
    destruct (N.iter n _ _) as [i ok]. simpl in *. subst i.
    split; [reflexivity|]. intros Hok k Hk.
    apply andb_true_iff in Hok as [Hok Hp].
    destruct (decide (k = n)) as [->|Hne]; [exact Hp|]. apply IH2; [exact Hok | lia].
Qed.

Lemma all_below_spec n p k : all_below n p = true -> (k < n)%N -> p k = true.
Proof. intros H. by apply (all_below_iter n p). Qed.

Lemma ceil_int32_shifts x : ceil_int32 x = ceil_int32_by_shifts x.
Proof.
  unfold ceil_int32, ceil_int32_by_shifts.
  destruct (Prim2SF x) as [s|s| |s m e]; try reflexivity.
  change (2 ^ 31) with 2147483648.
  destruct (Z.leb_spec 0 e) as [He|He].
  - by rewrite Z.shiftl_mul_pow2.
  - by rewrite Z.shiftr_div_pow2 by lia.
Qed.

Lemma wrap_int32_small z : - 2 ^ 31 <= z < 2 ^ 31 -> wrap_int32 z = z.
Proof. intros Hz. unfold wrap_int32. rewrite Z.mod_small; lia. Qed.

Lemma end_step_checked :
  all_below 100001
    (fun n =>
       let steps :=
         ceil_int32_by_shifts
           ((float_of_Z (Z.of_N n) * (1 - validation_split)) / float_of_Z batch_size)%float
         * epochs in
       (steps =? 2 * ((9 * Z.of_N n + 1279) / 1280)) &&
       (- 2147483648 <=? steps) && (steps <? 2147483648)) = true.
Proof. vm_compute. reflexivity. Qed.

(** X19: For a training set of up to a hundred thousand images, the end step
    of the pruning schedule, computed in floating point as
    ceil(n * (1 - 0.1) / 128) * 2, is exactly twice the number of
    batches of 128 in nine tenths of the images: twice 9n/1280 rounded
    up.  No rounding error of 0.1, of the product or of the quotient
    changes the result, and the cast to int32 does not wrap. *)
Theorem end_step_is_two_epochs_of_batches (g : globals) :
  Z.of_nat (length (train_images g)) <= 100000 ->
  end_step g = 2 * ((9 * Z.of_nat (length (train_images g)) + 1279) / 1280).
Proof.
  intros Hn. unfold end_step.
  pose proof (all_below_spec _ _ (N.of_nat (length (train_images g))) end_step_checked)
    as Hc.
  cbv beta zeta in Hc. rewrite nat_N_Z in Hc.
  assert (Hlt : (N.of_nat (length (train_images g)) < 100001)%N) by lia.
  apply Hc in Hlt. apply andb_true_iff in Hlt as [Hlt Hhi].
  apply andb_true_iff in Hlt as [Heq Hlo].
  apply Z.eqb_eq in Heq. apply Z.leb_le in Hlo. apply Z.ltb_lt in Hhi.
  rewrite ceil_int32_shifts, wrap_int32_small; [exact Heq|].
  change (2 ^ 31) with 2147483648. lia.
Qed.

Lemma normalized_checked :
  all_below 256 (fun n1 =>
    all_below 256 (fun n2 =>
      implb (n1 <? n2)%N
        (let x1 := (float_of_Z (Z.of_N n1) / 255.0)%float in
         let x2 := (float_of_Z (Z.of_N n2) / 255.0)%float in
         (x1 <? x2)%float && (round_to_float32 x1 <? round_to_float32 x2)%float))) = true.
Proof. vm_compute. reflexivity. Qed.

(** X20: The normalization keeps the order of the pixel values, and so does
    the cast to float32 of evaluate_tflite_model.  Pixel by pixel, the
    normalized image is [normalized] of the uint8 value and the tensor an
    interpreter gets is [normalized32] of it; a larger uint8 value gives
    a strictly larger float64 and a strictly larger float32, so no two
    pixel values fall together; and 0 goes to 0.0 and 255 to 1.0
    exactly. *)
Theorem normalization_is_strictly_increasing :
  (forall a : array3 byte,
     true_divide a 255.0%float = map (map (map normalized)) a) /\
  (forall image : list (list byte),
     input_tensor (map (map normalized) image) =
     [map (map (fun b => F32 (normalized32 b))) image]) /\
  (forall b1 b2 : byte,
     (Byte.to_N b1 < Byte.to_N b2)%N ->
     (normalized b1 <? normalized b2)%float = true /\
     (normalized32 b1 <? normalized32 b2)%float = true) /\
  normalized "000"%byte = 0%float /\ normalized "255"%byte = 1%float /\
  normalized32 "000"%byte = 0%float /\ normalized32 "255"%byte = 1%float.
Proof.
  split; [reflexivity|]. split.
  { intros image. unfold input_tensor, astype_float32, expand_dims0, normalized32.
    simpl. f_equal. rewrite <- list_fmap_compose. apply list_fmap_ext. intros _ row _.
    simpl. rewrite <- list_fmap_compose. reflexivity. }
  split; [|repeat split; vm_compute; reflexivity].
  intros b1 b2 Hlt.
  assert (Hb1 : (Byte.to_N b1 < 256)%N) by (pose proof (Byte.to_N_bounded b1); lia).
  assert (Hb2 : (Byte.to_N b2 < 256)%N) by (pose proof (Byte.to_N_bounded b2); lia).
  pose proof (all_below_spec _ _ (Byte.to_N b1) normalized_checked) as H1.
  cbv beta in H1.
  pose proof (all_below_spec _ _ (Byte.to_N b2) (H1 Hb1)) as H2.
  cbv beta zeta in H2. specialize (H2 Hb2).
  apply N.ltb_lt in Hlt. rewrite Hlt in H2. simpl in H2.
  apply andb_true_iff in H2 as [H64 H32].
  split; [exact H64 | exact H32].
Qed.

(** ** The splits of the dataset *)

Section Splits.
Context `{RT : Runtime}.































End Splits.

(** ** Files are written before they are read, in every run *)

Section TrackingFacts.
Context `{RT : Runtime}.

Lemma reads_follow_mono W W' t :
  (forall p, p ∈ W -> p ∈ W') -> reads_follow W t -> reads_follow W' t.
Proof.
  revert W W'. induction t as [|x t IH]; intros W W' Hsub; [done|].
  intros [Hx Ht]. split; [intros p Hp; by apply Hsub, Hx|].
  apply (IH (W ++ written_by x)); [|exact Ht].
  intros p Hp. apply elem_of_app in Hp as [Hp|Hp]; apply elem_of_app; auto.
Qed.

Lemma reads_follow_app W t1 t2 :
  reads_follow W t1 -> reads_follow (W ++ files_written t1) t2 ->
  reads_follow W (t1 ++ t2).
Proof.
  revert W. induction t1 as [|x t1 IH]; intros W H1 H2.
  - simpl. by rewrite app_nil_r in H2.
  - destruct H1 as [Hx H1]. split; [exact Hx|]. apply IH; [exact H1|].
    change (files_written (x :: t1)) with (written_by x ++ files_written t1) in H2.
    by rewrite app_assoc in H2.
Qed.

Lemma tracks_pure W {A} (m : M A) :
  (forall s, trace (final (m s)) = trace s) -> tracks W [] m.
Proof.
  intros H s. exists []. rewrite app_nil_r. split; [apply H|]. split; [done|].
  intros a s' _ p Hp. by apply elem_of_nil in Hp.
Qed.

Lemma tracks_call W {X} (e : Event X) (F : list path) :
  (forall r p, p ∈ read_by (Entry e r) -> p ∈ W) ->
  (forall x p, p ∈ F -> p ∈ written_by (Entry e (inr x))) ->
  tracks W F (call e).
Proof.
  intros Hr Hw s. unfold call. destruct (handle X e (world s)) as [r w].
  exists [Entry e r]. split; [by destruct r|]. split.
  - split; [apply Hr | done].
  - intros a s'. destruct r as [ex|x]; [discriminate|]. intros _ p Hp.
    unfold files_written. rewrite bind_singleton. by apply Hw.
Qed.

Lemma tracks_bind W {A B} (F1 F2 : list path) (m : M A) (k : A -> M B) :
  tracks W F1 m -> (forall a, tracks (W ++ F1) F2 (k a)) -> tracks W (F1 ++ F2) (bind m k).
Proof.
  intros Hm Hk s. destruct (Hm s) as (t1 & Ht1 & Hr1 & HF1). unfold bind.
  destruct (m s) as [a s1|ex s1]; simpl in *.
  - destruct (Hk a s1) as (t2 & Ht2 & Hr2 & HF2). exists (t1 ++ t2).
    rewrite Ht2, Ht1, app_assoc. split; [reflexivity|]. split.
    + apply reads_follow_app; [exact Hr1|]. eapply reads_follow_mono; [|exact Hr2].
      intros p Hp. apply elem_of_app in Hp as [Hp|Hp]; apply elem_of_app; [by left|].
      right. by apply (HF1 _ _ eq_refl).
    + intros b s' Hd p Hp. unfold files_written. rewrite bind_app.
      apply elem_of_app in Hp as [Hp|Hp]; apply elem_of_app.
      * left. by apply (HF1 _ _ eq_refl).
      * right. by apply (HF2 _ _ Hd).
  - exists t1. split; [done|]. split; [done|]. discriminate.
Qed.

Lemma tracks_weaken W W' {A} (F F' : list path) (m : M A) :
  tracks W F m -> (forall p, p ∈ W -> p ∈ W') -> (forall p, p ∈ F' -> p ∈ F) ->
  tracks W' F' m.
Proof.
  intros Hm HW HF s. destruct (Hm s) as (t & Ht & Hr & Hf). exists t.
  split; [exact Ht|]. split; [by eapply reads_follow_mono|].
  intros a s' Hd p Hp. by apply (Hf _ _ Hd), HF.
Qed.

Lemma tracks_for_each W {A B} (xs : list A) (body : A -> B -> M B) acc :
  (forall x acc, tracks W [] (body x acc)) -> tracks W [] (for_each xs body acc).
Proof.
  intros Hb. revert acc. induction xs as [|x xs IH]; intros acc; simpl.
  - by apply tracks_pure.
  - apply (tracks_bind W [] []); [apply Hb|]. intros acc'.
    eapply tracks_weaken; [apply IH | | done].
    intros p Hp. apply elem_of_app. by left.
Qed.

Ltac in_written :=
  apply list_elem_of_In; rewrite ?in_app_iff; simpl; tauto.

Ltac reads_leaf :=
  cbn [heap world trace final]; rewrite <- ?app_assoc; cbn [app];
  eexists; split; [reflexivity|];
  split;
  [ cbn [reads_follow read_by written_by];
    repeat split; intros ? Hp; apply list_elem_of_In in Hp; simpl in Hp;
    repeat destruct Hp as [<-|Hp]; try contradiction;
    apply list_elem_of_In; rewrite ?in_app_iff; simpl; tauto
  | first [ discriminate
          | intros ? ? _ ? Hp; apply list_elem_of_In in Hp; simpl in Hp;
            repeat destruct Hp as [<-|Hp]; try contradiction;
            apply list_elem_of_In; simpl; tauto ] ].

Lemma tracks_convert_tflite W model filename quantize :
  tracks W [filename] (convert_tflite model filename quantize).
Proof.
  intros s. unfold convert_tflite, bind, with_, call, ret.
  destruct (handle _ (FromKerasModel model) (world s)) as [[ex|c] w1];
    [reads_leaf|]. cbn [heap world trace].
  destruct quantize; cbn [heap world trace].
  - destruct (handle _ (SetOptimizations c [OptimizeDefault]) w1) as [[ex|[]] w2];
      [reads_leaf|]. cbn [heap world trace].
    destruct (handle _ (Convert c) w2) as [[ex|bytes] w3]; [reads_leaf|].
    cbn [heap world trace].
    destruct (handle _ (Open filename "wb") w3) as [[ex|f] w4]; [reads_leaf|].
    cbn [heap world trace].
    destruct (handle _ (FileWrite f bytes) w4) as [[ex|n] w5]; cbn [heap world trace];
      destruct (handle _ (FileClose f) w5) as [[ex'|[]] w6]; reads_leaf.
  - destruct (handle _ (Convert c) w1) as [[ex|bytes] w3]; [reads_leaf|].
    cbn [heap world trace].
    destruct (handle _ (Open filename "wb") w3) as [[ex|f] w4]; [reads_leaf|].
    cbn [heap world trace].
    destruct (handle _ (FileWrite f bytes) w4) as [[ex|n] w5]; cbn [heap world trace];
      destruct (handle _ (FileClose f) w5) as [[ex'|[]] w6]; reads_leaf.
Qed.

Lemma tracks_get_gzipped_model_size W file :
  file ∈ W -> tracks W [] (get_gzipped_model_size file).
Proof.
  intros Hin s. apply list_elem_of_In in Hin.
  unfold get_gzipped_model_size, bind, with_, call.
  destruct (handle _ (Mkstemp ".zip") (world s)) as [[ex|[fd zipped_file]] w1];
    [reads_leaf|]. cbn [heap world trace].
  destruct (handle _ (ZipFile zipped_file "w" ZIP_DEFLATED) w1) as [[ex|z] w2];
    [reads_leaf|]. cbn [heap world trace].
  destruct (handle _ (ZipWrite z file) w2) as [[ex|[]] w3]; cbn [heap world trace];
    (destruct (handle _ (ZipClose z) w3) as [[ex'|[]] w4]; [reads_leaf|]);
    cbn [heap world trace]; try reads_leaf.
  destruct (handle _ (Getsize zipped_file) w4) as [[ex'|size] w5]; reads_leaf.
Qed.

Lemma tracks_ret W {A} (a : A) : tracks W [] (ret a).
Proof. by apply tracks_pure. Qed.

Lemma tracks_lift W {A} (r : exn + A) : tracks W [] (lift r).
Proof. apply tracks_pure. intros s. by destruct r. Qed.

Lemma tracks_getitem W {A} (xs : list A) i : tracks W [] (getitem xs i).
Proof. apply tracks_pure. intros s. unfold getitem. by destruct (xs !! i). Qed.

Lemma tracks_new_dict W : tracks W [] new_dict.
Proof. by apply tracks_pure. Qed.

Lemma tracks_dict_items W d : tracks W [] (dict_items d).
Proof. apply tracks_pure. intros s. unfold dict_items. by destruct (heap s !! d). Qed.

Lemma tracks_dict_setitem W d k v : tracks W [] (dict_setitem d k v).
Proof. apply tracks_pure. intros s. unfold dict_setitem. by destruct (heap s !! d). Qed.

(** A run that returns promises no file. *)
Lemma tracks_nothing W {A} (F : list path) (m : M A) : tracks W F m -> tracks W [] m.
Proof.
  intros H. apply (tracks_weaken W W F); [exact H | done|].
  intros p Hp. by apply elem_of_nil in Hp.
Qed.

Ltac tracks_call_tac :=
  lazymatch goal with
  | |- tracks _ _ (call (KerasSave _ ?p _)) => apply (tracks_call _ _ [p])
  | |- tracks _ _ (call (KerasSaveWeights _ ?p)) => apply (tracks_call _ _ [p])
  | |- tracks _ _ (call _) => apply (tracks_call _ _ [])
  end;
  [ intros [?|?] ? Hp; apply list_elem_of_In in Hp; simpl in Hp;
    first [ contradiction | destruct Hp as [<-|[]]; in_written ]
  | intros ? ? Hp; apply list_elem_of_In in Hp; simpl in Hp;
    first [ contradiction
          | destruct Hp as [<-|[]]; apply list_elem_of_In; simpl; tauto ] ].

Ltac tracks_step :=
  first
    [ apply tracks_ret | apply tracks_getitem | apply tracks_lift
    | apply tracks_new_dict | apply tracks_dict_items | apply tracks_dict_setitem
    | tracks_call_tac
    | apply tracks_for_each; intros [? ?] ?
    | eapply tracks_bind; [|intros ?]
    | match goal with
      | |- tracks _ _ (let '(_, _) := ?p in _) => destruct p
      end ].

Lemma tracks_print_metric W d name : tracks W [] (print_metric d name).
Proof.
  eapply tracks_nothing. unfold print_metric.
  eapply tracks_bind; [apply tracks_dict_items|]. intros items.
  apply tracks_for_each. intros [k v] []. tracks_call_tac.
Qed.

Lemma tracks_model_builder W : tracks W [] model_builder.
Proof. eapply tracks_nothing. unfold model_builder. repeat tracks_step. Qed.

Lemma tracks_evaluate_step W i a b image acc : tracks W [] (evaluate_step i a b image acc).
Proof. eapply tracks_nothing. unfold evaluate_step. repeat tracks_step. Qed.

Lemma tracks_evaluate_tflite_model W filename x_test y_test :
  filename ∈ W -> tracks W [] (evaluate_tflite_model filename x_test y_test).
Proof.
  intros Hin. apply list_elem_of_In in Hin.
  eapply tracks_nothing. unfold evaluate_tflite_model.
  do 6 (eapply tracks_bind; [solve [repeat tracks_step] | intros ?]).
  eapply tracks_bind; [|intros ?; repeat tracks_step].
  apply tracks_for_each. intros [k image] acc. apply tracks_evaluate_step.
Qed.

Ltac tracks_cell :=
  first
    [ apply tracks_print_metric | apply tracks_model_builder
    | apply tracks_convert_tflite
    | apply tracks_evaluate_tflite_model; in_written
    | apply tracks_get_gzipped_model_size; in_written
    | tracks_step ].

Lemma tracks_workflow : exists F, tracks [] F workflow.
Proof.
  eexists.
  unfold workflow, stage_setup, stage_baseline, stage_ptq, stage_qat, stage_pruning,
    cell_0, cell_2, cell_4, cell_12, cell_13, cell_14, cell_16, cell_17, cell_18,
    cell_20, cell_23, cell_24, cell_25, cell_27, cell_29, cell_31, cell_33, cell_34,
    cell_35, cell_36, preview_weights.
  repeat tracks_cell.
Qed.

(** X22: in every run of the notebook, complete or not, every file a
    call reads (to load weights, to make an interpreter, to take a size,
    to add to an archive) has been written by an earlier call of the same
    run.  The notebook never depends on a file left by an earlier
    session, and a run that stops on an exception has read no file it
    had not written itself. *)
Theorem files_are_written_before_read_in_every_run s :
  exists t,
    trace (final (workflow s)) = trace s ++ t /\ written_before_read t.
Proof.
  destruct tracks_workflow as (F & HF). destruct (HF s) as (t & Ht & Hr & _).
  exists t. split; [exact Ht|]. by apply reads_follow_sound.
Qed.

End TrackingFacts.

(** ** More runs on the small runtime *)

Lemma Raised_intro `{RT : Runtime} {A} (o : outcome A) ex h w t :
  outcome_exn o = Some ex -> heap (final o) = h -> world (final o) = w ->
  trace (final o) = t -> o = Raised ex (State h w t).
Proof.
  destruct o as [|ex' [h' w' t']]; [discriminate|]. simpl.
  intros [= ->] -> -> ->. reflexivity.
Qed.

(** Evaluates a run that raises on the small runtime. *)
Ltac compute_raise m H :=
  let r := eval vm_compute in (outcome_exn m) in
  let h := eval vm_compute in (heap (final m)) in
  let w := eval vm_compute in (world (final m)) in
  let t := eval vm_compute in (trace (final m)) in
  lazymatch r with
  | Some ?ex =>
      assert (H : m = Raised ex (@State Toy.runtime h w t))
        by (apply Raised_intro; vm_compute; reflexivity)
  end.

(** Three images and two labels: no result. *)
Lemma evaluate_tflite_model_needs_matching_labels_witness :
  let s := @init Toy.runtime (Toy.write_file "model.tflite" 11 (Toy.world0 [])) in
  length toy_test_images <> length [1; 0] /\
  returned (@evaluate_tflite_model Toy.runtime "model.tflite" toy_test_images [1; 0] s)
    = None.
Proof.
  intros s. split; [vm_compute; discriminate|].
  apply (evaluate_tflite_model_needs_matching_labels (RT := Toy.runtime));
    vm_compute; discriminate.
Defined.

(** Three images and the single label 1: the share of images predicted
    as 1. *)
Lemma evaluate_tflite_model_broadcasts_single_label_witness :
  let s := @init Toy.runtime (Toy.write_file "model.tflite" 11 (Toy.world0 [])) in
  exists accuracy s' digits,
    @evaluate_tflite_model Toy.runtime "model.tflite" toy_test_images [1] s
      = Done accuracy s' /\
    length digits = 3%nat /\
    accuracy = (float_of_Z (Z.of_nat (agreeing 1 digits)) / 3)%float.
Proof.
  intros s.
  compute_run (@evaluate_tflite_model Toy.runtime "model.tflite" toy_test_images [1] s) H.
  destruct (evaluate_tflite_model_broadcasts_single_label (RT := Toy.runtime) _ _ _ _ _ _ H)
    as (e & digits & _ & _ & Hl & Hacc).
  eexists _, _, digits. split; [exact H|]. split; [exact Hl | exact Hacc].
Defined.

(** No image at all. *)
Lemma evaluate_tflite_model_empty_test_set_witness :
  let s := @init Toy.runtime (Toy.write_file "model.tflite" 11 (Toy.world0 [])) in
  exists accuracy s',
    @evaluate_tflite_model Toy.runtime "model.tflite" [] [] s = Done accuracy s' /\
    is_nan accuracy = true /\ length (trace s') = 4%nat.
Proof.
  intros s.
  compute_run (@evaluate_tflite_model Toy.runtime "model.tflite" [] [] s) H.
  destruct (evaluate_tflite_model_empty_test_set (RT := Toy.runtime) _ _ _ _ _ H)
    as (Hnan & _ & i & ins & outs & Ht).
  eexists _, _. split; [exact H|]. split; [exact Hnan|]. rewrite Ht. reflexivity.
Defined.

(** Three images and two labels, every call returning: the comparison
    raises after the three inferences. *)
Lemma evaluate_tflite_model_failures_witness :
  let s := @init Toy.runtime (Toy.write_file "model.tflite" 11 (Toy.world0 [])) in
  exists s' t,
    @evaluate_tflite_model Toy.runtime "model.tflite" toy_test_images [1; 0] s
      = Raised ComparisonError s' /\
    trace s' = trace s ++ t /\
    (inference_failure ComparisonError t \/
     label_count_failure "model.tflite" toy_test_images [1; 0] ComparisonError t).
Proof.
  intros s.
  compute_raise (@evaluate_tflite_model Toy.runtime "model.tflite" toy_test_images
                   [1; 0] s) H.
  destruct (evaluate_tflite_model_failures (RT := Toy.runtime) _ _ _ _ _ _ H)
    as (_ & t & Ht & Hf).
  eexists _, t. split; [exact H|]. split; [exact Ht | exact Hf].
Defined.

(** A complete run of the notebook on the small runtime. *)
Lemma models_made_and_trained_witness :
  exists res s',
    @workflow Toy.runtime (toy_init []) = Done res s' /\
    map tr_epochs (trace s' ≫= training_of) = [1; 1; 2] /\
    length (trace s' ≫= model_made) = 5%nat.
Proof.
  compute_run (@workflow Toy.runtime (toy_init [])) H.
  destruct (models_made_and_trained (RT := Toy.runtime) _ _ _ H)
    as (data & l & l' & m1 & m2 & m3 & sc & m4 & m5 & cb & _ & Hm & Ht).
  eexists _, _. split; [exact H|]. rewrite Hm, Ht. split; reflexivity.
Defined.

Lemma keras_models_evaluated_witness :
  exists res s' acc,
    @workflow Toy.runtime (toy_init []) = Done res s' /\
    table s' (ACCURACY res.1) !! 0%nat = Some (VStr "pruned model h5", VFloat acc) /\
    length (trace s' ≫= measured_by) = 3%nat.
Proof.
  compute_run (@workflow Toy.runtime (toy_init [])) H.
  destruct (keras_models_evaluated (RT := Toy.runtime) _ _ _ H)
    as (data & m1 & m2 & sc & m3 & m4 & a1 & a2 & a3 & _ & Hm & _ & _ & _ & _ & _ & Ht).
  eexists _, _, a3. split; [exact H|]. split; [exact Ht|]. rewrite Hm. reflexivity.
Defined.

Lemma interpreters_run_the_test_set_witness :
  exists res s',
    @workflow Toy.runtime (toy_init []) = Done res s' /\
    length (trace s' ≫= fed) = 12%nat /\
    Forall (Forall (Forall (Forall float32_in_unit_interval))) (trace s' ≫= fed).
Proof.
  compute_run (@workflow Toy.runtime (toy_init [])) H.
  destruct (interpreters_run_the_test_set (RT := Toy.runtime) _ _ _ H)
    as (data & _ & _ & _ & Hin).
  eexists _, _. split; [exact H|]. split; [vm_compute; reflexivity | exact Hin].
Defined.

Lemma sizes_recorded_witness :
  exists res s',
    @workflow Toy.runtime (toy_init []) = Done res s' /\
    map fst (trace s' ≫= sized_by) =
      [ FILE_NON_QUANTIZED_H5; FILE_NON_QUANTIZED_TFLITE; FILE_PT_QUANTIZED;
        FILE_NON_QUANTIZED_H5; FILE_PRUNED_MODEL_H5 ] ++ temporary_files (trace s').
Proof.
  compute_run (@workflow Toy.runtime (toy_init [])) H.
  destruct (sizes_recorded (RT := Toy.runtime) _ _ _ H)
    as (z1 & z2 & z3 & z4 & z5 & zip1 & z6 & zip2 & z7 & zip3 & z8 & Hs & Ht & _).
  eexists _, _. split; [exact H|]. rewrite Hs, Ht. reflexivity.
Defined.

Lemma values_shown_witness :
  exists res s',
    @workflow Toy.runtime (toy_init []) = Done res s' /\
    length (trace s' ≫= displayed_by) = 5%nat.
Proof.
  compute_run (@workflow Toy.runtime (toy_init [])) H.
  destruct (values_shown (RT := Toy.runtime) _ _ _ H)
    as (h1 & h2 & h3 & m1 & m2 & ws1 & ws2 & ws3 & v1 & v2 & v3 & _ & _ & _ & _ & _ & Hd & _).
  eexists _, _. split; [exact H|]. rewrite Hd. reflexivity.
Defined.

Lemma tflite_files_exported_witness :
  exists res s',
    @workflow Toy.runtime (toy_init []) = Done res s' /\
    map (fun x => (x.1.2, x.2)) (exported None false (trace s')) =
      [ (FILE_NON_QUANTIZED_TFLITE, false); (FILE_PT_QUANTIZED, true);
        (FILE_QAT_QUANTIZED, true); (FILE_PRUNED_QUANTIZED_TFLITE, true) ].
Proof.
  compute_run (@workflow Toy.runtime (toy_init [])) H.
  destruct (tflite_files_exported (RT := Toy.runtime) _ _ _ H)
    as (m1 & m2 & m3 & l & m & m' & m'' & He & _).
  eexists _, _. split; [exact H|]. rewrite He. reflexivity.
Defined.

Lemma trainings_start_from_witness :
  exists res s' t1 t2 t3 m m' m'',
    @workflow Toy.runtime (toy_init []) = Done res s' /\
    trace s' =
      t1 ++ [Entry (KerasSaveWeights m FILE_WEIGHTS) (inr ())] ++
      t2 ++ [ Entry (KerasLoadWeights m' FILE_WEIGHTS) (inr ());
              Entry (QuantizeModel m') (inr m'') ] ++
      t3 /\
    t1 ≫= training_of = [] /\
    map tr_model (t2 ≫= training_of) = [m].
Proof.
  compute_run (@workflow Toy.runtime (toy_init [])) H.
  destruct (trainings_start_from (RT := Toy.runtime) _ _ _ H)
    as (t1 & t2 & t3 & m1 & m2 & m3 & sc & m4 & Ht & H1 & _ & H2 & _).
  eexists _, _, t1, t2, t3, m1, m2, m3.
  split; [exact H|]. split; [exact Ht|]. split; [exact H1 | exact H2].
Defined.

(** The training set of MNIST has 60000 images: 844 steps. *)
Lemma end_step_is_two_epochs_of_batches_witness :
  let g := Globals 0%nat 1%nat (replicate (Z.to_nat 60000) []) [] [] [] in
  Z.of_nat (length (train_images g)) <= 100000 /\ end_step g = 844.
Proof.
  intros g.
  assert (Hn : Z.of_nat (length (train_images g)) <= 100000) by (vm_compute; discriminate).
  split; [exact Hn|].
  rewrite (end_step_is_two_epochs_of_batches g Hn). vm_compute. reflexivity.
Defined.

Lemma normalization_is_strictly_increasing_witness :
  (Byte.to_N "127" < Byte.to_N "128")%N /\
  (normalized32 "127" <? normalized32 "128")%float = true.
Proof.
  assert (H : (Byte.to_N "127" < Byte.to_N "128")%N) by (vm_compute; reflexivity).
  split; [exact H|].
  destruct normalization_is_strictly_increasing as (_ & _ & Hinc & _).
  exact (proj2 (Hinc "127"%byte "128"%byte H)).
Defined.


